(** * connectivity-srm: encoding model and time-segment classification

    A shallow embedding of [encoding_model.py] and [ts_classification.py].
    Arrays hold IEEE binary64 numbers (Rocq's primitive floats), Python
    integers are [Z], exceptions are values of an error monad, and the
    nested results cache is a finite map. *)

From Stdlib Require Import ZArith Floats Uint63.
From stdpp Require Import gmap strings pretty list fin_maps.

Local Open Scope Z_scope.

(** ** Python: exceptions, slices, dictionaries *)

Module Py.

Inductive exn :=
| ValueError
| IndexError
| KeyError (key : string)
| NameError (name : string)
| TypeError
| AssertionError
| ZeroDivisionError
| OSError (path : string).

Inductive result (A : Type) :=
| Ok (a : A)
| Raise (e : exn).
Arguments Ok {A} a.
Arguments Raise {A} e.

#[export] Instance result_ret : MRet result := @Ok.
#[export] Instance result_bind : MBind result := λ A B f m,
  match m with
  | Ok a => f a
  | Raise e => Raise e
  end.

Definition raises {A} (m : result A) : Prop :=
  match m with
  | Ok _ => False
  | Raise _ => True
  end.

(** [assert cond] *)
Definition assert (cond : bool) : result unit :=
  if cond then Ok tt else Raise AssertionError.

(** Where a slice bound [i] lands in a sequence of length [n]: negative
    bounds count from the end, and every bound is clipped to [0..n]. *)
Definition slice_index (n : nat) (i : Z) : nat :=
  if i <? 0 then Z.to_nat (Z.max (Z.of_nat n + i) 0)
  else Z.to_nat (Z.min i (Z.of_nat n)).

(** [l[start:stop]], a missing bound being [None] *)
Definition slice {A} (l : list A) (start stop : option Z) : list A :=
  let lo := from_option (slice_index (length l)) 0%nat start in
  let hi := from_option (slice_index (length l)) (length l) stop in
  take (hi - lo) (drop lo l).

(** [x or None] for an integer [x]: zero is falsy. *)
Definition or_None (x : Z) : option Z :=
  if x =? 0 then None else Some x.

(** [a // b] and [a % b] on integers: floor division, the remainder taking
    the sign of the divisor, both raising on a zero divisor. *)
Definition floordiv (a b : Z) : result Z :=
  if b =? 0 then Raise ZeroDivisionError else Ok (a `div` b).
Definition modulo (a b : Z) : result Z :=
  if b =? 0 then Raise ZeroDivisionError else Ok (a `mod` b).

(** [float(z)], exact for the magnitudes below [2^53] that counts and array
    sizes have. *)
Definition float_of_Z (z : Z) : float :=
  if z <? 0 then (- PrimFloat.of_uint63 (Uint63.of_Z (- z)))%float
  else PrimFloat.of_uint63 (Uint63.of_Z z).

(** [a / b] on integers: true division into a float. *)
Definition truediv (a b : Z) : result float :=
  if b =? 0 then Raise ZeroDivisionError
  else Ok (float_of_Z a / float_of_Z b)%float.

(** [for x in l: state = body(state, x)], stopping at the first exception. *)
Fixpoint for_each {S A} (l : list A) (state : S) (body : S → A → result S) : result S :=
  match l with
  | [] => Ok state
  | x :: l' => state' ← body state x; for_each l' state' body
  end.

(** [l[i]] for a non-negative index *)
Definition item {A} (l : list A) (i : nat) : result A :=
  match l !! i with
  | Some x => Ok x
  | None => Raise IndexError
  end.

(** A [dict] keeps its keys in insertion order; assigning to a key that is
    present replaces the value in place. *)
Definition dict (V : Type) := list (string * V).

Fixpoint dict_get {V} (d : dict V) (k : string) : result V :=
  match d with
  | [] => Raise (KeyError k)
  | (k', v) :: d' => if String.eqb k' k then Ok v else dict_get d' k
  end.

Fixpoint dict_set {V} (d : dict V) (k : string) (v : V) : dict V :=
  match d with
  | [] => [(k, v)]
  | (k', v') :: d' =>
      if String.eqb k' k then (k, v) :: d' else (k', v') :: dict_set d' k v
  end.

Definition keys {V} (d : dict V) : list string := d.*1.

End Py.
Export Py.

(** ** NumPy: two-dimensional arrays *)

Module Np.

(** A 2-D array keeps its column count apart from its rows, so that an
    array with no rows still has a shape [(0, ncols)]. *)
Record ndarray := NdArray { ncols : nat; rows : list (list float) }.

Definition nrows (a : ndarray) : nat := length (rows a).
Definition shape (a : ndarray) : nat * nat := (nrows a, ncols a).

Definition wf (a : ndarray) : Prop :=
  Forall (λ r, length r = ncols a) (rows a).

(** [np.full((n, f), x)] *)
Definition full (n : Z) (f : nat) (x : float) : result ndarray :=
  if n <? 0 then Raise ValueError
  else Ok (NdArray f (replicate (Z.to_nat n) (replicate f x))).

(** [a[start:stop]] and [a[start:stop, :]] *)
Definition slice_rows (a : ndarray) (start stop : option Z) : ndarray :=
  NdArray (ncols a) (Py.slice (rows a) start stop).

(** [np.vstack((a, b))] *)
Definition vstack2 (a b : ndarray) : result ndarray :=
  if decide (ncols a = ncols b) then Ok (NdArray (ncols a) (rows a ++ rows b))
  else Raise ValueError.

(** [np.hstack(l)]: the arrays side by side; they must agree on the number
    of rows, and there must be at least one. *)
Fixpoint hstack (l : list ndarray) : result ndarray :=
  match l with
  | [] => Raise ValueError
  | [a] => Ok a
  | a :: l' =>
      b ← hstack l';
      if decide (nrows a = nrows b)
      then Ok (NdArray (ncols a + ncols b) (zip_with app (rows a) (rows b)))
      else Raise ValueError
  end.

(** [a[np.isnan(a)] = 0] *)
Definition nan_to_zero (x : float) : float :=
  if PrimFloat.is_nan x then 0%float else x.
Definition zero_nans (a : ndarray) : ndarray :=
  NdArray (ncols a) (map (map nan_to_zero) (rows a)).

(** [a[:, mask]] for a boolean [mask]: the columns the mask selects; a
    mask of another length than the row is an [IndexError]. *)
Definition select_columns (a : ndarray) (mask : list bool) : result ndarray :=
  if decide (length mask = ncols a)
  then Ok (NdArray (length (filter (λ b, b = true) mask))
                   (map (λ r, (filter (λ p, p.1 = true) (zip mask r)).*2) (rows a)))
  else Raise IndexError.

(** [a[:, j]] *)
Definition column (a : ndarray) (j : nat) : result (list float) :=
  if decide (j < ncols a)%nat then Ok (map (λ r, nth j r 0%float) (rows a))
  else Raise IndexError.

(** [np.add.reduce] over [n] float64 numbers that lie along the axis the
    reduction runs fastest on: NumPy's pairwise summation
    ([DOUBLE_pairwise_sum]). Fewer than 8 numbers are added in order, from
    [-0.0] on. Up to 128 numbers are added in 8 running sums, [r[j]] taking
    the numbers [j], [j + 8], [j + 16], ... of the leading multiple of 8;
    the 8 sums are added as a tree and the numbers that are left are added
    to the result in order. More than 128 numbers are cut in two at
    [n / 2] rounded down to a multiple of 8, and the sums of the two parts
    are added. *)
Fixpoint add_groups (groups : nat) (r l : list float) : list float * list float :=
  match groups with
  | O => (r, l)
  | S groups' => add_groups groups' (zip_with PrimFloat.add r (take 8 l)) (drop 8 l)
  end.

Definition add_tree (r : list float) : float :=
  let x (i : nat) := nth i r 0%float in
  (((x 0%nat + x 1%nat) + (x 2%nat + x 3%nat))
   + ((x 4%nat + x 5%nat) + (x 6%nat + x 7%nat)))%float.

Definition block_sum (l : list float) : float :=
  let '(r, rest) := add_groups (length l / 8 - 1) (take 8 l) (drop 8 l) in
  foldl PrimFloat.add (add_tree r) rest.

(** The recursion halves the numbers, so [fuel] at least their number is
    never used up. *)
Fixpoint pairwise_sum_rec (fuel : nat) (l : list float) : float :=
  let n := length l in
  if (n <? 8)%nat then foldl PrimFloat.add PrimFloat.neg_zero l
  else if (n <=? 128)%nat then block_sum l
  else
    match fuel with
    | O => block_sum l
    | S fuel' =>
        let n2 := (n / 2 - (n / 2) mod 8)%nat in
        (pairwise_sum_rec fuel' (take n2 l) + pairwise_sum_rec fuel' (drop n2 l))%float
    end.

Definition pairwise_sum (l : list float) : float := pairwise_sum_rec (length l) l.

(** [np.mean(a, axis=0)] of the rows [l], each of [f] entries, of a float64
    array in C order: the sum along axis 0 divided by the number of rows.
    With two columns or more the reduction goes row by row, so each column
    is added up in order, from the first row on; a single column is one run
    of numbers and is added up by [pairwise_sum]. Without rows the sum is
    zero. *)
Definition sum_axis0 (f : nat) (l : list (list float)) : list float :=
  match l with
  | [] => replicate f 0%float
  | r :: l' =>
      if (f =? 1)%nat then [pairwise_sum (map (λ r, nth 0 r 0%float) l)]
      else foldl (zip_with PrimFloat.add) r l'
  end.
Definition mean_axis0 (f : nat) (l : list (list float)) : list float :=
  map (λ s, s / float_of_Z (Z.of_nat (length l)))%float (sum_axis0 f l).

(** [np.ravel(a)] *)
Definition ravel (l : list (list float)) : list float := concat l.

(** [np.vstack(l)] of 1-D arrays: one row each, all of one length. *)
Definition vstack_rows (l : list (list float)) : result ndarray :=
  match l with
  | [] => Raise ValueError
  | r :: l' =>
      if forallb (λ r', Nat.eqb (length r') (length r)) l'
      then Ok (NdArray (length r) l)
      else Raise ValueError
  end.

(** [np.array_split(l, n)] along the first axis: [n] sections, the first
    [len(l) % n] one longer than the others. *)
Fixpoint split_at_sizes {A} (sizes : list nat) (l : list A) : list (list A) :=
  match sizes with
  | [] => []
  | s :: sizes' => take s l :: split_at_sizes sizes' (drop s l)
  end.

Definition array_split {A} (l : list A) (n : Z) : result (list (list A)) :=
  if n <=? 0 then Raise ValueError
  else
    let n := Z.to_nat n in
    let each := (length l / n)%nat in
    let extras := (length l `mod` n)%nat in
    Ok (split_at_sizes (replicate extras (S each) ++ replicate (n - extras) each) l).

End Np.
Export Np.

(** ** encoding_model.py *)

Module EncodingModel.

(** One story of [metadata.json]: the embedding's file, the two trims
    [[start, end]] and the subjects' surface files. *)
Record story_meta := StoryMeta {
  meta_model : string;
  meta_model_trims : Z * Z;
  meta_data : dict string;
  meta_data_trims : Z * Z
}.

(** [inputs[story]]: the delayed model and the subjects' data. *)
Record story_inputs := StoryInputs {
  inputs_model : ndarray;
  inputs_data : dict ndarray
}.

(** A split: the list [[(first, second), (second, first)]]. *)
Definition splits := list (ndarray * ndarray).

Definition default_delays : list Z := [2; 3; 4; 5].

(** [a[trims[0]:(-trims[1] or None), :]] *)
Definition trim (a : ndarray) (trims : Z * Z) : ndarray :=
  slice_rows a (Some trims.1) (or_None (- trims.2)).

Section Functions.

(** [scipy.stats.zscore(a, axis=0)] *)
Variable zscore : ndarray → ndarray.
(** [np.load(fn)] and [utils.read_gifti(fn)]: the file's array, or the
    exception of a file that cannot be read. *)
Variable np_load : string → result ndarray.
Variable read_gifti : string → result ndarray.

(** The block of one delay:
    [np.vstack((np.full((delay, embedding.shape[1]), np.nan), embedding[:-delay]))] *)
Definition delay_block (embedding : ndarray) (delay : Z) : result ndarray :=
  pad ← full delay (ncols embedding) PrimFloat.nan;
  vstack2 pad (slice_rows embedding None (Some (- delay))).

Definition delay_embedding (embedding : ndarray) (delays : list Z)
    (zscore_features : bool) : result ndarray :=
  delayed ← mapM (delay_block embedding) delays;
  delayed ← hstack delayed;
  let delayed := zero_nans delayed in
  let delayed := if zscore_features then zscore delayed else delayed in
  Ok delayed.

(** The body of [for subject in subjects] in [load_inputs]. *)
Definition load_subject (meta : story_meta) (mask : option (list bool))
    (model : ndarray) (data : dict ndarray) (subject : string) : result (dict ndarray) :=
  data_fn ← dict_get (meta_data meta) subject;
  surf_data ← read_gifti data_fn;
  let surf_data := trim surf_data (meta_data_trims meta) in
  if negb (nrows model =? nrows surf_data)%nat then Raise ValueError
  else
    surf_data ← match mask with
                | Some mask => select_columns surf_data mask
                | None => Ok surf_data
                end;
    Ok (dict_set data subject surf_data).

(** The body of [for story in stories] in [load_inputs]. *)
Definition load_story (metadata : dict story_meta) (mask : option (list bool))
    (inputs : dict story_inputs) (story : string) : result (dict story_inputs) :=
  meta ← dict_get metadata story;
  embedding ← np_load (meta_model meta);
  let embedding := trim embedding (meta_model_trims meta) in
  model ← delay_embedding embedding default_delays false;
  data ← for_each (keys (meta_data meta)) [] (load_subject meta mask model);
  Ok (dict_set inputs story (StoryInputs model data)).

Definition load_inputs (metadata : dict story_meta) (stories : option (list string))
    (mask : option (list bool)) : result (dict story_inputs) :=
  let stories := match stories with
                 | None | Some [] => keys metadata
                 | Some stories => stories
                 end in
  for_each stories [] (load_story metadata mask).

(** [(a[:midpoint], a[midpoint:])], each half z-scored on its own when asked. *)
Definition halves (a : ndarray) (midpoint : nat) (zscore_halves : bool) : ndarray * ndarray :=
  let first := slice_rows a None (Some (Z.of_nat midpoint)) in
  let second := slice_rows a (Some (Z.of_nat midpoint)) None in
  if zscore_halves then (zscore first, zscore second) else (first, second).

(** The body of [for subject in inputs[story]['data']] in [split_half]. *)
Definition split_subject (story_in : story_inputs) (midpoint : nat) (zscore_data : bool)
    (data_splits : dict splits) (subject : string) : result (dict splits) :=
  data ← dict_get (inputs_data story_in) subject;
  _ ← assert (nrows data =? nrows (inputs_model story_in))%nat;
  let '(first_data, second_data) := halves data midpoint zscore_data in
  Ok (dict_set data_splits subject [(first_data, second_data); (second_data, first_data)]).

(** The body of [for story in inputs] in [split_half]. *)
Definition split_story (inputs : dict story_inputs) (zscore_data zscore_model : bool)
    (acc : dict splits * dict (dict splits)) (story : string)
    : result (dict splits * dict (dict splits)) :=
  let '(model_splits, data_splits) := acc in
  story_in ← dict_get inputs story;
  let model := inputs_model story_in in
  let midpoint := (nrows model / 2)%nat in
  let '(first_model, second_model) := halves model midpoint zscore_model in
  let model_splits :=
    dict_set model_splits story [(first_model, second_model); (second_model, first_model)] in
  subject_splits ← for_each (keys (inputs_data story_in)) []
                     (split_subject story_in midpoint zscore_data);
  Ok (model_splits, dict_set data_splits story subject_splits).

Definition split_half (inputs : dict story_inputs) (zscore_data zscore_model : bool)
    : result (dict splits * dict (dict splits)) :=
  for_each (keys inputs) ([], []) (split_story inputs zscore_data zscore_model).

End Functions.

(** *** Name resolution

    [rank_accuracy] calls [cdist] and [rankdata] through global names, which
    Python looks up when the call runs: in the module's globals, then in the
    builtins, and a name bound in neither is a [NameError]. *)

(** What library functions take and return. *)
Inductive value :=
| VFloat (x : float)
| VVector (v : list float)
| VMatrix (a : ndarray)
| VStr (s : string).

(** What a name is bound to: something callable, or an object that
    [rank_accuracy] never calls. *)
Inductive pyobj :=
| PyCallable (f : list value → result value)
| PyObject.

Definition namespace := dict pyobj.

Definition load_global (globals builtins : namespace) (name : string) : result pyobj :=
  match dict_get globals name with
  | Ok o => Ok o
  | Raise _ =>
      match dict_get builtins name with
      | Ok o => Ok o
      | Raise _ => Raise (NameError name)
      end
  end.

Definition call (o : pyobj) (args : list value) : result value :=
  match o with
  | PyCallable f => f args
  | PyObject => Raise TypeError
  end.

Definition as_matrix (v : value) : result ndarray :=
  match v with
  | VMatrix a => Ok a
  | _ => Raise TypeError
  end.

Definition as_vector (v : value) : result (list float) :=
  match v with
  | VVector l => Ok l
  | _ => Raise TypeError
  end.

Definition bound_names (names : list string) : namespace :=
  map (λ name, (name, PyObject)) names.

(** Every name the module binds at its top level: the imports of lines 1-7,
    the assignments and the four [def]s. *)
Definition module_globals : namespace :=
  bound_names
  ["__name__"; "__doc__"; "__package__"; "__loader__"; "__spec__"; "__file__";
   "__builtins__";
   "json"; "np"; "Ridge"; "make_scorer"; "GridSearchCV"; "KFold"; "zscore";
   "array_correlation"; "read_gifti"; "write_gifti";
   "f"; "metadata"; "n_vertices"; "model_ndim"; "delays"; "mask";
   "delay_embedding"; "load_inputs"; "inputs"; "split_half";
   "model_splits"; "data_splits"; "train_story"; "test_story";
   "train_subject"; "test_subject"; "cv_fold"; "train_model"; "test_model";
   "train_data"; "test_data"; "correlation_scorer"; "alpha"; "ridge";
   "coefficients"; "predicted_data"; "performance"; "collapse_coef";
   "collapse_test_model"; "predicted_model"; "rank_accuracy"; "accuracy";
   "results"; "template_fn"; "grid_search"; "alphas"; "best_alphas";
   "best_scores"; "all_scores"].

(** The names of Python's [builtins] module. *)
Definition python_builtins : namespace :=
  bound_names
  ["ArithmeticError"; "AssertionError"; "AttributeError"; "BaseException";
   "BaseExceptionGroup"; "BlockingIOError"; "BrokenPipeError";
   "BufferError"; "BytesWarning"; "ChildProcessError";
   "ConnectionAbortedError"; "ConnectionError"; "ConnectionRefusedError";
   "ConnectionResetError"; "DeprecationWarning"; "EOFError"; "Ellipsis";
   "EncodingWarning"; "EnvironmentError"; "Exception"; "ExceptionGroup";
   "False"; "FileExistsError"; "FileNotFoundError"; "FloatingPointError";
   "FutureWarning"; "GeneratorExit"; "IOError"; "ImportError";
   "ImportWarning"; "IndentationError"; "IndexError"; "InterruptedError";
   "IsADirectoryError"; "KeyError"; "KeyboardInterrupt"; "LookupError";
   "MemoryError"; "ModuleNotFoundError"; "NameError"; "None";
   "NotADirectoryError"; "NotImplemented"; "NotImplementedError"; "OSError";
   "OverflowError"; "PendingDeprecationWarning"; "PermissionError";
   "ProcessLookupError"; "RecursionError"; "ReferenceError";
   "ResourceWarning"; "RuntimeError"; "RuntimeWarning";
   "StopAsyncIteration"; "StopIteration"; "SyntaxError"; "SyntaxWarning";
   "SystemError"; "SystemExit"; "TabError"; "TimeoutError"; "True";
   "TypeError"; "UnboundLocalError"; "UnicodeDecodeError";
   "UnicodeEncodeError"; "UnicodeError"; "UnicodeTranslateError";
   "UnicodeWarning"; "UserWarning"; "ValueError"; "Warning";
   "ZeroDivisionError"; "__build_class__"; "__debug__"; "__doc__";
   "__import__"; "__loader__"; "__name__"; "__package__"; "__spec__"; "abs";
   "aiter"; "all"; "anext"; "any"; "ascii"; "bin"; "bool"; "breakpoint";
   "bytearray"; "bytes"; "callable"; "chr"; "classmethod"; "compile";
   "complex"; "copyright"; "credits"; "delattr"; "dict"; "dir"; "divmod";
   "enumerate"; "eval"; "exec"; "exit"; "filter"; "float"; "format";
   "frozenset"; "getattr"; "globals"; "hasattr"; "hash"; "help"; "hex";
   "id"; "input"; "int"; "isinstance"; "issubclass"; "iter"; "len";
   "license"; "list"; "locals"; "map"; "max"; "memoryview"; "min"; "next";
   "object"; "oct"; "open"; "ord"; "pow"; "print"; "property"; "quit";
   "range"; "repr"; "reversed"; "round"; "set"; "setattr"; "slice";
   "sorted"; "staticmethod"; "str"; "sum"; "super"; "tuple"; "type"; "vars";
   "zip"].

Section Decoding.

(** [np.mean] of a 1-D array *)
Variable np_mean : list float → float.

(** [rank_accuracy], run with the given globals and builtins. *)
Definition rank_accuracy (globals builtins : namespace)
    (predicted_model test_model : ndarray) (mean : bool) : result value :=
  let n_predictions := nrows predicted_model in
  cdist ← load_global globals builtins "cdist";
  distances ← call cdist [VMatrix predicted_model; VMatrix test_model; VStr "correlation"];
  distances ← as_matrix distances;
  let correlations := map (map (λ d, 1 - d)%float) (rows distances) in
  ranks ← mapM (λ index,
             rankdata ← load_global globals builtins "rankdata";
             row ← item correlations index;
             ranked ← call rankdata [VVector row];
             ranked ← as_vector ranked;
             item ranked index)
           (seq 0 n_predictions);
  let ranks := map (λ r, r / float_of_Z (Z.of_nat n_predictions))%float ranks in
  if mean then Ok (VFloat (np_mean ranks)) else Ok (VVector ranks).

(** Line 204: [accuracy = rank_accuracy(predicted_model, collapse_test_model)] *)
Definition module_accuracy (predicted_model collapse_test_model : ndarray) : result value :=
  rank_accuracy module_globals python_builtins predicted_model collapse_test_model true.

End Decoding.

(** *** Grid search *)

(** What [grid.fit] leaves behind: [best_params_['alpha']], [best_score_]
    and the rows [cv_results_['split<k>_test_score']], one score per alpha. *)
Record cv_fit := CvFit {
  best_alpha : float;
  best_score : float;
  split_test_score : dict (list float)
}.

(** [np.column_stack(l)] of 1-D arrays: the arrays as columns. *)
Definition column_stack (l : list (list float)) : result ndarray :=
  a ← vstack_rows l;
  Ok (NdArray (nrows a) (map (λ j, map (λ r, nth j r 0%float) (rows a)) (seq 0 (ncols a)))).

(** [f'split{split}_test_score'] *)
Definition split_key (split : nat) : string :=
  "split" +:+ pretty split +:+ "_test_score".

Section GridSearch.

Variable scorer_t : Type.
(** [GridSearchCV(ridge, {'alpha': alphas}, scoring=scorer,
    cv=KFold(n_splits), ...).fit(X, y)] *)
Variable grid_fit : scorer_t → list float → Z → ndarray → list float → result cv_fit.

(** The body of [for voxel in np.arange(n_voxels)]. *)
Definition search_voxel (train_model train_data : ndarray) (alphas : list float)
    (scorer : scorer_t) (n_splits : Z)
    (acc : list float * list float * list (list float)) (voxel : nat)
    : result (list float * list float * list (list float)) :=
  let '(best_alphas, best_scores, all_scores) := acc in
  y ← column train_data voxel;
  grid ← grid_fit scorer alphas n_splits train_model y;
  split_scores ← mapM (λ split, dict_get (split_test_score grid) (split_key split))
                   (seq 0 (Z.to_nat n_splits));
  scores ← vstack_rows split_scores;
  Ok (best_alphas ++ [best_alpha grid], best_scores ++ [best_score grid],
      all_scores ++ [mean_axis0 (ncols scores) (rows scores)]).

Definition grid_search (train_model train_data : ndarray) (alphas : list float)
    (scorer : scorer_t) (n_splits : Z) : result (list float * list float * ndarray) :=
  let n_voxels := ncols train_model in
  '(best_alphas, best_scores, all_scores) ←
    for_each (seq 0 n_voxels) ([], [], [])
      (search_voxel train_model train_data alphas scorer n_splits);
  all_scores ← column_stack all_scores;
  _ ← assert (bool_decide (length best_alphas = length best_scores
                           ∧ length best_scores = ncols all_scores
                           ∧ ncols all_scores = n_voxels));
  Ok (best_alphas, best_scores, all_scores).

End GridSearch.

End EncodingModel.

(** ** ts_classification.py *)

Module TsClassification.

(** A 3-D array [a[i][j][k]] of shape [(len(cells), dim1, dim2)]. *)
Record ndarray3 := NdArray3 {
  dim1 : nat;
  dim2 : nat;
  cells : list (list (list float))
}.

Definition dim0 (a : ndarray3) : nat := length (cells a).

Definition wf3 (a : ndarray3) : Prop :=
  Forall (λ plane, length plane = dim1 a ∧ Forall (λ line, length line = dim2 a) plane)
         (cells a).

(** [a[i, j, k]] *)
Definition entry (a : ndarray3) (i j k : nat) : float :=
  nth k (nth j (nth i (cells a) []) []) PrimFloat.nan.

(** [a[..., k]] *)
Definition last_axis (a : ndarray3) (k : nat) : ndarray :=
  NdArray (dim1 a) (map (map (λ line, nth k line PrimFloat.nan)) (cells a)).

(** [np.moveaxis(a, 2, 0)], as the list of 2-D arrays a [for] loop over it
    goes through. *)
Definition moveaxis_2_0 (a : ndarray3) : list (list (list float)) :=
  map (λ k, rows (last_axis a k)) (seq 0 (dim2 a)).

(** [np.moveaxis(a, 1, 0)] *)
Definition moveaxis_1_0 (a : ndarray3) : ndarray3 :=
  NdArray3 (dim0 a) (dim2 a)
    (map (λ j, map (λ plane, nth j plane []) (cells a)) (seq 0 (dim1 a))).

(** [np.dstack(l)] of 2-D arrays of one shape, of which there must be one at
    least: entry [[i][j][k]] is entry [[i][j]] of the [k]-th array. *)
Definition dstack (l : list ndarray) : result ndarray3 :=
  match l with
  | [] => Raise ValueError
  | a :: l' =>
      if forallb (λ b, bool_decide (shape b = shape a)) l'
      then Ok (NdArray3 (ncols a) (length l)
                 (map (λ i, map (λ j, map (λ b, nth j (nth i (rows b) []) PrimFloat.nan) l)
                                (seq 0 (ncols a)))
                      (seq 0 (nrows a))))
      else Raise ValueError
  end.

(** [a[:stop, start:]] *)
Definition upper_right (a : ndarray) (stop start : Z) : ndarray :=
  NdArray (length (Py.slice (seq 0 (ncols a)) (Some start) None))
          (map (λ r, Py.slice r (Some start) None) (Py.slice (rows a) None (Some stop))).

(** [np.maximum] on two numbers, as [np.amax] folds it over an array: a NaN
    on either side is the result. *)
Definition maximum (a b : float) : float :=
  if (b <=? a)%float || PrimFloat.is_nan a then a else b.

(** [np.amax(l)] *)
Definition amax (l : list float) : result float :=
  match l with
  | [] => Raise ValueError
  | x :: l' => Ok (foldl maximum x l')
  end.

Definition time_segmentation (data : ndarray) (segment_length : Z) (average : bool)
    : result ndarray :=
  let n_TRs := Z.of_nat (nrows data) in
  n_segments ← floordiv n_TRs segment_length;
  modulo ← Py.modulo n_TRs n_segments;
  if modulo =? 0 then
    if average then
      segments ← array_split (rows data) n_segments;
      vstack_rows (map (mean_axis0 (ncols data)) segments)
    else
      segments ← array_split (rows data) n_segments;
      vstack_rows (map ravel segments)
  else
    if average then
      segments ← array_split (Py.slice (rows data) None (Some (- modulo))) n_segments;
      vstack_rows (map (mean_axis0 (ncols data)) segments)
    else
      segments ← array_split (Py.slice (rows data) None (Some (- modulo))) n_segments;
      vstack_rows (map ravel segments).

(** [[row[off] for off in np.arange(len(row)) if off != i]] *)
Definition off_diagonal (row : list float) (i : nat) : list float :=
  map (λ off, nth off row PrimFloat.nan) (filter (λ off, off ≠ i) (seq 0 (length row))).

(** The inner loop of [correlation_classification]: [n_hits] for one
    subject's correlation matrix. *)
Definition count_hits (correlation : list (list float)) : result nat :=
  for_each (imap pair correlation) 0%nat (λ n_hits '(i, row),
    diagonal ← item row i;
    best_other ← amax (off_diagonal row i);
    Ok (if (best_other <? diagonal)%float then S n_hits else n_hits)).

Definition correlation_classification (correlations : ndarray3)
    : result (list float * float) :=
  let n_segments := Z.of_nat (dim0 correlations) in
  accuracies ← mapM (λ correlation,
                  n_hits ← count_hits correlation;
                  truediv (Z.of_nat n_hits) n_segments)
                (moveaxis_2_0 correlations);
  chance ← truediv 1 n_segments;
  Ok (accuracies, chance).

(** [np.expand_dims(np.mean(subject_stack, axis=1), 1)] *)
Definition regional_average (a : ndarray3) : ndarray3 :=
  NdArray3 1 (dim2 a) (map (λ plane, [mean_axis0 (dim2 a) plane]) (cells a)).

(** *** The batch loops and their results cache *)

(** A leaf of the cache: the [{}] a new key is first given, or a value. *)
Inductive leaf (V : Type) :=
| EmptyDict
| Value (v : V).
Arguments EmptyDict {V}.
Arguments Value {V} v.

(** [results[story][roi][label][hemi]] *)
Abbreviation by_hemi V := (gmap string (leaf V)).
Abbreviation by_label V := (gmap string (by_hemi V)).
Abbreviation by_roi V := (gmap string (by_label V)).
Abbreviation cache V := (gmap string (by_roi V)).

Definition key : Type := string * string * string * string.

(** How a loop may leave the dictionary [X] it works on and what it has
    printed, if it is to resume a partly filled cache: every leaf that was
    there is there unchanged, and every key printed since is in the loop's
    scope and had no leaf. [at_key] reads the leaf of a key in the
    dictionary. *)
Definition extends {X L : Type} (at_key : X → key → option L) (scope : key → Prop)
    (s s' : X * list key) : Prop :=
  (∀ k v, at_key s.1 k = Some v → at_key s'.1 k = Some v) ∧
  (∀ k, k ∈ s'.2 → k ∈ s.2 ∨ (scope k ∧ at_key s.1 k = None)).

Definition leaf_at {V} (results : cache V) (k : key) : option (leaf V) :=
  let '(story, roi, label, hemi) := k in
  by_roi ← results !! story;
  by_label ← by_roi !! roi;
  by_hemi ← by_label !! label;
  by_hemi !! hemi.

Definition stories : list string :=
  ["pieman"; "prettymouth"; "milkyway"; "slumlordreach"; "notthefall"; "21styear";
   "pieman (PNI)"; "bronx (PNI)"; "black"; "forgot"].
Definition segment_length : Z := 10.
Definition average : bool := false.
Definition rois : list string := ["EAC"; "AAC"; "TPOJ"; "PMC"].
Definition ts_prefixes : list (string * string) :=
  [("no SRM", "noSRM");
   ("no SRM (average)", "noSRM");
   ("cSRM (k = 100)", "parcel-mean_k-100_cSRM-test");
   ("cSRM (k = 50)", "parcel-mean_k-50_cSRM-test");
   ("cSRM (k = 10)", "parcel-mean_k-10_cSRM-test");
   ("cPCA (k = 100)", "parcel-mean_k-100_cPCA-test");
   ("cPCA (k = 50)", "parcel-mean_k-50_cPCA-test");
   ("cPCA (k = 10)", "parcel-mean_k-10_cPCA-test")].
Definition hemis : list string := ["lh"; "rh"].

Definition isc_type : string := "temporal".
Definition isc_stories : list string := ["black"; "forgot"].
Definition isc_prefixes : list (string * string) :=
  [("no SRM", "noSRM");
   ("no SRM (average)", "noSRM");
   ("cPCA (k = 100)", "parcel-mean_k-100_cPCA-test");
   ("cSRM (k = 100)", "parcel-mean_k-100_cSRM-test");
   ("cPCA (k = 50)", "parcel-mean_k-50_cPCA-test");
   ("cSRM (k = 50)", "parcel-mean_k-50_cSRM-test");
   ("cPCA (k = 10)", "parcel-mean_k-10_cPCA-test");
   ("cSRM (k = 10)", "parcel-mean_k-10_cSRM-test")].

(** [if k not in d: d[k] = {}] *)
Definition setdefault_empty {X} `{Empty X} (d : gmap string X) (k : string) : gmap string X :=
  if decide (d !! k = None) then <[k := ∅]> d else d.

Section Functions.

(** [np.nanmean] of the numbers along the last axis *)
Variable nanmean : list float → float.
(** [np.corrcoef(x, y)] *)
Variable corrcoef : ndarray → ndarray → ndarray.
(** [split_stories.check_keys(data, keys=subjects)] *)
Variable check_keys : dict (dict ndarray) → option (list string) → result (list string).
(** [split_stories.load_split_data(metadata, stories=story, subjects=None,
    hemisphere=hemi, half=half, prefix=prefix)] *)
Variable load_split_data :
  string → string → Z → string → result (dict (dict (dict ndarray))).
(** [brainiak.isc.isc(data)] *)
Variable isc : ndarray3 → result ndarray.

Definition time_segment_correlation (data : ndarray3) (segment_length : Z) (average : bool)
    : result ndarray3 :=
  let n_TRs := dim0 data in
  let n_subjects := dim2 data in
  n_segments ← floordiv (Z.of_nat n_TRs) segment_length;
  correlations ← mapM (λ i_subject,
      let subject := last_axis data i_subject in
      others ← dstack (map (last_axis data)
                           (filter (λ i_other, i_other ≠ i_subject) (seq 0 n_subjects)));
      _ ← assert (dim2 others =? n_subjects - 1)%nat;
      let others := NdArray (dim1 others) (map (map nanmean) (cells others)) in
      subject_segments ← time_segmentation subject segment_length average;
      others_segments ← time_segmentation others segment_length average;
      _ ← assert (bool_decide (n_segments = Z.of_nat (nrows subject_segments)
                               ∧ nrows subject_segments = nrows others_segments));
      Ok (upper_right (corrcoef subject_segments others_segments) n_segments n_segments))
    (seq 0 n_subjects);
  dstack correlations.

Definition stack_subjects (data : dict (dict ndarray)) (subjects : option (list string))
    (hemisphere : string) : result ndarray3 :=
  subject_list ← check_keys data subjects;
  arrays ← mapM (λ subject, by_hemisphere ← dict_get data subject;
                            dict_get by_hemisphere hemisphere) subject_list;
  subject_stack ← dstack arrays;
  _ ← assert (dim2 subject_stack =? length subject_list)%nat;
  Ok subject_stack.

(** Lines 169-183 and 236-250, the same statements in both loops: load the
    data of one key, stack the subjects, average the region for the
    ['no SRM (average)'] label. *)
Definition load_stack (story roi : string) (prefix : string * string) (hemi : string)
    : result ndarray3 :=
  data ← load_split_data story hemi 2 (roi +:+ "_" +:+ prefix.2);
  data_story ← dict_get data story;
  subject_stack ← stack_subjects data_story None hemi;
  if String.eqb prefix.1 "no SRM (average)"
  then Ok (regional_average subject_stack)
  else Ok subject_stack.

(** The loops mutate the nested dictionaries in place. Each level below takes
    the dictionary its loop works on and hands back the updated one, which
    the level above stores under the key it was read from; the second
    component is what the loop has printed: the keys it computed, in order. *)

(** Time-segment classification, lines 165-196: [for hemi in hemis]. *)
Definition ts_hemi (story roi : string) (prefix : string * string)
    (st : by_hemi (list float) * list key) (hemi : string)
    : result (by_hemi (list float) * list key) :=
  let '(results, out) := st in
  if decide (results !! hemi = None) then
    let results := <[hemi := EmptyDict]> results in
    subject_stack ← load_stack story roi prefix hemi;
    correlations ← time_segment_correlation subject_stack segment_length average;
    '(accuracies, chance) ← correlation_classification correlations;
    Ok (<[hemi := Value accuracies]> results, out ++ [(story, roi, prefix.1, hemi)])
  else Ok (results, out).

(** Lines 158-196: [for prefix in prefixes]. *)
Definition ts_prefix (story roi : string)
    (st : by_label (list float) * list key) (prefix : string * string)
    : result (by_label (list float) * list key) :=
  let '(results, out) := st in
  let results := setdefault_empty results prefix.1 in
  let prefix :=
    if String.eqb (String.substring 0 4 prefix.1) "tSRM"
    then (prefix.1, String.substring 0 (String.length prefix.2 - 4) prefix.2 +:+ story +:+ "-test")
    else prefix in
  '(inner, out) ← for_each hemis (default ∅ (results !! prefix.1), out)
                    (ts_hemi story roi prefix);
  Ok (<[prefix.1 := inner]> results, out).

(** Lines 154-196: [for roi in rois]. *)
Definition ts_roi (story : string) (st : by_roi (list float) * list key) (roi : string)
    : result (by_roi (list float) * list key) :=
  let '(results, out) := st in
  let results := setdefault_empty results roi in
  '(inner, out) ← for_each ts_prefixes (default ∅ (results !! roi), out)
                    (ts_prefix story roi);
  Ok (<[roi := inner]> results, out).

(** Lines 150-196: [for story in stories]. *)
Definition ts_story (st : cache (list float) * list key) (story : string)
    : result (cache (list float) * list key) :=
  let '(results, out) := st in
  let results := setdefault_empty results story in
  '(inner, out) ← for_each rois (default ∅ (results !! story), out) (ts_roi story);
  Ok (<[story := inner]> results, out).

(** Lines 149-198: the loop over the loaded [results], which [np.save]
    then writes. *)
Definition ts_classification_main (results : cache (list float))
    : result (cache (list float) * list key) :=
  for_each stories (results, []) ts_story.

(** Intersubject correlations, lines 232-261: [for hemi in hemis]. *)
Definition isc_hemi (story roi : string) (prefix : string * string)
    (st : by_hemi ndarray * list key) (hemi : string)
    : result (by_hemi ndarray * list key) :=
  let '(results, out) := st in
  let results := if decide (results !! hemi = None)
                 then <[hemi := EmptyDict]> results else results in
  subject_stack ← load_stack story roi prefix hemi;
  iscs ← (if String.eqb isc_type "temporal" then isc subject_stack
          else if String.eqb isc_type "spatial" then isc (moveaxis_1_0 subject_stack)
          else Raise (NameError "iscs"));
  Ok (<[hemi := Value iscs]> results, out ++ [(story, roi, prefix.1, hemi)]).

(** Lines 228-261: [for prefix in prefixes]. *)
Definition isc_prefix (story roi : string)
    (st : by_label ndarray * list key) (prefix : string * string)
    : result (by_label ndarray * list key) :=
  let '(results, out) := st in
  let results := setdefault_empty results prefix.1 in
  '(inner, out) ← for_each hemis (default ∅ (results !! prefix.1), out)
                    (isc_hemi story roi prefix);
  Ok (<[prefix.1 := inner]> results, out).

(** Lines 224-261: [for roi in rois]. *)
Definition isc_roi (story : string) (st : by_roi ndarray * list key) (roi : string)
    : result (by_roi ndarray * list key) :=
  let '(results, out) := st in
  let results := setdefault_empty results roi in
  '(inner, out) ← for_each isc_prefixes (default ∅ (results !! roi), out)
                    (isc_prefix story roi);
  Ok (<[roi := inner]> results, out).

(** Lines 220-261: [for story in ['black', 'forgot']]. *)
Definition isc_story (st : cache ndarray * list key) (story : string)
    : result (cache ndarray * list key) :=
  let '(results, out) := st in
  let results := setdefault_empty results story in
  '(inner, out) ← for_each rois (default ∅ (results !! story), out) (isc_roi story);
  Ok (<[story := inner]> results, out).

(** Lines 219-263. *)
Definition isc_main (results : cache ndarray) : result (cache ndarray * list key) :=
  for_each isc_stories (results, []) isc_story.

End Functions.

End TsClassification.

Import EncodingModel TsClassification.
Set Warnings "-inexact-float".

(** * Properties *)

(** ** The error monad and slices *)

Lemma bind_Ok {A B} (a : A) (f : A → result B) : Ok a ≫= f = f a.
Proof. done. Qed.

Lemma bind_Raise {A B} (e : exn) (f : A → result B) : Raise e ≫= f = Raise e.
Proof. done. Qed.

Lemma mapM_Ok {A B} (f : A → result B) (g : A → B) (l : list A) :
  (∀ x, x ∈ l → f x = Ok (g x)) → mapM f l = Ok (map g l).
Proof.
  induction l as [|x l IH]; intros Hf; [done|].
  cbn. rewrite (Hf x) by left. cbn.
  fold (mapM f l). rewrite IH; [done|].
  intros y Hy. apply Hf. by right.
Qed.

Lemma slice_to_neg {A} (l : list A) (d : Z) :
  0 < d → Py.slice l None (Some (- d)) = take (length l - Z.to_nat d) l.
Proof.
  intros Hd. unfold Py.slice, slice_index, from_option.
  destruct (Z.ltb_spec (- d) 0); [|lia].
  rewrite Nat.sub_0_r. f_equal. lia.
Qed.

Lemma slice_to_nat {A} (l : list A) (n : nat) :
  Py.slice l None (Some (Z.of_nat n)) = take n l.
Proof.
  unfold Py.slice, slice_index, from_option.
  destruct (Z.ltb_spec (Z.of_nat n) 0); [lia|].
  rewrite Nat.sub_0_r.
  destruct (decide (n ≤ length l)%nat).
  - f_equal. lia.
  - replace (Z.to_nat (Z.of_nat n `min` Z.of_nat (length l))) with (length l) by lia.
    rewrite (take_ge l n) by lia. by rewrite take_ge.
Qed.

Lemma slice_from_nat {A} (l : list A) (n : nat) :
  Py.slice l (Some (Z.of_nat n)) None = drop n l.
Proof.
  unfold Py.slice, slice_index, from_option.
  destruct (Z.ltb_spec (Z.of_nat n) 0); [lia|].
  destruct (decide (n ≤ length l)%nat).
  - replace (Z.to_nat (Z.of_nat n `min` Z.of_nat (length l))) with n by lia.
    apply take_ge. rewrite length_drop. lia.
  - replace (Z.to_nat (Z.of_nat n `min` Z.of_nat (length l))) with (length l) by lia.
    rewrite Nat.sub_diag, take_0, drop_ge; [done | lia].
Qed.

(** ** Arrays *)

Lemma map_nth_seq {A} (l : list A) (d : A) :
  map (λ i, nth i l d) (seq 0 (length l)) = l.
Proof.
  apply list_eq. intros i. rewrite list_lookup_fmap.
  destruct (decide (i < length l)%nat) as [Hi|Hi].
  - rewrite lookup_seq_lt by done. cbn. rewrite nth_lookup.
    destruct (lookup_lt_is_Some_2 l i Hi) as [x ->]. done.
  - rewrite lookup_seq_ge by lia. cbn. symmetry. apply lookup_ge_None. lia.
Qed.

Lemma zip_with_app_nth {A} (x : list (list A)) (g : nat → list A) (h : nat) :
  length x = h →
  zip_with app x (map g (seq 0 h)) = map (λ r, nth r x [] ++ g r) (seq 0 h).
Proof.
  intros <-. rewrite <- (map_nth_seq x []) at 1.
  rewrite zip_with_fmap_l, zip_with_fmap_r, zip_with_diag. done.
Qed.

(** Stacking arrays of [h] rows side by side: row [r] of the result is the
    rows [r] of the arrays, one after the other. *)
Lemma hstack_rows (l : list ndarray) (h : nat) :
  l ≠ [] → Forall (λ a, nrows a = h) l →
  hstack l = Ok (NdArray (sum_list (ncols <$> l))
                   (map (λ r, concat (map (λ a, nth r (rows a) []) l)) (seq 0 h))).
Proof.
  induction l as [|a l IH]; [done|]. intros _ Hl.
  apply Forall_cons in Hl as [Ha Hl].
  destruct l as [|b l].
  - cbn. destruct a as [f x]. unfold nrows in Ha. cbn in *. subst h.
    f_equal. f_equal; [lia|].
    rewrite <- (map_nth_seq x []) at 1. apply map_ext. intros r. by rewrite app_nil_r.
  - change (hstack (a :: b :: l)) with
      (b' ← hstack (b :: l);
       if decide (nrows a = nrows b')
       then Ok (NdArray (ncols a + ncols b') (zip_with app (rows a) (rows b')))
       else Raise ValueError).
    rewrite IH by done. rewrite bind_Ok.
    unfold nrows in *. cbn [rows ncols].
    rewrite length_map, length_seq, decide_True by done.
    rewrite zip_with_app_nth by done. done.
Qed.

(** Arrays that do not all have the same number of rows cannot be stacked
    side by side. *)
Lemma hstack_uneven (l : list ndarray) (a b : ndarray) :
  a ∈ l → b ∈ l → nrows a ≠ nrows b → hstack l = Raise ValueError.
Proof.
  revert a b. induction l as [|c l IH]; intros a b Ha Hb Hne;
    [by apply elem_of_nil in Ha|].
  destruct l as [|c' l].
  { apply list_elem_of_singleton in Ha, Hb. congruence. }
  change (hstack (c :: c' :: l)) with
      (b' ← hstack (c' :: l);
       if decide (nrows c = nrows b')
       then Ok (NdArray (ncols c + ncols b') (zip_with app (rows c) (rows b')))
       else Raise ValueError).
  destruct (decide (Forall (λ x, nrows x = nrows c') (c' :: l))) as [Hall|Hall].
  - rewrite (hstack_rows _ (nrows c')) by done. rewrite bind_Ok.
    rewrite decide_False; [done|].
    unfold nrows at 2. cbn [rows]. rewrite length_map, length_seq. intros Hc.
    rewrite Forall_forall in Hall.
    apply elem_of_cons in Ha as [->|Ha], Hb as [->|Hb].
    + done.
    + apply Hall in Hb. congruence.
    + apply Hall in Ha. congruence.
    + apply Hall in Ha, Hb. congruence.
  - apply not_Forall_Exists in Hall; [|apply _].
    apply Exists_exists in Hall as (x & Hx & Hxc).
    rewrite (IH x c'); [done | done | left | exact Hxc].
Qed.

Lemma nan_to_zero_id (l : list float) :
  Forall (λ x, PrimFloat.is_nan x = false) l → map nan_to_zero l = l.
Proof.
  induction 1 as [|x l Hx _ IH]; [done|].
  cbn [map]. rewrite IH. unfold nan_to_zero. by rewrite Hx.
Qed.

(** The [k]-th of consecutive blocks of [f] entries. *)
Lemma concat_block {A} (blocks : list (list A)) (f k : nat) (b : list A) :
  Forall (λ b, length b = f) blocks → blocks !! k = Some b →
  take f (drop (k * f) (concat blocks)) = b.
Proof.
  revert k. induction blocks as [|b0 blocks IH]; intros k Hlen Hk; [done|].
  apply Forall_cons in Hlen as [Hb0 Hlen]. cbn.
  destruct k as [|k].
  - injection Hk as ->. rewrite Nat.mul_0_l, drop_0. by apply take_app_length'.
  - cbn in Hk. replace (S k * f)%nat with (length b0 + k * f)%nat by lia.
    rewrite drop_app_add. by apply IH.
Qed.

(** ** Delay embedding *)

Section DelayEmbedding.

Variable zscore : ndarray → ndarray.

(** The rows of the block of one delay before the NaNs are zeroed. *)
Lemma delay_block_rows (embedding : ndarray) (d : Z) :
  0 < d →
  delay_block embedding d =
    Ok (NdArray (ncols embedding)
          (replicate (Z.to_nat d) (replicate (ncols embedding) PrimFloat.nan)
           ++ take (nrows embedding - Z.to_nat d) (rows embedding))).
Proof.
  intros Hd. unfold delay_block, full.
  destruct (Z.ltb_spec d 0); [lia|]. rewrite bind_Ok.
  unfold vstack2, slice_rows, ncols at 1 2.
  rewrite decide_True by done. by rewrite slice_to_neg.
Qed.

Lemma nth_delay_block_rows {A} (pad : list A) (x : list (list A)) (d r : nat) :
  (r < d ∨ r < length x)%nat →
  nth r (replicate d pad ++ take (length x - d) x) [] =
    if (r <? d)%nat then pad else nth (r - d) x [].
Proof.
  intros Hr. rewrite !nth_lookup.
  destruct (Nat.ltb_spec r d).
  - rewrite lookup_app_l by (rewrite length_replicate; lia).
    by rewrite lookup_replicate_2.
  - rewrite lookup_app_r; rewrite length_replicate; [|done].
    rewrite lookup_take_lt by lia. done.
Qed.

(** What [delay_embedding] returns when the blocks of all delays have the
    same number [h] of rows: row [r] is, delay after delay, a row of zeros
    while [r] is below the delay, and then row [r - delay] of the embedding
    with its NaNs zeroed. *)
Lemma delay_embedding_rows (embedding : ndarray) (delays : list Z) (h : nat) :
  delays ≠ [] →
  Forall (λ d, 0 < d ∧ Z.to_nat (Z.max (Z.of_nat (nrows embedding)) d) = h) delays →
  delay_embedding zscore embedding delays false =
    Ok (NdArray (ncols embedding * length delays)
          (map (λ r, concat (map (λ d,
                  if (r <? Z.to_nat d)%nat then replicate (ncols embedding) 0%float
                  else map nan_to_zero (nth (r - Z.to_nat d) (rows embedding) []))
                delays))
               (seq 0 h))).
Proof.
  intros Hne Hd. unfold delay_embedding.
  rewrite (mapM_Ok _ (λ d, NdArray (ncols embedding)
          (replicate (Z.to_nat d) (replicate (ncols embedding) PrimFloat.nan)
           ++ take (nrows embedding - Z.to_nat d) (rows embedding)))).
  2:{ intros d Hin. apply delay_block_rows.
      rewrite Forall_forall in Hd. by apply Hd. }
  rewrite bind_Ok, (hstack_rows _ h).
  2:{ by destruct delays. }
  2:{ rewrite Forall_fmap. eapply Forall_impl; [exact Hd|].
      intros d [Hpos Hh]. unfold nrows in *. cbn.
      rewrite length_app, length_replicate, length_take. lia. }
  rewrite bind_Ok. unfold zero_nans. cbn [rows ncols]. f_equal. f_equal.
  - rewrite <- list_fmap_compose. clear Hd Hne.
    induction delays as [|d delays IH]; cbn; [lia|]. rewrite IH. lia.
  - rewrite map_map. apply map_ext_in. intros r Hr%in_seq.
    rewrite concat_map, !map_map. f_equal.
    apply map_ext_in. intros d Hin%list_elem_of_In.
    rewrite Forall_forall in Hd. destruct (Hd d Hin) as [Hpos Hh].
    cbn [rows]. unfold nrows in *. rewrite nth_delay_block_rows by lia.
    destruct (r <? Z.to_nat d)%nat; [|done].
    exact (fmap_replicate nan_to_zero _ PrimFloat.nan).
Qed.

(** Row [r] of the result, cut into the blocks of the delays. *)
Lemma delay_embedding_block_row (embedding delayed : ndarray) (delays : list Z) (h : nat)
    (k : nat) (d : Z) (r : nat) (row : list float) :
  wf embedding → delays ≠ [] →
  Forall (λ d, 0 < d ∧ Z.to_nat (Z.max (Z.of_nat (nrows embedding)) d) = h) delays →
  delay_embedding zscore embedding delays false = Ok delayed →
  delays !! k = Some d → rows delayed !! r = Some row →
  (r < h)%nat ∧
  take (ncols embedding) (drop (k * ncols embedding) row) =
    if (r <? Z.to_nat d)%nat then replicate (ncols embedding) 0%float
    else map nan_to_zero (nth (r - Z.to_nat d) (rows embedding) []).
Proof.
  intros Hwf Hne Hd Hrun Hk Hrow.
  rewrite (delay_embedding_rows _ _ h) in Hrun by done. injection Hrun as <-.
  cbn [rows] in Hrow.
  apply list_lookup_fmap_Some in Hrow as (r' & -> & Hr%lookup_seq).
  destruct Hr as [-> Hr]. rewrite Nat.add_0_l. split; [done|].
  apply concat_block.
  - rewrite Forall_fmap. eapply Forall_impl; [exact Hd|].
    intros d' [Hpos Hh]. unfold compose.
    destruct (Nat.ltb_spec r (Z.to_nat d')); [by rewrite length_replicate|].
    rewrite length_map, nth_lookup.
    destruct (lookup_lt_is_Some_2 (rows embedding) (r - Z.to_nat d')) as [x Hx].
    { unfold nrows in *. lia. }
    rewrite Hx. cbn. by apply (Forall_lookup_1 _ _ _ _ Hwf Hx).
  - rewrite list_lookup_fmap, Hk. done.
Qed.

(** Delays whose blocks differ in height make [delay_embedding] raise. *)
Lemma delay_embedding_uneven_blocks_raise (embedding : ndarray) (delays : list Z)
    (d1 d2 : Z) (zscore_features : bool) :
  Forall (λ d, 0 < d) delays → d1 ∈ delays → d2 ∈ delays →
  Z.max (Z.of_nat (nrows embedding)) d1 ≠ Z.max (Z.of_nat (nrows embedding)) d2 →
  delay_embedding zscore embedding delays zscore_features = Raise ValueError.
Proof.
  intros Hpos H1 H2 Hne. unfold delay_embedding.
  set (block := λ d : Z, NdArray (ncols embedding)
          (replicate (Z.to_nat d) (replicate (ncols embedding) PrimFloat.nan)
           ++ take (nrows embedding - Z.to_nat d) (rows embedding))).
  rewrite (mapM_Ok _ block).
  2:{ intros d Hin. apply delay_block_rows. rewrite Forall_forall in Hpos. by apply Hpos. }
  rewrite bind_Ok.
  assert (Hblock : ∀ d, 0 < d → nrows (block d)
                        = Z.to_nat (Z.max (Z.of_nat (nrows embedding)) d)).
  { intros d Hd. unfold block, nrows. cbn [rows].
    rewrite length_app, length_replicate, length_take. lia. }
  rewrite Forall_forall in Hpos.
  rewrite (hstack_uneven _ (block d1) (block d2)); [done| | |].
  - apply list_elem_of_In, in_map, list_elem_of_In, H1.
  - apply list_elem_of_In, in_map, list_elem_of_In, H2.
  - rewrite !Hblock by auto. lia.
Qed.

(** C3 (amended). For an embedding of shape [(T, F)] and a non-empty list of
    [k] delays, each between 1 and [T], [delay_embedding] without z-scoring
    returns a matrix of shape [(T, F * k)]; its [j]-th block of [F] columns
    belongs to the [j]-th delay [d]: the first [d] rows of the block are
    zero, and row [r >= d] is row [r - d] of the embedding with every NaN
    replaced by zero, hence that row itself when it holds no NaN. *)
Theorem delay_embedding_shifted_blocks (embedding : ndarray) (delays : list Z) :
  wf embedding → delays ≠ [] →
  Forall (λ d, 1 ≤ d ≤ Z.of_nat (nrows embedding)) delays →
  ∃ delayed,
    delay_embedding zscore embedding delays false = Ok delayed ∧
    shape delayed = (nrows embedding, ncols embedding * length delays)%nat ∧
    ∀ (j : nat) (d : Z) (r : nat) (row : list float),
      delays !! j = Some d → rows delayed !! r = Some row →
      ((r < Z.to_nat d)%nat →
         take (ncols embedding) (drop (j * ncols embedding) row)
           = replicate (ncols embedding) 0%float) ∧
      ((Z.to_nat d ≤ r)%nat →
         ∃ source, rows embedding !! (r - Z.to_nat d)%nat = Some source ∧
           take (ncols embedding) (drop (j * ncols embedding) row)
             = map nan_to_zero source ∧
           (Forall (λ x, PrimFloat.is_nan x = false) source →
              take (ncols embedding) (drop (j * ncols embedding) row) = source)).
Proof.
  intros Hwf Hne Hd.
  assert (Hd' : Forall (λ d, 0 < d ∧
      Z.to_nat (Z.max (Z.of_nat (nrows embedding)) d) = nrows embedding) delays).
  { eapply Forall_impl; [exact Hd|]. intros d [??]. split; lia. }
  eexists. split; [by apply delay_embedding_rows|].
  split.
  { unfold shape, nrows. cbn [rows ncols]. by rewrite length_map, length_seq. }
  intros j d r row Hj Hrow.
  destruct (delay_embedding_block_row embedding _ delays _ j d r row
              Hwf Hne Hd' (delay_embedding_rows _ _ _ Hne Hd') Hj Hrow) as [Hr ->].
  split.
  - intros Hlt. by rewrite (proj2 (Nat.ltb_lt _ _) Hlt).
  - intros Hge. rewrite (proj2 (Nat.ltb_ge _ _) Hge).
    destruct (lookup_lt_is_Some_2 (rows embedding) (r - Z.to_nat d)) as [source Hsrc].
    { unfold nrows in *. lia. }
    exists source. rewrite nth_lookup, Hsrc. cbn [default from_option].
    split; [done|]. split; [done|].
    apply nan_to_zero_id.
Qed.

(** The height of the blocks. For an embedding of [T] rows and a non-empty
    list of positive delays, the block of a delay [d] has [max(T, d)] rows.
    When all blocks have the same number [h] of rows, as they have when no
    delay exceeds [T], [delay_embedding] returns a matrix of [h] rows, and
    the block of a delay [d >= T] is all zero; that block has [d] rows,
    which is [T] rows only for [d = T]. When two blocks differ in height,
    [delay_embedding] raises [ValueError]. *)
Theorem delay_embedding_delay_beyond_rows (embedding : ndarray) (delays : list Z) :
  wf embedding → delays ≠ [] → Forall (λ d, 0 < d) delays →
  (∀ h : nat,
     Forall (λ d, Z.to_nat (Z.max (Z.of_nat (nrows embedding)) d) = h) delays →
     ∃ delayed,
       delay_embedding zscore embedding delays false = Ok delayed ∧
       nrows delayed = h ∧
       ∀ (j : nat) (d : Z),
         delays !! j = Some d → Z.of_nat (nrows embedding) ≤ d →
         h = Z.to_nat d ∧
         ∀ (r : nat) (row : list float), rows delayed !! r = Some row →
           take (ncols embedding) (drop (j * ncols embedding) row)
             = replicate (ncols embedding) 0%float) ∧
  (∀ d1 d2 : Z,
     d1 ∈ delays → d2 ∈ delays →
     Z.max (Z.of_nat (nrows embedding)) d1 ≠ Z.max (Z.of_nat (nrows embedding)) d2 →
     delay_embedding zscore embedding delays false = Raise ValueError).
Proof.
  intros Hwf Hne Hpos. split.
  - intros h Hh.
    assert (Hd : Forall (λ d, 0 < d ∧
                Z.to_nat (Z.max (Z.of_nat (nrows embedding)) d) = h) delays).
    { rewrite Forall_forall in Hpos, Hh. apply Forall_forall. auto. }
    eexists. split; [by apply delay_embedding_rows|].
    split.
    { unfold nrows. cbn [rows]. by rewrite length_map, length_seq. }
    intros j d Hj Hge.
    assert (Hhd : h = Z.to_nat d).
    { rewrite Forall_forall in Hd.
      destruct (Hd d) as [Hdpos Hdh]; [by eapply list_elem_of_lookup_2|]. lia. }
    split; [done|]. intros r row Hrow.
    destruct (delay_embedding_block_row embedding _ delays _ j d r row
                Hwf Hne Hd (delay_embedding_rows _ _ _ Hne Hd) Hj Hrow) as [Hr ->].
    rewrite (proj2 (Nat.ltb_lt _ _)); [done | lia].
  - intros d1 d2. by apply delay_embedding_uneven_blocks_raise.
Qed.

End DelayEmbedding.

(** A witness for C3: a 3 x 2 embedding with a NaN and the delays 1 and 2. *)
Lemma delay_embedding_shifted_blocks_witness :
  let embedding :=
    NdArray 2 [[1; 2]; [PrimFloat.nan; 4]; [5; 6]]%float in
  wf embedding ∧ [1; 2] ≠ [] ∧
  Forall (λ d, 1 ≤ d ≤ Z.of_nat (nrows embedding)) [1; 2] ∧
  ∃ delayed,
    delay_embedding (λ a, a) embedding [1; 2] false = Ok delayed ∧
    shape delayed = (3, 4)%nat ∧
    ∀ (j : nat) (d : Z) (r : nat) (row : list float),
      [1; 2] !! j = Some d → rows delayed !! r = Some row →
      ((r < Z.to_nat d)%nat →
         take 2 (drop (j * 2) row) = replicate 2 0%float) ∧
      ((Z.to_nat d ≤ r)%nat →
         ∃ source, rows embedding !! (r - Z.to_nat d)%nat = Some source ∧
           take 2 (drop (j * 2) row) = map nan_to_zero source ∧
           (Forall (λ x, PrimFloat.is_nan x = false) source →
              take 2 (drop (j * 2) row) = source)).
Proof.
  intros embedding.
  assert (Hwf : wf embedding) by (repeat constructor).
  assert (Hne : [1; 2] ≠ @nil Z) by discriminate.
  assert (Hd : Forall (λ d, 1 ≤ d ≤ Z.of_nat (nrows embedding)) [1; 2]).
  { repeat constructor; cbn; lia. }
  repeat split; try assumption.
  exact (delay_embedding_shifted_blocks (λ a, a) embedding [1; 2] Hwf Hne Hd).
Defined.

(** The counterexample to C3 as stated: with the delay 1 and a NaN in row 0
    of the embedding, row 1 of the result is not row 0 of the embedding;
    and with no delay at all [np.hstack] raises. *)
Lemma delay_embedding_nan_row_not_copied :
  (∃ delayed,
     delay_embedding (λ a, a) (NdArray 1 [[PrimFloat.nan]; [1%float]]) [1] false
       = Ok delayed ∧
     rows delayed !! 1%nat ≠ rows (NdArray 1 [[PrimFloat.nan]; [1%float]]) !! 0%nat) ∧
  delay_embedding (λ a, a) (NdArray 1 [[PrimFloat.nan]; [1%float]]) [] false
    = Raise ValueError.
Proof.
  split; [|reflexivity].
  eexists. split; [reflexivity|]. vm_compute. discriminate.
Qed.

(** The height of the blocks on three rows and the single delay 3. *)
Lemma delay_embedding_delay_beyond_rows_witness :
  let embedding := NdArray 1 [[1]; [2]; [3]]%float in
  wf embedding ∧ [3] ≠ [] ∧ Forall (λ d, 0 < d) [3] ∧
  (∀ h : nat,
     Forall (λ d, Z.to_nat (Z.max (Z.of_nat (nrows embedding)) d) = h) [3] →
     ∃ delayed,
       delay_embedding (λ a, a) embedding [3] false = Ok delayed ∧
       nrows delayed = h ∧
       ∀ (j : nat) (d : Z),
         [3] !! j = Some d → Z.of_nat (nrows embedding) ≤ d →
         h = Z.to_nat d ∧
         ∀ (r : nat) (row : list float), rows delayed !! r = Some row →
           take 1 (drop (j * 1) row) = replicate 1 0%float) ∧
  (∀ d1 d2 : Z,
     d1 ∈ [3] → d2 ∈ [3] →
     Z.max (Z.of_nat (nrows embedding)) d1 ≠ Z.max (Z.of_nat (nrows embedding)) d2 →
     delay_embedding (λ a, a) embedding [3] false = Raise ValueError).
Proof.
  intros embedding.
  assert (Hwf : wf embedding) by (repeat constructor).
  assert (Hne : [3] ≠ @nil Z) by discriminate.
  assert (Hd : Forall (λ d, 0 < d) [3]) by (repeat constructor).
  split; [exact Hwf|]. split; [exact Hne|]. split; [exact Hd|].
  exact (delay_embedding_delay_beyond_rows (λ a, a) embedding [3] Hwf Hne Hd).
Defined.

(** C4 (failing input). On an embedding of three rows the delays 3, 4 and 5
    are at least the number of rows. The blocks that [delay_embedding]
    stacks have [d] padding rows on top of the first [T - d] rows of the
    embedding, and for [d > T] the padding alone is [d] rows: with the
    delays 2, 3, 4, 5 the blocks differ in height and [np.hstack] raises
    [ValueError], and with the single delay 4 the result has four rows,
    not three. *)
Example delay_embedding_long_delay_fails :
  delay_embedding (λ a, a) (NdArray 1 [[1]; [2]; [3]]%float) [2; 3; 4; 5] false
    = Raise ValueError ∧
  ∃ delayed,
    delay_embedding (λ a, a) (NdArray 1 [[1]; [2]; [3]]%float) [4] false = Ok delayed ∧
    nrows delayed = 4%nat.
Proof.
  split; [reflexivity|]. eexists. split; reflexivity.
Qed.


(** ** Time segmentation *)

Lemma split_at_sizes_equal {A} (n c : nat) (l : list A) :
  length l = (n * c)%nat →
  length (split_at_sizes (replicate n c) l) = n ∧
  Forall (λ chunk, length chunk = c) (split_at_sizes (replicate n c) l) ∧
  concat (split_at_sizes (replicate n c) l) = l.
Proof.
  revert l. induction n as [|n IH]; intros l Hl.
  - destruct l; [done|]. cbn in Hl. lia.
  - cbn [replicate split_at_sizes].
    destruct (IH (drop c l)) as (Hlen & Hall & Hcat).
    { rewrite length_drop. lia. }
    split; [cbn; by rewrite Hlen|]. split.
    + constructor; [|done]. rewrite length_take. lia.
    + cbn. rewrite Hcat. apply take_drop.
Qed.

Lemma array_split_equal {A} (l : list A) (n : Z) (c : nat) :
  0 < n → length l = (Z.to_nat n * c)%nat →
  ∃ chunks, array_split l n = Ok chunks ∧
    length chunks = Z.to_nat n ∧
    Forall (λ chunk, length chunk = c) chunks ∧
    concat chunks = l.
Proof.
  intros Hn Hl. unfold array_split.
  destruct (Z.leb_spec n 0); [lia|].
  assert (Hmod : (length l `mod` Z.to_nat n = 0)%nat).
  { rewrite Hl, Nat.mul_comm. apply Nat.Div0.mod_mul. }
  assert (Hdiv : (length l / Z.to_nat n = c)%nat).
  { rewrite Hl, Nat.mul_comm. apply Nat.div_mul. lia. }
  rewrite Hmod, Hdiv, Nat.sub_0_r. cbn [replicate app].
  eexists. split; [done|]. by apply split_at_sizes_equal.
Qed.

Lemma vstack_rows_Ok (l : list (list float)) (m : nat) :
  l ≠ [] → Forall (λ r, length r = m) l → vstack_rows l = Ok (NdArray m l).
Proof.
  intros Hne Hl. destruct l as [|r l]; [done|].
  apply Forall_cons in Hl as [Hr Hl]. unfold vstack_rows.
  rewrite (proj2 (forallb_forall _ _)).
  - by rewrite Hr.
  - intros r' Hin%list_elem_of_In. rewrite Forall_forall in Hl.
    apply Nat.eqb_eq. rewrite Hr. by apply Hl.
Qed.

Lemma length_sum_axis0 (f : nat) (l : list (list float)) :
  Forall (λ r, length r = f) l → length (sum_axis0 f l) = f.
Proof.
  unfold sum_axis0. destruct l as [|r0 l]; [intros _; apply length_replicate|].
  destruct (Nat.eqb_spec f 1) as [->|_]; [done|].
  intros [Hr0 Hl]%Forall_cons. revert r0 Hr0.
  induction l as [|r l IH]; intros acc Hacc; [done|].
  apply Forall_cons in Hl as [Hr Hl]. cbn. apply IH; [done|].
  rewrite length_zip_with. lia.
Qed.

Lemma length_ravel (f : nat) (l : list (list float)) :
  Forall (λ r, length r = f) l → length (ravel l) = (length l * f)%nat.
Proof.
  induction 1 as [|r l Hr _ IH]; [done|].
  unfold ravel in *. cbn. rewrite length_app, IH. lia.
Qed.

(** *** Sums as NumPy adds them up *)

(** Starting a sum from [-0.0] is starting it from its first number. *)
Lemma neg_zero_add (x : float) : (PrimFloat.neg_zero + x)%float = x.
Proof.
  apply Prim2SF_inj. rewrite FloatAxioms.add_spec.
  change (Prim2SF PrimFloat.neg_zero) with (S754_zero true).
  unfold SF64add, SFadd.
  destruct (Prim2SF x) as [[]|[]| |[] m e]; reflexivity.
Qed.

Lemma pairwise_sum_short (l : list float) :
  (length l < 8)%nat →
  pairwise_sum l = foldl PrimFloat.add (hd PrimFloat.neg_zero l) (tail l).
Proof.
  intros Hl. unfold pairwise_sum.
  destruct l as [|x l]; [done|]. 
  destruct (length (x :: l)) as [|fuel] eqn:Hn; [done|]. 
  cbn [pairwise_sum_rec]. rewrite Hn.
  rewrite (proj2 (Nat.ltb_lt _ _)) by lia.
  cbn [foldl hd tail]. by rewrite neg_zero_add.
Qed.

(** The fuel of [pairwise_sum] is never used up: any fuel from the number of
    numbers on gives the same sum. *)
Lemma pairwise_sum_rec_fuel (fuel : nat) (l : list float) :
  (length l ≤ fuel)%nat → pairwise_sum_rec fuel l = pairwise_sum l.
Proof.
  unfold pairwise_sum.
  assert (Hstep : ∀ fuel l, (length l ≤ fuel)%nat →
            pairwise_sum_rec (S fuel) l = pairwise_sum_rec fuel l).
  { clear. intros fuel. induction fuel as [|fuel IH]; intros l Hl.
    - destruct l; [done | cbn in Hl; lia].
    - cbn [pairwise_sum_rec].
      destruct (length l <? 8)%nat; [done|].
      destruct (Nat.leb_spec (length l) 128) as [|Hbig]; [done|].
      set (n2 := (length l / 2 - (length l / 2) mod 8)%nat).
      assert (Hn2 : (0 < n2 < length l)%nat).
      { unfold n2. pose proof (Nat.mod_upper_bound (length l / 2) 8 ltac:(lia)).
        pose proof (Nat.Div0.mul_div_le (length l) 2).
        assert (64 ≤ length l / 2)%nat by (apply Nat.div_le_lower_bound; lia). lia. }
      change (pairwise_sum_rec (S fuel) (take n2 l)
              + pairwise_sum_rec (S fuel) (drop n2 l)
              = pairwise_sum_rec fuel (take n2 l) + pairwise_sum_rec fuel (drop n2 l))%float.
      rewrite !IH; [done| |].
      + rewrite length_drop. lia.
      + rewrite length_take. lia. }
  intros Hl. induction Hl as [|fuel Hl IH]; [done|].
  by rewrite Hstep.
Qed.

Lemma pairwise_sum_split (l : list float) :
  (128 < length l)%nat →
  let n2 := (length l / 2 - (length l / 2) mod 8)%nat in
  pairwise_sum l = (pairwise_sum (take n2 l) + pairwise_sum (drop n2 l))%float.
Proof.
  intros Hbig n2. unfold pairwise_sum at 1.
  destruct (length l) as [|fuel] eqn:Hn; [lia|].
  cbn [pairwise_sum_rec]. rewrite Hn.
  rewrite (proj2 (Nat.ltb_ge _ _)) by lia. rewrite (proj2 (Nat.leb_gt _ _)) by lia.
  fold n2.
  assert (Hn2 : (0 < n2 < S fuel)%nat).
  { unfold n2. pose proof (Nat.mod_upper_bound (S fuel / 2) 8 ltac:(lia)).
    pose proof (Nat.Div0.mul_div_le (S fuel) 2).
    assert (64 ≤ S fuel / 2)%nat by (apply Nat.div_le_lower_bound; lia). lia. }
  rewrite !pairwise_sum_rec_fuel; [done| |].
  - rewrite length_drop. lia.
  - rewrite length_take. lia.
Qed.

(** Entry [j] of a sum by rows is the sum of column [j], in row order. *)
Lemma nth_foldl_zip_with_add (j : nat) (r : list float) (l : list (list float)) :
  Forall (λ r', length r' = length r) l → (j < length r)%nat →
  nth j (foldl (zip_with PrimFloat.add) r l) 0%float
  = foldl PrimFloat.add (nth j r 0%float) (map (λ r', nth j r' 0%float) l).
Proof.
  revert r. induction l as [|r' l IH]; intros r Hl Hj; [done|].
  apply Forall_cons in Hl as [Hr' Hl]. cbn [foldl map].
  rewrite IH.
  - f_equal. rewrite !nth_lookup, lookup_zip_with.
    destruct (lookup_lt_is_Some_2 r j Hj) as [x ->].
    destruct (lookup_lt_is_Some_2 r' j ltac:(lia)) as [y ->]. done.
  - eapply Forall_impl; [exact Hl|]. intros r'' Hr''. cbn in *.
    rewrite length_zip_with. lia.
  - rewrite length_zip_with. lia.
Qed.

(** The mean of a column as [np.mean(a, axis=0)] computes it. *)
Lemma nth_mean_axis0 (f j : nat) (l : list (list float)) :
  l ≠ [] → Forall (λ r, length r = f) l → (j < f)%nat →
  let column := map (λ r, nth j r 0%float) l in
  nth j (mean_axis0 f l) PrimFloat.nan
  = ((if (f =? 1)%nat && (8 <=? length l)%nat then pairwise_sum column
      else foldl PrimFloat.add (hd 0 column) (tail column))
     / float_of_Z (Z.of_nat (length l)))%float.
Proof.
  intros Hne Hl Hj column. unfold mean_axis0.
  pose proof (length_sum_axis0 f l Hl) as Hlen.
  destruct (lookup_lt_is_Some_2 (sum_axis0 f l) j ltac:(lia)) as [s Hs].
  rewrite (nth_lookup_Some _ j _ (s / float_of_Z (Z.of_nat (length l)))%float).
  2:{ change (map ?g ?x) with (g <$> x). by rewrite list_lookup_fmap, Hs. }
  f_equal. apply (nth_lookup_Some _ _ 0%float) in Hs. rewrite <- Hs. clear s Hs.
  unfold sum_axis0, column. destruct l as [|r l']; [done|].
  apply Forall_cons in Hl as [Hr Hl].
  destruct (Nat.eqb_spec f 1) as [->|Hf].
  - assert (j = 0)%nat as -> by lia. cbn [nth andb].
    destruct (Nat.leb_spec 8 (length (r :: l'))) as [|Hshort]; [done|].
    rewrite pairwise_sum_short by (by rewrite length_map). done.
  - cbn [andb map hd tail]. apply nth_foldl_zip_with_add; [|lia].
    eapply Forall_impl; [exact Hl|]. intros r' Hr'. cbn in *. lia.
Qed.

(** C5. With [T] rows and [n = T // L >= 1], [time_segmentation] returns [n]
    segments: the rows left after the trailing [T % n] are dropped, cut into
    [n] consecutive chunks of equal length. By default each chunk is
    flattened into one row, its rows laid end to end. When [average] is set
    each chunk is averaged into one row: entry [f] is the sum of the
    chunk's column [f] divided by the number of its rows, the column being
    added up in row order, or pairwise, as [np.mean] does, when the data is
    a single column of 8 rows or more to the chunk. *)
Theorem time_segmentation_segments (data : ndarray) (L : Z) (average : bool) :
  wf data → 1 ≤ Z.of_nat (nrows data) `div` L →
  ∃ (segments : ndarray) (chunks : list (list (list float))),
    time_segmentation data L average = Ok segments ∧
    Z.of_nat (nrows segments) = Z.of_nat (nrows data) `div` L ∧
    Z.of_nat (length chunks) = Z.of_nat (nrows data) `div` L ∧
    Forall (λ chunk, Z.of_nat (length chunk)
                     = Z.of_nat (nrows data) `div` (Z.of_nat (nrows data) `div` L)) chunks ∧
    concat chunks
      = take (nrows data - Z.to_nat (Z.of_nat (nrows data) `mod` (Z.of_nat (nrows data) `div` L)))
             (rows data) ∧
    if average then
      ∀ (k : nat) (chunk : list (list float)), chunks !! k = Some chunk →
        ∃ segment,
          rows segments !! k = Some segment ∧ length segment = ncols data ∧
          ∀ (f : nat) (x : float), segment !! f = Some x →
            let column := map (λ row, nth f row 0%float) chunk in
            x = ((if (ncols data =? 1)%nat && (8 <=? length chunk)%nat
                  then pairwise_sum column
                  else foldl PrimFloat.add (hd 0 column) (tail column))
                 / float_of_Z (Z.of_nat (length chunk)))%float
    else rows segments = map (λ chunk, concat chunk) chunks.
Proof.
  intros Hwf Hn.
  set (T := Z.of_nat (nrows data)) in *. set (n := T `div` L) in *.
  assert (HL : 0 < L).
  { destruct (Z.lt_trichotomy L 0) as [Hneg|[HL|Hpos]]; [| |done].
    - subst n. pose proof (Z.div_mod T L ltac:(lia)).
      pose proof (Z.mod_neg_bound T L Hneg). nia.
    - subst n. rewrite HL, Z.div_0_r in Hn. lia. }
  pose proof (Z.mod_pos_bound T n ltac:(lia)) as Hm.
  pose proof (Z.div_mod T n ltac:(lia)) as Hdm.
  set (m := T `mod` n) in *. set (c := T `div` n) in *.
  assert (Hc : 1 ≤ c).
  { apply Z.div_le_lower_bound; [lia|]. subst n.
    pose proof (Z.div_mod T L ltac:(lia)). pose proof (Z.mod_pos_bound T L HL). nia. }
  set (kept := take (nrows data - Z.to_nat m) (rows data)).
  assert (Hkept : length kept = (Z.to_nat n * Z.to_nat c)%nat).
  { unfold kept. rewrite length_take. unfold nrows in *. nia. }
  destruct (array_split_equal kept n (Z.to_nat c) ltac:(lia) Hkept)
    as (chunks & Hsplit & Hlen & Hall & Hcat).
  assert (Hrows : Forall (Forall (λ r, length r = ncols data)) chunks).
  { apply Forall_forall. intros chunk Hin. apply Forall_forall. intros r Hr.
    assert (Hrk : r ∈ kept).
    { rewrite <- Hcat. apply list_elem_of_In, in_concat.
      exists chunk. by rewrite <- !list_elem_of_In. }
    apply (Forall_forall (λ r, length r = ncols data) (rows data)); [done|].
    unfold kept in Hrk. apply elem_of_take in Hrk as (i & Hi & _).
    by eapply list_elem_of_lookup_2. }
  assert (Hstack : ∀ collapse f,
            (∀ chunk, chunk ∈ chunks → length (collapse chunk) = f) →
            vstack_rows (map collapse chunks) = Ok (NdArray f (map collapse chunks))).
  { intros collapse f Hf. apply vstack_rows_Ok.
    - destruct chunks; [cbn in Hlen; lia | done].
    - rewrite Forall_fmap. apply Forall_forall. intros chunk Hin. by apply Hf. }
  assert (Hravel : vstack_rows (map ravel chunks)
                   = Ok (NdArray (Z.to_nat c * ncols data) (map ravel chunks))).
  { apply Hstack. intros chunk Hin.
    rewrite (length_ravel (ncols data)).
    - rewrite Forall_forall in Hall. by rewrite (Hall chunk Hin).
    - rewrite Forall_forall in Hrows. by apply Hrows. }
  assert (Hmean : vstack_rows (map (mean_axis0 (ncols data)) chunks)
                  = Ok (NdArray (ncols data) (map (mean_axis0 (ncols data)) chunks))).
  { apply Hstack. intros chunk Hin. unfold mean_axis0.
    rewrite length_map. apply length_sum_axis0.
    rewrite Forall_forall in Hrows. by apply Hrows. }
  assert (Hrun : time_segmentation data L average
                 = Ok (NdArray (if average then ncols data else (Z.to_nat c * ncols data)%nat)
                         (map (if average then mean_axis0 (ncols data) else ravel) chunks))).
  { unfold time_segmentation, floordiv, Py.modulo. fold T.
    rewrite (proj2 (Z.eqb_neq L 0)) by lia. rewrite bind_Ok. fold n.
    rewrite (proj2 (Z.eqb_neq n 0)) by lia. rewrite bind_Ok. fold m.
    destruct (Z.eqb_spec m 0) as [Hm0|Hm0].
    - assert (Hk : kept = rows data).
      { unfold kept. rewrite Hm0. apply take_ge. unfold nrows. lia. }
      rewrite <- Hk, Hsplit. destruct average; by rewrite bind_Ok.
    - rewrite slice_to_neg by lia. fold (nrows data). fold kept.
      rewrite Hsplit. destruct average; by rewrite bind_Ok. }
  exists (NdArray (if average then ncols data else (Z.to_nat c * ncols data)%nat)
                  (map (if average then mean_axis0 (ncols data) else ravel) chunks)), chunks.
  split; [done|]. unfold nrows at 1. cbn [rows].
  rewrite length_map.
  split; [lia|]. split; [lia|]. split.
  { eapply Forall_impl; [exact Hall|]. intros chunk ->. lia. }
  split; [done|].
  destruct average; [|done].
  intros k chunk Hk. exists (mean_axis0 (ncols data) chunk).
  assert (Hchunk : Forall (λ r, length r = ncols data) chunk).
  { rewrite Forall_forall in Hrows. apply Hrows. by eapply list_elem_of_lookup_2. }
  assert (Hsize : length chunk = Z.to_nat c).
  { rewrite Forall_forall in Hall. apply Hall. by eapply list_elem_of_lookup_2. }
  assert (Hwidth : length (mean_axis0 (ncols data) chunk) = ncols data).
  { unfold mean_axis0. rewrite length_map. by apply length_sum_axis0. }
  split; [by rewrite list_lookup_fmap, Hk|]. split; [done|].
  intros f x Hx. cbv zeta.
  assert (Hf : (f < ncols data)%nat) by (apply lookup_lt_Some in Hx; lia).
  apply (nth_lookup_Some _ _ PrimFloat.nan) in Hx. rewrite <- Hx.
  apply (nth_mean_axis0 (ncols data) f chunk); [|done..].
  intros ->. cbn in Hsize. lia.
Qed.

(** A witness for C5: 23 rows in segments of 5 give 4 segments, the last 3
    rows being dropped. *)
Lemma time_segmentation_segments_witness :
  let data := NdArray 1 (map (λ i, [float_of_Z (Z.of_nat i)]) (seq 0 23)) in
  wf data ∧ 1 ≤ Z.of_nat (nrows data) `div` 5 ∧
  ∃ (segments : ndarray) (chunks : list (list (list float))),
    time_segmentation data 5 false = Ok segments ∧
    Z.of_nat (nrows segments) = 4 ∧
    Z.of_nat (length chunks) = 4 ∧
    Forall (λ chunk, Z.of_nat (length chunk) = 5) chunks ∧
    concat chunks = take (23 - 3) (rows data) ∧
    rows segments = map (λ chunk, concat chunk) chunks.
Proof.
  intros data.
  assert (Hwf : wf data) by (repeat constructor).
  assert (Hn : 1 ≤ Z.of_nat (nrows data) `div` 5) by (vm_compute; discriminate).
  repeat split; try assumption.
  exact (time_segmentation_segments data 5 false Hwf Hn).
Defined.

(** 20 rows in segments of 5: 4 segments and nothing dropped. *)
Example time_segmentation_20_by_5 :
  time_segmentation (NdArray 1 (map (λ i, [float_of_Z (Z.of_nat i)]) (seq 0 20))) 5 false
  = Ok (NdArray 5 [[0; 1; 2; 3; 4]; [5; 6; 7; 8; 9];
                   [10; 11; 12; 13; 14]; [15; 16; 17; 18; 19]]%float).
Proof. reflexivity. Qed.

(** 23 rows in segments of 5: the same 4 segments, rows 20 to 22 dropped. *)
Example time_segmentation_23_by_5 :
  time_segmentation (NdArray 1 (map (λ i, [float_of_Z (Z.of_nat i)]) (seq 0 23))) 5 false
  = Ok (NdArray 5 [[0; 1; 2; 3; 4]; [5; 6; 7; 8; 9];
                   [10; 11; 12; 13; 14]; [15; 16; 17; 18; 19]]%float).
Proof. reflexivity. Qed.

(** Averaged segments. Two columns are added up row by row: eight rows of
    0.1 sum to 0.7999999999999999, and the mean is below 0.1. A single
    column of eight rows is added up pairwise: the sum is 0.8 and the mean
    0.1. Seven rows of a single column are added up in order again. *)
Example time_segmentation_average_two_columns :
  time_segmentation (NdArray 2 (replicate 16 [0.1; 0.1]%float)) 8 true
  = Ok (NdArray 2 [[0.099999999999999992; 0.099999999999999992];
                   [0.099999999999999992; 0.099999999999999992]]%float).
Proof. reflexivity. Qed.

Example time_segmentation_average_one_column :
  time_segmentation (NdArray 1 (replicate 16 [0.1%float])) 8 true
  = Ok (NdArray 1 [[0.1]; [0.1]]%float) ∧
  time_segmentation (NdArray 1 (replicate 14 [0.1%float])) 7 true
  = Ok (NdArray 1 [[0.099999999999999992]; [0.099999999999999992]]%float).
Proof. split; reflexivity. Qed.

(** 23 rows of two columns averaged in segments of 5: the means of the rows
    0 to 4, 5 to 9, 10 to 14 and 15 to 19. *)
Example time_segmentation_23_by_5_averaged :
  time_segmentation
    (NdArray 2 (map (λ i, [float_of_Z (Z.of_nat i); float_of_Z (Z.of_nat (2 * i))])
                    (seq 0 23))) 5 true
  = Ok (NdArray 2 [[2; 4]; [7; 14]; [12; 24]; [17; 34]]%float).
Proof. reflexivity. Qed.

(** ** Order of floating-point numbers *)

Ltac compare_cases :=
  repeat match goal with
    | |- context [Z.compare ?a ?b] => destruct (Z.compare_spec a b); try lia
    | |- context [PosDef.Pos.compare_cont Eq ?a ?b] =>
        change (PosDef.Pos.compare_cont Eq a b) with (Pos.compare a b);
        destruct (Pos.compare_spec a b); try lia
    | _ => progress cbn
    end;
  try reflexivity.

(** On the specification floats, a number is above the [np.maximum] of two
    others exactly when it is above both. *)
Lemma SFltb_maximum (a b d : spec_float) :
  SFltb (if SFleb b a || negb (SFeqb a a) then a else b) d = SFltb a d && SFltb b d.
Proof.
  unfold SFltb, SFleb, SFeqb.
  destruct a as [[]|[]| |[] ma ea], b as [[]|[]| |[] mb eb], d as [[]|[]| |[] md ed];
    cbn; try reflexivity; compare_cases.
Qed.

Lemma ltb_maximum (a b d : float) :
  (maximum a b <? d)%float = (a <? d)%float && (b <? d)%float.
Proof.
  unfold maximum, PrimFloat.is_nan.
  rewrite !FloatAxioms.ltb_spec, FloatAxioms.leb_spec, FloatAxioms.eqb_spec, <- SFltb_maximum.
  by destruct (SFleb _ _ || _).
Qed.

(** A number is above [np.amax] of an array exactly when it is above every
    entry; a NaN among them, or a NaN number, is above nothing. *)
Lemma ltb_amax (l : list float) (d : float) :
  l ≠ [] →
  ∃ m, amax l = Ok m ∧ ((m <? d)%float = true ↔ ∀ x, x ∈ l → (x <? d)%float = true).
Proof.
  intros Hne. destruct l as [|x l]; [done|]. clear Hne.
  exists (foldl maximum x l). split; [done|].
  revert x. induction l as [|y l IH]; intros x; cbn [foldl].
  - split; [intros Hx z ->%list_elem_of_singleton; done | intros H; apply H; left].
  - rewrite IH. split.
    + intros H z Hz. apply elem_of_cons in Hz as [->|Hz].
      * specialize (H (maximum x y)). rewrite ltb_maximum in H.
        by apply andb_prop in H as [? _]; [|left].
      * apply elem_of_cons in Hz as [->|Hz].
        -- specialize (H (maximum x y)). rewrite ltb_maximum in H.
           by apply andb_prop in H as [_ ?]; [|left].
        -- apply H. by right.
    + intros H z Hz. apply elem_of_cons in Hz as [->|Hz].
      * rewrite ltb_maximum, !H; [done | right; left | left].
      * apply H. right. by right.
Qed.

(** ** Segment classification *)

Lemma elem_of_off_diagonal (row : list float) (i : nat) (x : float) :
  x ∈ off_diagonal row i ↔ ∃ j, j ≠ i ∧ row !! j = Some x.
Proof.
  unfold off_diagonal. rewrite list_elem_of_In, in_map_iff. split.
  - intros (j & <- & Hj%list_elem_of_In).
    apply list_elem_of_filter in Hj as [Hne Hj%elem_of_seq].
    exists j. split; [done|]. rewrite nth_lookup.
    destruct (lookup_lt_is_Some_2 row j) as [y ->]; [lia | done].
  - intros (j & Hne & Hj). exists j. split.
    + by rewrite nth_lookup, Hj.
    + apply list_elem_of_In, list_elem_of_filter. split; [done|].
      apply elem_of_seq. apply lookup_lt_Some in Hj. lia.
Qed.

(** The comparison of one row: the diagonal entry against [np.amax] of the
    others is the comparison against each of them. *)
Lemma hit_row (row : list float) (i : nat) (diagonal : float) :
  (2 ≤ length row)%nat → row !! i = Some diagonal →
  ∃ best_other,
    amax (off_diagonal row i) = Ok best_other ∧
    ((best_other <? diagonal)%float = true ↔
     ∀ j x, j ≠ i → row !! j = Some x → (x <? diagonal)%float = true).
Proof.
  intros Hlen Hi.
  destruct (ltb_amax (off_diagonal row i) diagonal) as (m & Hm & Hiff).
  - destruct (lookup_lt_is_Some_2 row (if decide (i = 0)%nat then 1 else 0)%nat)
      as [x Hx]; [case_decide; lia|].
    intros Hnil.
    assert (Hin : x ∈ off_diagonal row i).
    { apply elem_of_off_diagonal. eexists. split; [|exact Hx]. case_decide; lia. }
    rewrite Hnil in Hin. by apply elem_of_nil in Hin.
  - exists m. split; [done|]. rewrite Hiff. split.
    + intros H j x Hne Hj. apply H, elem_of_off_diagonal. eauto.
    + intros H x (j & Hne & Hj)%elem_of_off_diagonal. eauto.
Qed.

Lemma for_each_count (rest : list (list float)) (hit : nat → bool) (k acc : nat)
    (body : nat → nat * list float → result nat) :
  (∀ i row n_hits, rest !! i = Some row →
     body n_hits ((k + i)%nat, row) = Ok (if hit (k + i)%nat then S n_hits else n_hits)) →
  for_each (imap (λ i row, ((k + i)%nat, row)) rest) acc body
    = Ok (acc + length (filter (λ b, b = true) (map hit (seq k (length rest)))))%nat.
Proof.
  revert k acc. induction rest as [|row rest IH]; intros k acc Hbody.
  - cbn. f_equal. lia.
  - cbn [imap for_each length seq map]. rewrite (Hbody 0%nat row acc eq_refl), bind_Ok.
    rewrite (imap_ext _ (λ i row, ((S k + i)%nat, row))).
    2:{ intros i x _. cbn. f_equal. lia. }
    rewrite Nat.add_0_r. rewrite IH.
    2:{ intros i row' n_hits Hi. replace (S k + i)%nat with (k + S i)%nat by lia.
        by apply Hbody. }
    rewrite filter_cons. destruct (hit k); cbn.
    + rewrite decide_True by done. cbn. f_equal. lia.
    + rewrite decide_False by done. done.
Qed.

Lemma count_hits_spec (correlation : list (list float)) (hit : nat → bool) :
  (∀ i row, correlation !! i = Some row →
     ∃ diagonal best_other,
       row !! i = Some diagonal ∧ amax (off_diagonal row i) = Ok best_other ∧
       hit i = (best_other <? diagonal)%float) →
  count_hits correlation
    = Ok (length (filter (λ b, b = true) (map hit (seq 0 (length correlation))))).
Proof.
  intros Hrows. unfold count_hits.
  rewrite (imap_ext _ (λ i row, ((0 + i)%nat, row))) by done.
  rewrite (for_each_count _ hit); [done|].
  intros i row n_hits Hi. cbn.
  destruct (Hrows i row Hi) as (diagonal & best_other & Hd & Hm & ->).
  unfold item. by rewrite Hd, bind_Ok, Hm, bind_Ok.
Qed.

(** Row [i] of the [s]-th slice of [np.moveaxis(a, 2, 0)] holds the entries
    [a[i, j, s]]. *)
Lemma moveaxis_2_0_row (a : ndarray3) (s i : nat) (slice : list (list float))
    (row : list float) :
  wf3 a → moveaxis_2_0 a !! s = Some slice → slice !! i = Some row →
  length slice = dim0 a ∧ length row = dim1 a ∧
  ∀ j, (j < dim1 a)%nat → row !! j = Some (entry a i j s).
Proof.
  intros Hwf Hs Hi. unfold moveaxis_2_0, last_axis in Hs. cbn [rows] in Hs.
  apply list_lookup_fmap_Some in Hs as (s' & -> & [-> Hs]%lookup_seq).
  rewrite Nat.add_0_l in *. split; [by rewrite length_map|].
  apply list_lookup_fmap_Some in Hi as (plane & -> & Hplane).
  destruct (Forall_lookup_1 _ _ _ _ Hwf Hplane) as [Hlen Hlines].
  split; [by rewrite length_map|].
  intros j Hj.
  destruct (lookup_lt_is_Some_2 plane j) as [line Hline]; [lia|].
  rewrite list_lookup_fmap, Hline. cbn. unfold entry.
  by rewrite (nth_lookup (cells a)), Hplane, (nth_lookup plane), Hline.
Qed.

(** C6. For a correlation tensor of shape [(n, n, S)] with [n >= 2],
    [correlation_classification] returns, for each subject, the number of
    hits divided by [n], and the chance level [1 / n], which is exactly 0.1
    for [n = 10]; segment [i] of subject [s] is a hit exactly when the
    diagonal entry [(i, i)] is strictly above every other entry of row [i],
    so that a tie is no hit. *)
Theorem correlation_classification_hit_rule (correlations : ndarray3) :
  wf3 correlations → dim1 correlations = dim0 correlations →
  (2 ≤ dim0 correlations)%nat →
  ∃ (accuracies : list float) (chance : float) (hits : list (list bool)),
    correlation_classification correlations = Ok (accuracies, chance) ∧
    length hits = dim2 correlations ∧
    (∀ s h, hits !! s = Some h →
       length h = dim0 correlations ∧
       ∀ i (b : bool), h !! i = Some b →
         (b = true ↔
          ∀ j, (j < dim0 correlations)%nat → j ≠ i →
            (entry correlations i j s <? entry correlations i i s)%float = true)) ∧
    accuracies
      = map (λ h, (float_of_Z (Z.of_nat (length (filter (λ b : bool, b = true) h)))
                   / float_of_Z (Z.of_nat (dim0 correlations)))%float) hits ∧
    chance = (1 / float_of_Z (Z.of_nat (dim0 correlations)))%float ∧
    (dim0 correlations = 10%nat → chance = 0.1%float).
Proof.
  intros Hwf Hsq Hn.
  set (n := dim0 correlations) in *.
  set (hit_of := λ (slice : list (list float)) (i : nat),
         match amax (off_diagonal (nth i slice []) i) with
         | Ok best_other => (best_other <? nth i (nth i slice []) PrimFloat.nan)%float
         | Raise _ => false
         end).
  set (slices := moveaxis_2_0 correlations).
  assert (Hslice : ∀ s slice i row, slices !! s = Some slice → slice !! i = Some row →
            ∃ diagonal best_other,
              row !! i = Some diagonal ∧ diagonal = entry correlations i i s ∧
              amax (off_diagonal row i) = Ok best_other ∧
              hit_of slice i = (best_other <? diagonal)%float ∧
              ((best_other <? diagonal)%float = true ↔
               ∀ j, (j < n)%nat → j ≠ i →
                 (entry correlations i j s <? diagonal)%float = true)).
  { intros s slice i row Hs Hi.
    destruct (moveaxis_2_0_row _ _ _ _ _ Hwf Hs Hi) as (Hlen & Hrow & Hentries).
    rewrite Hsq in Hrow, Hentries.
    assert (Hin : (i < n)%nat) by (apply lookup_lt_Some in Hi; lia).
    destruct (hit_row row i (entry correlations i i s)) as (m & Hm & Hiff);
      [lia | by apply Hentries |].
    exists (entry correlations i i s), m. repeat split; [by apply Hentries|done| |..].
    - unfold hit_of. rewrite (nth_lookup slice), Hi. cbn [default from_option id].
      by rewrite Hm, nth_lookup, Hentries.
    - intros Hlt j Hj Hne. apply (proj1 Hiff Hlt j); [done | by apply Hentries].
    - intros Hall. apply Hiff. intros j x Hne Hx.
      assert (Hj : (j < n)%nat) by (apply lookup_lt_Some in Hx; lia).
      rewrite Hentries in Hx by done. injection Hx as <-. by apply Hall. }
  assert (Hlen : ∀ s slice, slices !! s = Some slice → length slice = n).
  { intros s slice Hs. unfold slices, moveaxis_2_0, last_axis in Hs. cbn [rows] in Hs.
    apply list_lookup_fmap_Some in Hs as (s' & -> & _). by rewrite length_map. }
  exists (map (λ slice,
            (float_of_Z (Z.of_nat (length (filter (λ b : bool, b = true)
                                             (map (hit_of slice) (seq 0 n)))))
             / float_of_Z (Z.of_nat n))%float) slices),
         (1 / float_of_Z (Z.of_nat n))%float,
         (map (λ slice, map (hit_of slice) (seq 0 n)) slices).
  split; [|split; [|split; [|split; [|split]]]].
  - unfold correlation_classification. fold n. fold slices.
    rewrite (mapM_Ok _ (λ slice,
            (float_of_Z (Z.of_nat (length (filter (λ b : bool, b = true)
                                             (map (hit_of slice) (seq 0 n)))))
             / float_of_Z (Z.of_nat n))%float)).
    + rewrite bind_Ok. unfold truediv.
      rewrite (proj2 (Z.eqb_neq (Z.of_nat n) 0)) by lia. by rewrite bind_Ok.
    + intros slice (s & Hs)%list_elem_of_lookup_1.
      rewrite (count_hits_spec slice (hit_of slice)).
      * rewrite bind_Ok, (Hlen s slice Hs). unfold truediv.
        by rewrite (proj2 (Z.eqb_neq (Z.of_nat n) 0)) by lia.
      * intros i row Hi.
        destruct (Hslice s slice i row Hs Hi) as (d & m & Hd & _ & Hm & Hhit & _).
        eauto.
  - rewrite length_map. unfold slices, moveaxis_2_0. by rewrite length_map, length_seq.
  - intros s h (slice & -> & Hs)%list_lookup_fmap_Some.
    split; [by rewrite length_map, length_seq|].
    intros i b (i' & -> & [-> Hi]%lookup_seq)%list_lookup_fmap_Some.
    rewrite Nat.add_0_l.
    destruct (lookup_lt_is_Some_2 slice i) as [row Hrow]; [by rewrite (Hlen s slice Hs)|].
    destruct (Hslice s slice i row Hs Hrow) as (d & m & Hd & -> & Hm & -> & Hiff).
    done.
  - by rewrite map_map.
  - done.
  - intros H10. by rewrite H10.
Qed.

(** A witness for C6, and its example: a 3 x 3 slice with the diagonal
    0.9, 0.1, 0.9 and the largest other entries 0.5, 0.2, 0.95 of its rows
    has the single hit of row 0. *)
Lemma correlation_classification_hit_rule_witness :
  let correlations :=
    NdArray3 3 1 [[[0.9]; [0.5]; [0.3]];
                  [[0.2]; [0.1]; [0.0]];
                  [[0.95]; [0.4]; [0.9]]]%float in
  wf3 correlations ∧ dim1 correlations = dim0 correlations ∧
  (2 ≤ dim0 correlations)%nat ∧
  ∃ (accuracies : list float) (chance : float) (hits : list (list bool)),
    correlation_classification correlations = Ok (accuracies, chance) ∧
    length hits = 1%nat ∧
    (∀ s h, hits !! s = Some h →
       length h = 3%nat ∧
       ∀ i (b : bool), h !! i = Some b →
         (b = true ↔
          ∀ j, (j < 3)%nat → j ≠ i →
            (entry correlations i j s <? entry correlations i i s)%float = true)) ∧
    accuracies
      = map (λ h, (float_of_Z (Z.of_nat (length (filter (λ b : bool, b = true) h)))
                   / float_of_Z 3)%float) hits ∧
    chance = (1 / float_of_Z 3)%float ∧
    (3%nat = 10%nat → chance = 0.1%float).
Proof.
  intros correlations.
  assert (Hwf : wf3 correlations) by (repeat constructor).
  assert (Hsq : dim1 correlations = dim0 correlations) by reflexivity.
  assert (Hn : (2 ≤ dim0 correlations)%nat) by (cbn; lia).
  repeat split; try assumption.
  exact (correlation_classification_hit_rule correlations Hwf Hsq Hn).
Defined.

Example correlation_classification_one_hit_in_three :
  correlation_classification
    (NdArray3 3 1 [[[0.9]; [0.5]; [0.3]];
                   [[0.2]; [0.1]; [0.0]];
                   [[0.95]; [0.4]; [0.9]]]%float)
  = Ok ([(1 / 3)%float], (1 / 3)%float).
Proof. reflexivity. Qed.

(** A tie is no hit: row 0 ties, row 1 wins. *)
Example correlation_classification_tie_is_a_miss :
  correlation_classification
    (NdArray3 2 1 [[[0.5]; [0.5]];
                   [[0.1]; [0.9]]]%float)
  = Ok ([0.5%float], 0.5%float).
Proof. reflexivity. Qed.

(** For ten segments the chance level is 0.1. *)
Example correlation_classification_chance_of_ten :
  truediv 1 10 = Ok 0.1%float.
Proof. reflexivity. Qed.

(** ** Dictionaries and loops *)

Lemma dict_get_set_eq {V} (d : dict V) (k : string) (v : V) :
  dict_get (dict_set d k v) k = Ok v.
Proof.
  induction d as [|[k' v'] d IH]; cbn.
  - by rewrite String.eqb_refl.
  - destruct (String.eqb_spec k' k) as [->|Hne]; cbn.
    + by rewrite String.eqb_refl.
    + by rewrite (proj2 (String.eqb_neq _ _) Hne).
Qed.

Lemma dict_get_set_ne {V} (d : dict V) (k k' : string) (v : V) :
  k ≠ k' → dict_get (dict_set d k v) k' = dict_get d k'.
Proof.
  intros Hne. induction d as [|[k0 v0] d IH]; cbn.
  - by rewrite (proj2 (String.eqb_neq _ _) Hne).
  - destruct (String.eqb_spec k0 k) as [->|Hne0]; cbn.
    + by rewrite !(proj2 (String.eqb_neq _ _) Hne).
    + destruct (String.eqb_spec k0 k'); [done | apply IH].
Qed.

Lemma dict_get_keys {V} (d : dict V) (k : string) :
  k ∈ keys d → ∃ v, dict_get d k = Ok v.
Proof.
  unfold keys. induction d as [|[k' v'] d IH]; cbn.
  - intros H. by apply elem_of_nil in H.
  - intros [->|Hin]%elem_of_cons.
    + rewrite String.eqb_refl. eauto.
    + destruct (String.eqb_spec k' k); eauto.
Qed.

Lemma dict_get_Ok_keys {V} (d : dict V) (k : string) (v : V) :
  dict_get d k = Ok v → k ∈ keys d.
Proof.
  unfold keys. induction d as [|[k' v'] d IH]; cbn; [done|].
  destruct (String.eqb_spec k' k) as [->|Hne]; [left|right; auto].
Qed.

(** A loop whose body cannot fail is a fold. *)
Lemma for_each_Ok {S A} (l : list A) (s : S) (body : S → A → result S) (step : S → A → S) :
  (∀ s x, x ∈ l → body s x = Ok (step s x)) → for_each l s body = Ok (foldl step s l).
Proof.
  revert s. induction l as [|x l IH]; intros s Hbody; [done|].
  cbn. rewrite Hbody by left. rewrite bind_Ok. apply IH.
  intros s' y Hy. apply Hbody. by right.
Qed.

(** A loop that stores a value under every key it goes through. *)
Lemma dict_get_foldl_set_other {V} (ks : list string) (g : string → V) (d : dict V)
    (k : string) :
  k ∉ ks → dict_get (foldl (λ d k, dict_set d k (g k)) d ks) k = dict_get d k.
Proof.
  revert d. induction ks as [|k0 ks IH]; intros d Hk; [done|].
  apply not_elem_of_cons in Hk as [Hne Hk]. cbn.
  rewrite IH by done. by apply dict_get_set_ne.
Qed.

Lemma dict_get_foldl_set {V} (ks : list string) (g : string → V) (d : dict V) (k : string) :
  k ∈ ks → dict_get (foldl (λ d k, dict_set d k (g k)) d ks) k = Ok (g k).
Proof.
  revert d. induction ks as [|k0 ks IH]; intros d Hin.
  - by apply elem_of_nil in Hin.
  - cbn. destruct (decide (k ∈ ks)) as [Hk|Hk]; [by apply IH|].
    apply elem_of_cons in Hin as [->|Hin]; [|done].
    rewrite dict_get_foldl_set_other by done. apply dict_get_set_eq.
Qed.

Lemma foldl_pair {A B K} (fa : A → K → A) (fb : B → K → B) (l : list K) (a : A) (b : B) :
  foldl (λ '(a, b) k, (fa a k, fb b k)) (a, b) l = (foldl fa a l, foldl fb b l).
Proof. revert a b. induction l as [|k l IH]; intros a b; [done | apply IH]. Qed.

(** ** Split halves *)

Section SplitHalf.

Variable zscore : ndarray → ndarray.

Lemma halves_take_drop (a : ndarray) (midpoint : nat) (zscore_halves : bool) :
  halves zscore a midpoint zscore_halves =
    ((if zscore_halves then zscore (NdArray (ncols a) (take midpoint (rows a)))
      else NdArray (ncols a) (take midpoint (rows a))),
     (if zscore_halves then zscore (NdArray (ncols a) (drop midpoint (rows a)))
      else NdArray (ncols a) (drop midpoint (rows a)))).
Proof.
  unfold halves, slice_rows. rewrite slice_to_nat, slice_from_nat.
  by destruct zscore_halves.
Qed.

(** C9 (amended). When in every story of the inputs the data of every
    subject has as many rows as the story's model, [split_half] returns, for
    the model and for each subject of each story, the two pairs
    [(first, second)] and [(second, first)], where [first] is the rows
    before [midpoint = n_rows // 2] and [second] the rows from [midpoint]
    on, so that the halves put together are all rows; a half that is
    z-scored is z-scored on its own. *)
Theorem split_half_mirrored (inputs : dict story_inputs) (zscore_data zscore_model : bool) :
  (∀ story story_in subject data,
     dict_get inputs story = Ok story_in →
     dict_get (inputs_data story_in) subject = Ok data →
     nrows data = nrows (inputs_model story_in)) →
  ∃ model_splits data_splits,
    split_half zscore inputs zscore_data zscore_model = Ok (model_splits, data_splits) ∧
    ∀ story story_in, dict_get inputs story = Ok story_in →
      let model := inputs_model story_in in
      let midpoint := (nrows model / 2)%nat in
      let first (a : ndarray) := NdArray (ncols a) (take midpoint (rows a)) in
      let second (a : ndarray) := NdArray (ncols a) (drop midpoint (rows a)) in
      let prepared (z : bool) (half : ndarray) := if z then zscore half else half in
      (∀ a, rows (first a) ++ rows (second a) = rows a) ∧
      nrows (first model) = midpoint ∧
      dict_get model_splits story
        = Ok [(prepared zscore_model (first model), prepared zscore_model (second model));
              (prepared zscore_model (second model), prepared zscore_model (first model))] ∧
      ∃ subject_splits,
        dict_get data_splits story = Ok subject_splits ∧
        ∀ subject data, dict_get (inputs_data story_in) subject = Ok data →
          dict_get subject_splits subject
            = Ok [(prepared zscore_data (first data), prepared zscore_data (second data));
                  (prepared zscore_data (second data), prepared zscore_data (first data))].
Proof.
  intros Hrows.
  set (pairs := λ (z : bool) (midpoint : nat) (a : ndarray),
         [((halves zscore a midpoint z).1, (halves zscore a midpoint z).2);
          ((halves zscore a midpoint z).2, (halves zscore a midpoint z).1)]).
  set (subject_step := λ (story_in : story_inputs) (midpoint : nat) (subject : string),
         match dict_get (inputs_data story_in) subject with
         | Ok data => pairs zscore_data midpoint data
         | Raise _ => []
         end).
  assert (Hsubjects : ∀ story story_in midpoint, dict_get inputs story = Ok story_in →
            for_each (keys (inputs_data story_in)) []
              (split_subject zscore story_in midpoint zscore_data)
            = Ok (foldl (λ d subject, dict_set d subject (subject_step story_in midpoint subject))
                        [] (keys (inputs_data story_in)))).
  { intros story story_in midpoint Hstory. apply for_each_Ok.
    intros d subject [data Hdata]%dict_get_keys.
    unfold split_subject, subject_step. rewrite Hdata, bind_Ok.
    rewrite (Hrows _ _ _ _ Hstory Hdata), Nat.eqb_refl. cbn [assert]. rewrite bind_Ok.
    unfold pairs. by destruct (halves zscore data midpoint zscore_data). }
  set (model_step := λ story : string,
         match dict_get inputs story with
         | Ok story_in =>
             pairs zscore_model (nrows (inputs_model story_in) / 2)%nat (inputs_model story_in)
         | Raise _ => []
         end).
  set (data_step := λ story : string,
         match dict_get inputs story with
         | Ok story_in =>
             foldl (λ d subject, dict_set d subject
                      (subject_step story_in (nrows (inputs_model story_in) / 2)%nat subject))
                   [] (keys (inputs_data story_in))
         | Raise _ => []
         end).
  assert (Hrun : split_half zscore inputs zscore_data zscore_model
                 = Ok (foldl (λ d story, dict_set d story (model_step story)) [] (keys inputs),
                       foldl (λ d story, dict_set d story (data_step story)) [] (keys inputs))).
  { unfold split_half. rewrite <- foldl_pair. apply for_each_Ok.
    intros [model_splits data_splits] story [story_in Hstory]%dict_get_keys.
    unfold split_story, model_step, data_step, pairs. rewrite Hstory, bind_Ok.
    destruct (halves zscore (inputs_model story_in) _ zscore_model) as [first second] eqn:Hh.
    by rewrite (Hsubjects story story_in _ Hstory), bind_Ok. }
  eexists _, _. split; [exact Hrun|].
  intros story story_in Hstory model midpoint first second prepared.
  pose proof (dict_get_Ok_keys _ _ _ Hstory) as Hkey.
  split; [intros a; apply take_drop|].
  split.
  { unfold nrows, first. cbn [rows]. rewrite length_take.
    assert (midpoint ≤ nrows model)%nat
      by (apply Nat.Div0.div_le_upper_bound; lia).
    unfold nrows in *. lia. }
  split.
  { rewrite dict_get_foldl_set by done. unfold model_step, pairs.
    by rewrite Hstory, halves_take_drop. }
  eexists. split.
  { rewrite dict_get_foldl_set by done. unfold data_step. by rewrite Hstory. }
  intros subject data Hdata.
  rewrite dict_get_foldl_set by (by eapply dict_get_Ok_keys).
  unfold subject_step, pairs. by rewrite Hdata, halves_take_drop.
Qed.

End SplitHalf.

(** A witness for C9: one story with a model of five rows and one subject. *)
Lemma split_half_mirrored_witness :
  let model := NdArray 1 [[1]; [2]; [3]; [4]; [5]]%float in
  let data := NdArray 2 [[1; 6]; [2; 7]; [3; 8]; [4; 9]; [5; 10]]%float in
  let inputs := [("black"%string, StoryInputs model [("sub-02"%string, data)])] in
  (∀ story story_in subject data,
     dict_get inputs story = Ok story_in →
     dict_get (inputs_data story_in) subject = Ok data →
     nrows data = nrows (inputs_model story_in)) ∧
  ∃ model_splits data_splits,
    split_half (λ a, a) inputs false false = Ok (model_splits, data_splits) ∧
    dict_get model_splits "black"
      = Ok [(NdArray 1 [[1]; [2]]%float, NdArray 1 [[3]; [4]; [5]]%float);
            (NdArray 1 [[3]; [4]; [5]]%float, NdArray 1 [[1]; [2]]%float)].
Proof.
  intros model data inputs.
  assert (Hrows : ∀ story story_in subject data,
     dict_get inputs story = Ok story_in →
     dict_get (inputs_data story_in) subject = Ok data →
     nrows data = nrows (inputs_model story_in)).
  { intros story story_in subject data' Hstory Hdata.
    unfold inputs in Hstory. cbn [dict_get] in Hstory.
    destruct (String.eqb "black" story); [|discriminate]. injection Hstory as <-.
    cbn [inputs_data dict_get] in Hdata.
    destruct (String.eqb "sub-02" subject); [|discriminate].
    by injection Hdata as <-. }
  split; [exact Hrows|].
  destruct (split_half_mirrored (λ a, a) inputs false false Hrows)
    as (model_splits & data_splits & Hrun & Hsplits).
  exists model_splits, data_splits. split; [exact Hrun|].
  destruct (Hsplits "black"%string (StoryInputs model [("sub-02"%string, data)]) eq_refl)
    as (_ & _ & Hmodel & _).
  exact Hmodel.
Defined.

(** The counterexample to C9 as stated: the story "black" has data of as
    many rows as its model, the story "forgot" has not. The assertion
    fails on "forgot" and [split_half] raises, so nothing is returned for
    "black" either. *)
Lemma split_half_good_story_not_returned :
  let model := NdArray 1 [[1]; [2]; [3]; [4]]%float in
  let good := StoryInputs model [("sub-02"%string, NdArray 1 [[5]; [6]; [7]; [8]]%float)] in
  let bad := StoryInputs model [("sub-02"%string, NdArray 1 [[5]; [6]; [7]]%float)] in
  let inputs := [("black"%string, good); ("forgot"%string, bad)] in
  dict_get inputs "black" = Ok good ∧
  (∀ subject data, dict_get (inputs_data good) subject = Ok data →
     nrows data = nrows (inputs_model good)) ∧
  ∀ zscore_data zscore_model,
    split_half (λ a, a) inputs zscore_data zscore_model = Raise AssertionError.
Proof.
  intros model good bad inputs. split; [reflexivity|]. split.
  - intros subject data Hget. unfold good in Hget. cbn [inputs_data dict_get] in Hget.
    destruct (String.eqb "sub-02" subject); [|done]. by injection Hget as <-.
  - by intros [] [].
Qed.


(** A loop each of whose steps either fails with [e], on a bad element, or
    goes on: it fails with [e] when it meets a bad element, and it goes
    through when there is none. *)
Lemma for_each_raises {S A} (l : list A) (s : S) (body : S → A → result S)
    (bad : A → Prop) (e : exn) :
  (∀ s x, x ∈ l →
     (bad x ∧ body s x = Raise e) ∨ (¬ bad x ∧ ∃ s', body s x = Ok s')) →
  (for_each l s body = Raise e ∧ ∃ x, x ∈ l ∧ bad x) ∨
  ((∃ s', for_each l s body = Ok s') ∧ ∀ x, x ∈ l → ¬ bad x).
Proof.
  revert s. induction l as [|x l IH]; intros s Hbody.
  - right. split; [by eexists|]. intros x Hx. by apply elem_of_nil in Hx.
  - cbn [for_each].
    destruct (Hbody s x ltac:(left)) as [[Hbad ->]|[Hgood [s' ->]]].
    + left. split; [done|]. exists x. split; [left | done].
    + rewrite bind_Ok.
      destruct (IH s') as [[Hrun (y & Hy & Hbad)]|[Hrun Hnone]].
      * intros s'' y Hy. apply Hbody. by right.
      * left. split; [done|]. exists y. split; [by right | done].
      * right. split; [done|].
        intros y [->|Hy]%elem_of_cons; [done | by apply Hnone].
Qed.

(** ** Loading the inputs *)

Section LoadInputs.

Variable zscore : ndarray → ndarray.
Variable np_load : string → result ndarray.
Variable read_gifti : string → result ndarray.

(** An embedding of five rows or more, delayed by 2, 3, 4 and 5, keeps its
    number of rows. *)
Lemma delay_embedding_default_nrows (embedding : ndarray) :
  (5 ≤ nrows embedding)%nat →
  ∃ model, delay_embedding zscore embedding default_delays false = Ok model ∧
           nrows model = nrows embedding.
Proof.
  intros Hrows. eexists. split.
  - apply (delay_embedding_rows zscore embedding default_delays (nrows embedding));
      [done|]. unfold default_delays. repeat constructor; lia.
  - unfold nrows at 1. cbn [rows]. by rewrite length_map, length_seq.
Qed.

(** An embedding of fewer rows cannot be delayed by 2, 3, 4 and 5. *)
Lemma delay_embedding_default_short (embedding : ndarray) :
  (nrows embedding < 5)%nat →
  delay_embedding zscore embedding default_delays false = Raise ValueError.
Proof.
  intros Hrows.
  apply (delay_embedding_uneven_blocks_raise zscore embedding default_delays 4 5).
  - unfold default_delays. repeat constructor.
  - unfold default_delays. set_solver.
  - unfold default_delays. set_solver.
  - lia.
Qed.

(** C8 (amended). Assume that every requested story is in the metadata,
    that its files can be read, that its embedding keeps at least five rows
    after its trim (so that the delays 2 to 5 can be stacked), and that the
    mask, when there is one, has one entry per column of the data. Then
    [load_inputs] raises exactly when for some requested story and subject
    the row count of the trimmed data differs from that of the delayed model,
    the trims being [a[start:(-end or None)]], where an end of 0 removes
    nothing; the exception is the [ValueError] of that check, and no inputs
    are returned. *)
Theorem load_inputs_raises_iff_rows_differ (metadata : dict story_meta)
    (stories : option (list string)) (mask : option (list bool)) :
  (∀ story,
     story ∈ match stories with
             | None | Some [] => keys metadata
             | Some stories => stories
             end →
     ∃ meta embedding,
       dict_get metadata story = Ok meta ∧
       np_load (meta_model meta) = Ok embedding ∧
       (5 ≤ nrows (trim embedding (meta_model_trims meta)))%nat ∧
       ∀ subject data_fn, dict_get (meta_data meta) subject = Ok data_fn →
         ∃ surf_data, read_gifti data_fn = Ok surf_data ∧
                      ∀ m, mask = Some m → length m = ncols surf_data) →
  (raises (load_inputs zscore np_load read_gifti metadata stories mask) ↔
   ∃ story meta embedding model subject data_fn surf_data,
     story ∈ match stories with
             | None | Some [] => keys metadata
             | Some stories => stories
             end ∧
     dict_get metadata story = Ok meta ∧
     np_load (meta_model meta) = Ok embedding ∧
     delay_embedding zscore (trim embedding (meta_model_trims meta)) default_delays false
       = Ok model ∧
     dict_get (meta_data meta) subject = Ok data_fn ∧
     read_gifti data_fn = Ok surf_data ∧
     nrows (trim surf_data (meta_data_trims meta)) ≠ nrows model) ∧
  (raises (load_inputs zscore np_load read_gifti metadata stories mask) →
   load_inputs zscore np_load read_gifti metadata stories mask = Raise ValueError).
Proof.
  intros Hfiles.
  set (requested := match stories with
                    | None | Some [] => keys metadata
                    | Some stories => stories
                    end) in *.
  set (differs := λ (meta : story_meta) (model : ndarray) (subject : string),
         ∃ data_fn surf_data,
           dict_get (meta_data meta) subject = Ok data_fn ∧
           read_gifti data_fn = Ok surf_data ∧
           nrows (trim surf_data (meta_data_trims meta)) ≠ nrows model).
  set (bad := λ story : string,
         ∃ meta embedding model subject,
           dict_get metadata story = Ok meta ∧
           np_load (meta_model meta) = Ok embedding ∧
           delay_embedding zscore (trim embedding (meta_model_trims meta))
             default_delays false = Ok model ∧
           differs meta model subject).
  assert (Hsubject : ∀ story meta model data subject,
            story ∈ requested → dict_get metadata story = Ok meta →
            subject ∈ keys (meta_data meta) →
            (differs meta model subject ∧
             load_subject read_gifti meta mask model data subject = Raise ValueError) ∨
            (¬ differs meta model subject ∧
             ∃ data', load_subject read_gifti meta mask model data subject = Ok data')).
  { intros story meta model data subject Hstory Hmeta [data_fn Hfn]%dict_get_keys.
    destruct (Hfiles story Hstory) as (meta' & embedding & Hmeta' & _ & _ & Hdata).
    rewrite Hmeta in Hmeta'. injection Hmeta' as <-.
    destruct (Hdata subject data_fn Hfn) as (surf_data & Hread & Hmask).
    unfold load_subject. rewrite Hfn, bind_Ok, Hread, bind_Ok.
    destruct (Nat.eqb_spec (nrows model) (nrows (trim surf_data (meta_data_trims meta))))
      as [Heq|Hne]; cbn [negb].
    - right. split.
      + intros (data_fn' & surf_data' & Hfn' & Hread' & Hne).
        rewrite Hfn in Hfn'. injection Hfn' as <-.
        rewrite Hread in Hread'. injection Hread' as <-. by rewrite Heq in Hne.
      + destruct mask as [m|]; [|by eexists].
        unfold select_columns. rewrite decide_True by (by apply Hmask). by eexists.
    - left. split; [|done]. exists data_fn, surf_data. by repeat split. }
  assert (Hstory : ∀ inputs story, story ∈ requested →
            (bad story ∧
             load_story zscore np_load read_gifti metadata mask inputs story
               = Raise ValueError) ∨
            (¬ bad story ∧
             ∃ inputs', load_story zscore np_load read_gifti metadata mask inputs story
                        = Ok inputs')).
  { intros inputs story Hin.
    destruct (Hfiles story Hin) as (meta & embedding & Hmeta & Hload & Hrows & _).
    destruct (delay_embedding_default_nrows _ Hrows) as (model & Hmodel & _).
    unfold load_story. rewrite Hmeta, bind_Ok, Hload, bind_Ok, Hmodel, bind_Ok.
    destruct (for_each_raises (keys (meta_data meta)) []
                (load_subject read_gifti meta mask model) (differs meta model) ValueError)
      as [[-> (subject & Hsub & Hbad)]|[[data ->] Hnone]].
    - intros data subject Hsub. by eapply Hsubject.
    - left. split; [|done]. by exists meta, embedding, model, subject.
    - right. split; [|by eexists].
      intros (meta' & embedding' & model' & subject & Hmeta' & Hload' & Hmodel' & Hbad).
      rewrite Hmeta in Hmeta'. injection Hmeta' as <-.
      rewrite Hload in Hload'. injection Hload' as <-.
      rewrite Hmodel in Hmodel'. injection Hmodel' as <-.
      apply (Hnone subject); [|done].
      destruct Hbad as (data_fn & _ & Hfn & _). by eapply dict_get_Ok_keys. }
  unfold load_inputs. fold requested.
  destruct (for_each_raises requested []
              (load_story zscore np_load read_gifti metadata mask) bad ValueError)
    as [[-> (story & Hin & Hbad)]|[[inputs ->] Hnone]].
  - intros inputs story Hin. by apply Hstory.
  - split; [|done]. split; [|done]. intros _.
    destruct Hbad as (meta & embedding & model & subject & Hmeta & Hload & Hmodel & Hdiff).
    destruct Hdiff as (data_fn & surf_data & Hfn & Hread & Hne).
    by exists story, meta, embedding, model, subject, data_fn, surf_data.
  - split; [|done]. split; [done|].
    intros (story & meta & embedding & model & subject & data_fn & surf_data
            & Hin & Hmeta & Hload & Hmodel & Hfn & Hread & Hne).
    apply (Hnone story Hin).
    exists meta, embedding, model, subject. repeat split; try done.
    by exists data_fn, surf_data.
Qed.

End LoadInputs.

(** A witness for C8: the embedding of story "black" keeps rows 2 to 6 of its
    eight rows, the data of its subject rows 1 to 6 of its seven, and the six
    rows of the data against the five of the model make [load_inputs] raise. *)
Lemma load_inputs_raises_iff_rows_differ_witness :
  let embedding := NdArray 1 (map (λ i, [float_of_Z (Z.of_nat i)]) (seq 0 8)) in
  let surf_data := NdArray 2 (map (λ i, [float_of_Z (Z.of_nat i); 0%float]) (seq 0 7)) in
  let np_load := λ _ : string, Ok embedding in
  let read_gifti := λ _ : string, Ok surf_data in
  let metadata :=
    [("black"%string,
      StoryMeta "black.npy" (2, 1) [("sub-02"%string, "sub-02_black.gii"%string)] (1, 0))] in
  (∀ story, story ∈ ["black"%string] →
     ∃ meta embedding,
       dict_get metadata story = Ok meta ∧
       np_load (meta_model meta) = Ok embedding ∧
       (5 ≤ nrows (trim embedding (meta_model_trims meta)))%nat ∧
       ∀ subject data_fn, dict_get (meta_data meta) subject = Ok data_fn →
         ∃ surf_data, read_gifti data_fn = Ok surf_data ∧
                      ∀ m, @None (list bool) = Some m → length m = ncols surf_data) ∧
  load_inputs (λ a, a) np_load read_gifti metadata (Some ["black"%string]) None
    = Raise ValueError.
Proof.
  intros embedding surf_data np_load read_gifti metadata.
  assert (Hfiles : ∀ story, story ∈ ["black"%string] →
     ∃ meta embedding,
       dict_get metadata story = Ok meta ∧
       np_load (meta_model meta) = Ok embedding ∧
       (5 ≤ nrows (trim embedding (meta_model_trims meta)))%nat ∧
       ∀ subject data_fn, dict_get (meta_data meta) subject = Ok data_fn →
         ∃ surf_data, read_gifti data_fn = Ok surf_data ∧
                      ∀ m, @None (list bool) = Some m → length m = ncols surf_data).
  { intros story ->%list_elem_of_singleton.
    eexists _, embedding. split; [reflexivity|]. split; [reflexivity|].
    split; [vm_compute; lia|].
    intros subject data_fn _. exists surf_data. split; [reflexivity | discriminate]. }
  split; [exact Hfiles|].
  destruct (load_inputs_raises_iff_rows_differ (λ a, a) np_load read_gifti metadata
              (Some ["black"%string]) None Hfiles) as [Hiff Hexn].
  apply Hexn, Hiff.
  eexists "black"%string, _, embedding, _, "sub-02"%string, _, surf_data.
  split; [by left|]. split; [reflexivity|]. split; [reflexivity|].
  split; [reflexivity|]. split; [reflexivity|]. split; [reflexivity|].
  vm_compute. lia.
Defined.

(** The counterexamples to C8 as stated. With a mask of one entry for data
    of two columns [load_inputs] raises an [IndexError] although data and
    delayed model both have five rows; and an embedding of three rows makes
    it raise whatever the data, since the delays 2 to 5 cannot be stacked and
    there is no delayed model to compare with. *)
Lemma load_inputs_raises_without_row_mismatch :
  let metadata :=
    [("black"%string,
      StoryMeta "black.npy" (0, 0) [("sub-02"%string, "sub-02_black.gii"%string)] (0, 0))] in
  let embedding := NdArray 1 (map (λ i, [float_of_Z (Z.of_nat i)]) (seq 0 5)) in
  let surf_data := NdArray 2 (map (λ i, [float_of_Z (Z.of_nat i); 0%float]) (seq 0 5)) in
  let short := NdArray 1 [[1]; [2]; [3]]%float in
  let short_data := NdArray 2 [[1; 0]; [2; 0]; [3; 0]]%float in
  (load_inputs (λ a, a) (λ _, Ok embedding) (λ _, Ok surf_data) metadata
     (Some ["black"%string]) (Some [true]) = Raise IndexError ∧
   ∃ model, delay_embedding (λ a, a) (trim embedding (0, 0)) default_delays false = Ok model ∧
            nrows (trim surf_data (0, 0)) = nrows model) ∧
  (load_inputs (λ a, a) (λ _, Ok short) (λ _, Ok short_data) metadata None None
     = Raise ValueError ∧
   delay_embedding (λ a, a) (trim short (0, 0)) default_delays false = Raise ValueError ∧
   nrows (trim short_data (0, 0)) = nrows (trim short (0, 0))).
Proof.
  intros metadata embedding surf_data short short_data. split.
  - split; [reflexivity|]. eexists. split; reflexivity.
  - repeat split; reflexivity.
Qed.

(** ** Rank accuracy *)

(** Neither [cdist] nor [rankdata] is a global of the module or a builtin. *)
Lemma cdist_unbound :
  load_global module_globals python_builtins "cdist" = Raise (NameError "cdist").
Proof. vm_compute. reflexivity. Qed.

Lemma rankdata_unbound :
  load_global module_globals python_builtins "rankdata" = Raise (NameError "rankdata").
Proof. vm_compute. reflexivity. Qed.

(** C10. Whatever its arguments, [rank_accuracy] run in the module raises
    [NameError]: the first statement that needs [cdist] finds the name bound
    neither in the module nor among the builtins, as [rankdata] would be
    after it; so the module's own call at line 204 never yields an
    accuracy. *)
Theorem rank_accuracy_raises_NameError (np_mean : list float → float)
    (predicted_model test_model : ndarray) (mean : bool) :
  rank_accuracy np_mean module_globals python_builtins predicted_model test_model mean
    = Raise (NameError "cdist") ∧
  load_global module_globals python_builtins "rankdata" = Raise (NameError "rankdata") ∧
  raises (module_accuracy np_mean predicted_model test_model).
Proof.
  assert (Hrun : ∀ mean, rank_accuracy np_mean module_globals python_builtins
                           predicted_model test_model mean = Raise (NameError "cdist")).
  { intros mean'. unfold rank_accuracy. by rewrite cdist_unbound, bind_Raise. }
  split; [apply Hrun|]. split; [apply rankdata_unbound|].
  unfold module_accuracy. by rewrite Hrun.
Qed.

(** C7 (failing input). A matrix against itself, no two rows of which are
    perfectly correlated, for which the rank accuracy should be 1.0:
    [rank_accuracy] raises [NameError] instead of returning. *)
Example rank_accuracy_of_identical_matrices :
  rank_accuracy (λ l, foldl PrimFloat.add 0 l / float_of_Z (Z.of_nat (length l)))%float
    module_globals python_builtins
    (NdArray 3 [[1; 2; 4]; [4; 2; 1]; [1; 3; 2]]%float)
    (NdArray 3 [[1; 2; 4]; [4; 2; 1]; [1; 3; 2]]%float) true
  = Raise (NameError "cdist").
Proof. unfold rank_accuracy. rewrite cdist_unbound. reflexivity. Qed.

(** With the two names bound the same body runs through: here [cdist] is
    bound to a function that returns the distances 0 on and 1 off the
    diagonal and [rankdata] to one that ranks by counting the entries not
    above, and every row is ranked first. *)
Example rank_accuracy_with_names_bound :
  let cdist := PyCallable (λ _, Ok (VMatrix (NdArray 2 [[0; 1]; [1; 0]]%float))) in
  let rankdata := PyCallable (λ args,
    match args with
    | [VVector v] =>
        Ok (VVector (map (λ x, float_of_Z (Z.of_nat (length (filter (λ y, (y <=? x)%float = true) v)))) v))
    | _ => Raise TypeError
    end) in
  rank_accuracy (λ l, foldl PrimFloat.add 0 l / float_of_Z (Z.of_nat (length l)))%float
    (("cdist"%string, cdist) :: ("rankdata"%string, rankdata) :: module_globals)
    python_builtins
    (NdArray 2 [[1; 2]; [2; 1]]%float) (NdArray 2 [[1; 2]; [2; 1]]%float) true
  = Ok (VFloat 1).
Proof. reflexivity. Qed.

(** ** Grid search *)

Lemma for_each_raises_at {S A} (l : list A) (s : S) (body : S → A → result S) (x : A) :
  x ∈ l → (∀ s, raises (body s x)) → raises (for_each l s body).
Proof.
  revert s. induction l as [|y l IH]; intros s Hx Hbody.
  - by apply elem_of_nil in Hx.
  - cbn [for_each]. destruct (body s y) as [s'|e] eqn:Hy; [|done].
    rewrite bind_Ok. apply elem_of_cons in Hx as [->|Hx].
    + specialize (Hbody s). by rewrite Hy in Hbody.
    + by apply IH.
Qed.

Section GridSearchColumns.

Variable scorer_t : Type.
Variable grid_fit : scorer_t → list float → Z → ndarray → list float → result cv_fit.

(** The loop of [grid_search] runs over the columns of [train_model]: with
    fewer columns in [train_data] it indexes past them. *)
Lemma grid_search_raises_on_fewer_data_columns (train_model train_data : ndarray)
    (alphas : list float) (scorer : scorer_t) (n_splits : Z) :
  (ncols train_data < ncols train_model)%nat →
  raises (grid_search scorer_t grid_fit train_model train_data alphas scorer n_splits).
Proof.
  intros Hcols. unfold grid_search.
  destruct (for_each _ _ _) as [acc|e] eqn:Hloop; [|done]. exfalso.
  assert (Hraises : raises (for_each (seq 0 (ncols train_model)) ([], [], [])
            (search_voxel scorer_t grid_fit train_model train_data alphas scorer n_splits))).
  { apply (for_each_raises_at _ _ _ (ncols train_data)).
    - apply elem_of_seq. lia.
    - intros [[best_alphas best_scores] all_scores]. unfold search_voxel, column.
      by rewrite decide_False by lia. }
  by rewrite Hloop in Hraises.
Qed.

(** What [grid_search] returns has one entry, and one column of scores, for
    each column of [train_model], whatever the columns of [train_data]. *)
Lemma grid_search_lengths (train_model train_data : ndarray) (alphas : list float)
    (scorer : scorer_t) (n_splits : Z) (best_alphas best_scores : list float)
    (all_scores : ndarray) :
  grid_search scorer_t grid_fit train_model train_data alphas scorer n_splits
    = Ok (best_alphas, best_scores, all_scores) →
  length best_alphas = ncols train_model ∧
  length best_scores = ncols train_model ∧
  ncols all_scores = ncols train_model ∧
  (ncols train_model ≤ ncols train_data)%nat.
Proof.
  intros Hrun.
  assert (Hcols : (ncols train_model ≤ ncols train_data)%nat).
  { destruct (decide (ncols train_model ≤ ncols train_data)%nat); [done|].
    pose proof (grid_search_raises_on_fewer_data_columns train_model train_data
                  alphas scorer n_splits ltac:(lia)) as Hraises.
    by rewrite Hrun in Hraises. }
  unfold grid_search in Hrun.
  destruct (for_each _ _ _) as [[[ba bs] scores]|e]; [|done]. rewrite bind_Ok in Hrun.
  destruct (column_stack scores) as [stacked|e]; [|done]. rewrite bind_Ok in Hrun.
  unfold assert in Hrun. case_bool_decide as Hassert; [|done].
  rewrite bind_Ok in Hrun. injection Hrun as <- <- <-.
  destruct Hassert as (H1 & H2 & H3). repeat split; [congruence..|done].
Qed.

End GridSearchColumns.

(** C2 (failing inputs), with a stand-in for [grid.fit] that reports the
    same scores of two folds for two alphas whatever it is given. On a
    [train_data] of one column out of two, as the module's call on
    [train_data[:, :100]] has it, [grid_search] raises [IndexError]; on a
    [train_data] of two columns with a [train_model] of one it returns
    vectors of length one. *)
Example grid_search_follows_model_columns :
  let grid_fit := λ (_ : unit) (_ : list float) (_ : Z) (_ : ndarray) (_ : list float),
    Ok (CvFit 1 0.5 [("split0_test_score"%string, [0.5; 0.25]%float);
                     ("split1_test_score"%string, [0.5; 0.75]%float)]) in
  grid_search unit grid_fit (NdArray 2 [[1; 2]; [3; 4]]%float) (NdArray 1 [[1]; [2]]%float)
    [1; 10]%float tt 2 = Raise IndexError ∧
  grid_search unit grid_fit (NdArray 1 [[1]; [2]]%float) (NdArray 2 [[1; 2]; [3; 4]]%float)
    [1; 10]%float tt 2
    = Ok ([1%float], [0.5%float], NdArray 1 [[0.5]; [0.5]]%float).
Proof. split; reflexivity. Qed.

(** ** The results cache *)

Section Cache.

Context {X : Type}.

Lemma extends_refl {L} (at_key : X → key → option L) scope s : extends at_key scope s s.
Proof. split; [done | by left]. Qed.

Lemma extends_trans {L} (at_key : X → key → option L) scope s1 s2 s3 :
  extends at_key scope s1 s2 → extends at_key scope s2 s3 → extends at_key scope s1 s3.
Proof.
  intros [Hkeep12 Hnew12] [Hkeep23 Hnew23]. split; [by auto|].
  intros k Hk. destruct (Hnew23 k Hk) as [Hk2|[Hscope Hnone]]; [by auto|].
  right. split; [done|].
  destruct (at_key s1.1 k) as [v|] eqn:Hv; [|done].
  apply Hkeep12 in Hv. congruence.
Qed.

Lemma for_each_extends {L A} (at_key : X → key → option L) scope (l : list A)
    (body : X * list key → A → result (X * list key)) s s' :
  (∀ s x s', x ∈ l → body s x = Ok s' → extends at_key scope s s') →
  for_each l s body = Ok s' → extends at_key scope s s'.
Proof.
  revert s. induction l as [|x l IH]; intros s Hbody Hrun.
  - injection Hrun as <-. apply extends_refl.
  - cbn [for_each] in Hrun. destruct (body s x) as [s1|e] eqn:Hx; [|done].
    rewrite bind_Ok in Hrun. eapply extends_trans.
    + eapply Hbody; [left | done].
    + apply IH; [|done]. intros s2 y s3 Hy. apply Hbody. by right.
Qed.

End Cache.

(** One level of the nested loops: make sure that the key [k] has a
    dictionary, run the inner loop on it, store what it hands back. *)
Lemma level_extends {X L : Type} `{Empty X} (at_inner : X → key → option L)
    (component : key → string) (scope_inner scope : key → Prop) (k : string)
    (results results' : gmap string X) (inner' : X) (out out' : list key) :
  (∀ key, at_inner ∅ key = None) →
  (∀ key, scope_inner key → component key = k ∧ scope key) →
  extends at_inner scope_inner
    (default ∅ (setdefault_empty results k !! k), out) (inner', out') →
  results' = <[k := inner']> (setdefault_empty results k) →
  extends (λ m key, x ← m !! component key; at_inner x key) scope
    (results, out) (results', out').
Proof.
  intros Hempty Hscope [Hkeep Hnew] ->. cbn [fst snd] in *.
  assert (Hdefault : ∀ k', k' ≠ k → setdefault_empty results k !! k' = results !! k').
  { intros k' Hne. unfold setdefault_empty. case_decide; [|done].
    by rewrite lookup_insert_ne. }
  assert (Hat : ∀ key, component key = k →
            at_inner (default ∅ (setdefault_empty results k !! k)) key
            = (x ← results !! k; at_inner x key)).
  { intros key Hc. unfold setdefault_empty. case_decide as Hk.
    - rewrite lookup_insert_eq, Hk. cbn. apply Hempty.
    - destruct (results !! k); [done | congruence]. }
  split; cbn [fst snd].
  - intros key v Hv. destruct (decide (component key = k)) as [Hc|Hc].
    + rewrite Hc in *. rewrite lookup_insert_eq. cbn.
      apply Hkeep. by rewrite Hat.
    + rewrite lookup_insert_ne by done. by rewrite Hdefault.
  - intros key Hkey. destruct (Hnew key Hkey) as [?|[Hsc Hnone]]; [by left|].
    right. destruct (Hscope key Hsc) as [Hc Hs]. split; [done|].
    rewrite Hc. by rewrite <- Hat.
Qed.

Section TimeSegmentCache.

Variable nanmean : list float → float.
Variable corrcoef : ndarray → ndarray → ndarray.
Variable check_keys : dict (dict ndarray) → option (list string) → result (list string).
Variable load_split_data :
  string → string → Z → string → result (dict (dict (dict ndarray))).

Lemma ts_hemi_extends (story roi : string) (prefix : string * string)
    (st st' : gmap string (leaf (list float)) * list key) (hemi : string) :
  ts_hemi nanmean corrcoef check_keys load_split_data story roi prefix st hemi = Ok st' →
  extends (λ m key, m !! key.2) (λ key, key.1 = (story, roi, prefix.1)) st st'.
Proof.
  destruct st as [results out]. unfold ts_hemi.
  case_decide as Hmissing; [|intros [= <-]; apply extends_refl].
  destruct (load_stack _ _ _ _ _ _) as [subject_stack|e]; [|done]. rewrite bind_Ok.
  destruct (time_segment_correlation _ _ _ _ _) as [correlations|e]; [|done].
  rewrite bind_Ok.
  destruct (correlation_classification _) as [[accuracies chance]|e]; [|done].
  rewrite bind_Ok. intros [= <-]. split; cbn [fst snd].
  - intros k v Hv. assert (k.2 ≠ hemi) by congruence.
    by rewrite !lookup_insert_ne.
  - intros k [Hk| ->%list_elem_of_singleton]%elem_of_app; [by left|].
    by right.
Qed.

Lemma ts_prefix_extends (story roi : string) (prefix : string * string)
    (st st' : gmap string (gmap string (leaf (list float))) * list key) :
  ts_prefix nanmean corrcoef check_keys load_split_data story roi st prefix = Ok st' →
  extends (λ m key, x ← m !! key.1.2; x !! key.2) (λ key, key.1.1 = (story, roi)) st st'.
Proof.
  destruct st as [results out]. unfold ts_prefix.
  set (prefix' := if String.eqb _ _ then _ else prefix).
  assert (Hlabel : prefix'.1 = prefix.1) by (unfold prefix'; by destruct (String.eqb _ _)).
  rewrite Hlabel.
  destruct (for_each _ _ _) as [[inner out']|e] eqn:Hloop; [|done].
  rewrite bind_Ok. intros [= <-].
  eapply (level_extends (λ m key, m !! key.2) (λ key, key.1.2)
            (λ key, key.1 = (story, roi, prefix.1))); [done| | |done].
  - intros [[[s r] l] h] [= -> -> ->]. done.
  - eapply for_each_extends; [|exact Hloop].
    intros s hemi s' _ Hbody. apply ts_hemi_extends in Hbody. by rewrite Hlabel in Hbody.
Qed.

Lemma ts_roi_extends (story roi : string)
    (st st' : gmap string (gmap string (gmap string (leaf (list float)))) * list key) :
  ts_roi nanmean corrcoef check_keys load_split_data story st roi = Ok st' →
  extends (λ m key, x ← m !! key.1.1.2; y ← x !! key.1.2; y !! key.2)
          (λ key, key.1.1.1 = story) st st'.
Proof.
  destruct st as [results out]. unfold ts_roi.
  destruct (for_each _ _ _) as [[inner out']|e] eqn:Hloop; [|done].
  rewrite bind_Ok. intros [= <-].
  eapply (level_extends (λ m key, x ← m !! key.1.2; x !! key.2) (λ key, key.1.1.2)
            (λ key, key.1.1 = (story, roi))); [done| | |done].
  - intros [[[s r] l] h] [= -> ->]. done.
  - eapply for_each_extends; [|exact Hloop].
    intros s prefix s' _ Hbody. by apply ts_prefix_extends in Hbody.
Qed.

Lemma ts_story_extends (story : string)
    (st st' : gmap string (gmap string (gmap string (gmap string (leaf (list float)))))
              * list key) :
  ts_story nanmean corrcoef check_keys load_split_data st story = Ok st' →
  extends (λ m key, x ← m !! key.1.1.1; y ← x !! key.1.1.2; z ← y !! key.1.2; z !! key.2)
          (λ _, True) st st'.
Proof.
  destruct st as [results out]. unfold ts_story.
  destruct (for_each _ _ _) as [[inner out']|e] eqn:Hloop; [|done].
  rewrite bind_Ok. intros [= <-].
  eapply (level_extends (λ m key, x ← m !! key.1.1.2; y ← x !! key.1.2; y !! key.2)
            (λ key, key.1.1.1) (λ key, key.1.1.1 = story)); [done| | |done].
  - intros [[[s r] l] h] Hs. done.
  - eapply for_each_extends; [|exact Hloop].
    intros s roi s' _ Hbody. by apply ts_roi_extends in Hbody.
Qed.

(** The time-segment classification loop run over a partly filled cache:
    when it completes, every leaf that was in the cache is in it unchanged,
    and the keys it has computed are keys that had no leaf. *)
Lemma ts_classification_main_keeps_leaves
    (results results' : gmap string (gmap string (gmap string (gmap string (leaf (list float))))))
    (out : list key) :
  ts_classification_main nanmean corrcoef check_keys load_split_data results
    = Ok (results', out) →
  (∀ k v, leaf_at results k = Some v → leaf_at results' k = Some v) ∧
  (∀ k, k ∈ out → leaf_at results k = None).
Proof.
  intros Hrun. unfold ts_classification_main in Hrun.
  apply (for_each_extends
           (λ m key, x ← m !! key.1.1.1; y ← x !! key.1.1.2; z ← y !! key.1.2; z !! key.2)
           (λ _, True)) in Hrun.
  2:{ intros s story s' _ Hbody. by apply ts_story_extends in Hbody. }
  destruct Hrun as [Hkeep Hnew]. cbn [fst snd] in *. split.
  - intros [[[s r] l] h] v Hv. exact (Hkeep (s, r, l, h) v Hv).
  - intros [[[s r] l] h] Hk. destruct (Hnew _ Hk) as [Hnil|[_ Hnone]]; [|exact Hnone].
    by apply elem_of_nil in Hnil.
Qed.

End TimeSegmentCache.

(** A loop each of whose steps prints [printed x] prints them all. *)
Lemma for_each_printed {X A} (l : list A) (printed : A → list key)
    (body : X * list key → A → result (X * list key)) (s s' : X * list key) :
  (∀ s x s', body s x = Ok s' → s'.2 = s.2 ++ printed x) →
  for_each l s body = Ok s' → s'.2 = s.2 ++ concat (map printed l).
Proof.
  intros Hbody. revert s. induction l as [|x l IH]; intros s Hrun.
  - injection Hrun as <-. by rewrite app_nil_r.
  - cbn [for_each] in Hrun. destruct (body s x) as [s1|e] eqn:Hx; [|done].
    rewrite bind_Ok in Hrun. rewrite (IH _ Hrun), (Hbody _ _ _ Hx).
    cbn [map concat]. by rewrite app_assoc.
Qed.

Section IscCache.

Variable check_keys : dict (dict ndarray) → option (list string) → result (list string).
Variable load_split_data :
  string → string → Z → string → result (dict (dict (dict ndarray))).
Variable isc : ndarray3 → result ndarray.

(** One step of the ISC loop: whatever the cache holds under the key, the
    intersubject correlations are computed and stored over it. *)
Lemma isc_hemi_overwrites (story roi : string) (prefix : string * string)
    (results results' : gmap string (leaf ndarray)) (out out' : list key) (hemi : string) :
  isc_hemi check_keys load_split_data isc story roi prefix (results, out) hemi
    = Ok (results', out') →
  ∃ subject_stack iscs,
    load_stack check_keys load_split_data story roi prefix hemi = Ok subject_stack ∧
    isc subject_stack = Ok iscs ∧
    results' !! hemi = Some (Value iscs) ∧
    out' = out ++ [(story, roi, prefix.1, hemi)].
Proof.
  unfold isc_hemi.
  destruct (load_stack _ _ _ _ _ _) as [subject_stack|e] eqn:Hstack; [|done].
  rewrite bind_Ok.
  change (String.eqb isc_type "temporal") with true. cbv iota.
  destruct (isc subject_stack) as [iscs|e] eqn:Hisc; [|done]. rewrite bind_Ok.
  intros [= <- <-]. exists subject_stack, iscs. by rewrite lookup_insert_eq.
Qed.

(** The ISC loop computes each of its keys, in order, whether the cache has a
    leaf for it or not. *)
Lemma isc_main_computes_every_key
    (results results' : gmap string (gmap string (gmap string (gmap string (leaf ndarray)))))
    (out : list key) :
  isc_main check_keys load_split_data isc results = Ok (results', out) →
  out = concat (map (λ story,
          concat (map (λ roi,
            concat (map (λ prefix : string * string,
              concat (map (λ hemi, [(story, roi, prefix.1, hemi)]) hemis))
            isc_prefixes))
          rois))
        isc_stories).
Proof.
  intros Hrun. unfold isc_main in Hrun.
  apply (for_each_printed _ (λ story,
          concat (map (λ roi,
            concat (map (λ prefix : string * string,
              concat (map (λ hemi, [(story, roi, prefix.1, hemi)]) hemis))
            isc_prefixes))
          rois))) in Hrun; [exact Hrun | clear].
  intros [r1 o1] story [r1' o1']. unfold isc_story.
  destruct (for_each _ _ _) as [[inner1 o]|e] eqn:Hrois; [|done].
  rewrite bind_Ok. intros [= <- <-].
  apply (for_each_printed _ (λ roi,
            concat (map (λ prefix : string * string,
              concat (map (λ hemi, [(story, roi, prefix.1, hemi)]) hemis))
            isc_prefixes))) in Hrois; [exact Hrois | clear].
  intros [r2 o2] roi [r2' o2']. unfold isc_roi.
  destruct (for_each _ _ _) as [[inner2 o']|e] eqn:Hprefixes; [|done].
  rewrite bind_Ok. intros [= <- <-].
  apply (for_each_printed _ (λ prefix : string * string,
              concat (map (λ hemi, [(story, roi, prefix.1, hemi)]) hemis)))
    in Hprefixes; [exact Hprefixes | clear].
  intros [r3 o3] prefix [r3' o3']. unfold isc_prefix.
  destruct (for_each _ _ _) as [[inner3 o'']|e] eqn:Hhemis; [|done].
  rewrite bind_Ok. intros [= <- <-].
  apply (for_each_printed _ (λ hemi, [(story, roi, prefix.1, hemi)])) in Hhemis;
    [exact Hhemis | clear].
  intros [r4 o4] hemi [r4' o4'] Hhemi.
  by destruct (isc_hemi_overwrites _ _ _ _ _ _ _ _ Hhemi) as (_ & _ & _ & _ & _ & ->).
Qed.

End IscCache.

(** C1 (failing input). The cache holds a leaf for the key
    [("black", "EAC", "no SRM", "lh")], and the collaborators are stand-ins:
    each story has two subjects, and every intersubject correlation is 1.
    The ISC loop stores the newly computed value over the cached leaf. *)
Example isc_main_overwrites_cached_leaf :
  let check_keys := λ (data : dict (dict ndarray)) (_ : option (list string)),
    Ok (keys data) in
  let load_split_data := λ (story hemi : string) (_ : Z) (_ : string),
    Ok [(story, [("sub-01"%string, [(hemi, NdArray 1 [[1]; [2]]%float)]);
                 ("sub-02"%string, [(hemi, NdArray 1 [[1]; [3]]%float)])])] in
  let isc := λ _ : ndarray3, Ok (NdArray 1 [[1%float]]) in
  let cached : gmap string (gmap string (gmap string (gmap string (leaf ndarray)))) :=
    {[ "black"%string :=
         {[ "EAC"%string :=
              {[ "no SRM"%string :=
                   {[ "lh"%string := Value (NdArray 1 [[0.5%float]]) ]} ]} ]} ]} in
  leaf_at cached ("black", "EAC", "no SRM", "lh")%string
    = Some (Value (NdArray 1 [[0.5%float]])) ∧
  ∃ results out,
    isc_main check_keys load_split_data isc cached = Ok (results, out) ∧
    leaf_at results ("black", "EAC", "no SRM", "lh")%string
      = Some (Value (NdArray 1 [[1%float]])) ∧
    ("black", "EAC", "no SRM", "lh")%string ∈ out.
Proof.
  intros check_keys load_split_data isc cached. split; [reflexivity|].
  assert (Hcheck : (r ← isc_main check_keys load_split_data isc cached;
                    Ok (leaf_at r.1 ("black", "EAC", "no SRM", "lh")%string,
                        bool_decide (("black", "EAC", "no SRM", "lh")%string ∈ r.2)))
                   = Ok (Some (Value (NdArray 1 [[1%float]])), true))
    by (vm_compute; reflexivity).
  destruct (isc_main check_keys load_split_data isc cached) as [[results out]|e];
    [|discriminate Hcheck].
  rewrite bind_Ok in Hcheck. injection Hcheck as Hleaf Hin.
  exists results, out. split; [reflexivity|]. split; [exact Hleaf|].
  by apply bool_decide_eq_true in Hin.
Qed.

(** The same cache layout in the time-segment classification loop, with
    twenty time points per subject and a stand-in for [np.corrcoef] under
    which every segment correlates with its own counterpart only: the cached
    leaf is kept and its key is not computed, while the other 639 keys are. *)
Example ts_classification_main_keeps_cached_leaf :
  let nanmean := λ l : list float, hd PrimFloat.nan l in
  let corrcoef := λ x y : ndarray,
    NdArray (nrows x + nrows y)
      (map (λ i, map (λ j, if decide (j = i + nrows x)%nat then 1%float else 0%float)
                     (seq 0 (nrows x + nrows y)))
           (seq 0 (nrows x + nrows y))) in
  let check_keys := λ (data : dict (dict ndarray)) (_ : option (list string)),
    Ok (keys data) in
  let load_split_data := λ (story hemi : string) (_ : Z) (_ : string),
    Ok [(story,
         [("sub-01"%string,
           [(hemi, NdArray 1 (map (λ i, [float_of_Z (Z.of_nat i)]) (seq 0 20)))]);
          ("sub-02"%string,
           [(hemi, NdArray 1 (map (λ i, [float_of_Z (Z.of_nat (2 * i))]) (seq 0 20)))])])] in
  let cached : gmap string (gmap string (gmap string (gmap string (leaf (list float))))) :=
    {[ "black"%string :=
         {[ "EAC"%string :=
              {[ "no SRM"%string := {[ "lh"%string := Value [0.25%float] ]} ]} ]} ]} in
  ∃ results out,
    ts_classification_main nanmean corrcoef check_keys load_split_data cached
      = Ok (results, out) ∧
    leaf_at results ("black", "EAC", "no SRM", "lh")%string = Some (Value [0.25%float]) ∧
    leaf_at results ("black", "EAC", "no SRM", "rh")%string = Some (Value [1; 1]%float) ∧
    (("black", "EAC", "no SRM", "lh")%string ∉ out) ∧
    length out = 639%nat.
Proof.
  intros nanmean corrcoef check_keys load_split_data cached.
  assert (Hcheck : (r ← ts_classification_main nanmean corrcoef check_keys
                          load_split_data cached;
                    Ok (leaf_at r.1 ("black", "EAC", "no SRM", "lh")%string,
                        leaf_at r.1 ("black", "EAC", "no SRM", "rh")%string,
                        bool_decide (("black", "EAC", "no SRM", "lh")%string ∈ r.2),
                        length r.2))
                   = Ok (Some (Value [0.25%float]), Some (Value [1; 1]%float),
                         false, 639%nat))
    by (vm_compute; reflexivity).
  destruct (ts_classification_main nanmean corrcoef check_keys load_split_data cached)
    as [[results out]|e]; [|discriminate Hcheck].
  rewrite bind_Ok in Hcheck. injection Hcheck as Hlh Hrh Hin Hlen.
  exists results, out. split; [reflexivity|].
  split; [exact Hlh|]. split; [exact Hrh|]. split; [|exact Hlen].
  by apply bool_decide_eq_false in Hin.
Qed.


(** * Further properties *)

(** ** Delay embedding: what it never returns, and when it raises *)

Lemma nan_to_zero_not_nan (x : float) : PrimFloat.is_nan (nan_to_zero x) = false.
Proof. unfold nan_to_zero. by destruct (PrimFloat.is_nan x) eqn:Hx. Qed.

(** X1. Without z-scoring, no entry of what [delay_embedding] returns is a
    NaN, whatever the embedding holds. *)
Theorem delay_embedding_has_no_nan (zscore : ndarray → ndarray) (embedding delayed : ndarray)
    (delays : list Z) :
  delay_embedding zscore embedding delays false = Ok delayed →
  Forall (Forall (λ x, PrimFloat.is_nan x = false)) (rows delayed).
Proof.
  unfold delay_embedding. intros Hrun.
  destruct (mapM _ _) as [blocks|e]; [|done]. rewrite bind_Ok in Hrun.
  destruct (hstack blocks) as [stacked|e]; [|done]. rewrite bind_Ok in Hrun.
  injection Hrun as <-. unfold zero_nans. cbn [rows].
  apply Forall_forall. intros row (row' & <- & _)%list_elem_of_In%in_map_iff.
  apply Forall_forall. intros x (x' & <- & _)%list_elem_of_In%in_map_iff.
  apply nan_to_zero_not_nan.
Qed.

Lemma delay_embedding_has_no_nan_witness :
  delay_embedding (λ a, a) (NdArray 2 [[1; PrimFloat.nan]; [PrimFloat.nan; 4]; [5; 6]]%float)
    [1; 2] false
    = Ok (NdArray 4 [[0; 0; 0; 0]; [1; 0; 0; 0]; [0; 4; 1; 0]]%float) ∧
  Forall (Forall (λ x, PrimFloat.is_nan x = false))
    (rows (NdArray 4 [[0; 0; 0; 0]; [1; 0; 0; 0]; [0; 4; 1; 0]]%float)).
Proof.
  assert (Hrun : delay_embedding (λ a, a)
            (NdArray 2 [[1; PrimFloat.nan]; [PrimFloat.nan; 4]; [5; 6]]%float) [1; 2] false
            = Ok (NdArray 4 [[0; 0; 0; 0]; [1; 0; 0; 0]; [0; 4; 1; 0]]%float))
    by reflexivity.
  split; [exact Hrun|].
  exact (delay_embedding_has_no_nan _ _ _ _ Hrun).
Defined.

Lemma mapM_raises {A B} (f : A → result B) (l : list A) (e : exn) (x : A) :
  x ∈ l → f x = Raise e →
  (∀ y, y ∈ l → f y = Raise e ∨ ∃ b, f y = Ok b) →
  mapM f l = Raise e.
Proof.
  induction l as [|y l IH]; intros Hx Hfx Hall; [by apply elem_of_nil in Hx|].
  cbn. destruct (Hall y ltac:(left)) as [Hy|[b Hy]]; rewrite Hy; [done|].
  rewrite bind_Ok. fold (mapM f l). rewrite IH; [done| |done|].
  - apply elem_of_cons in Hx as [->|Hx]; [congruence | done].
  - intros z Hz. apply Hall. by right.
Qed.

(** The block of the delay 0 has no rows: [embedding[:-0]] is
    [embedding[:0]]. *)
Lemma delay_block_zero (embedding : ndarray) :
  delay_block embedding 0 = Ok (NdArray (ncols embedding) []).
Proof.
  unfold delay_block, full. cbn [Z.ltb Z.compare Z.to_nat replicate]. rewrite bind_Ok.
  unfold vstack2, slice_rows. cbn [ncols rows].
  rewrite decide_True by done. f_equal. f_equal.
  unfold Py.slice, slice_index, from_option. cbn [Z.opp Z.ltb Z.compare].
  by rewrite Z.min_l, Nat.sub_0_r, take_0 by lia.
Qed.

Lemma delay_block_negative (embedding : ndarray) (d : Z) :
  d < 0 → delay_block embedding d = Raise ValueError.
Proof.
  intros Hd. unfold delay_block, full. by destruct (Z.ltb_spec d 0); [|lia].
Qed.

Lemma delay_block_outcome (embedding : ndarray) (d : Z) :
  delay_block embedding d = Raise ValueError ∨ ∃ b, delay_block embedding d = Ok b.
Proof.
  destruct (Z.lt_trichotomy d 0) as [Hd|[->|Hd]].
  - left. by apply delay_block_negative.
  - right. eexists. apply delay_block_zero.
  - right. eexists. by apply delay_block_rows.
Qed.

(** X2. A negative delay makes [delay_embedding] raise [ValueError],
    wherever it stands among the delays: [np.full] refuses the shape. *)
Theorem delay_embedding_negative_delay (zscore : ndarray → ndarray) (embedding : ndarray)
    (delays : list Z) (zscore_features : bool) (d : Z) :
  d ∈ delays → d < 0 →
  delay_embedding zscore embedding delays zscore_features = Raise ValueError.
Proof.
  intros Hin Hd. unfold delay_embedding.
  rewrite (mapM_raises _ _ ValueError d); [done | done | by apply delay_block_negative |].
  intros y _. apply delay_block_outcome.
Qed.

Lemma delay_embedding_negative_delay_witness :
  (-1) ∈ [2; -1; 3] ∧ -1 < 0 ∧
  delay_embedding (λ a, a) (NdArray 1 [[1]; [2]; [3]]%float) [2; -1; 3] false
    = Raise ValueError.
Proof.
  assert (Hin : (-1) ∈ [2; -1; 3]) by (right; left).
  assert (Hd : -1 < 0) by lia.
  split; [exact Hin|]. split; [exact Hd|].
  exact (delay_embedding_negative_delay (λ a, a) _ [2; -1; 3] false (-1) Hin Hd).
Defined.

(** X3. The delay 0 does not copy the embedding: its block has no rows,
    [embedding[:-0]] being [embedding[:0]]. So the delays [[0]] give a
    matrix without rows, and a delay 0 among non-negative delays of which
    one is positive raises [ValueError]. *)
Theorem delay_embedding_zero_delay (zscore : ndarray → ndarray) (embedding : ndarray) :
  delay_embedding zscore embedding [0] false = Ok (NdArray (ncols embedding) []) ∧
  ∀ (delays : list Z) (d : Z),
    Forall (λ d, 0 ≤ d) delays → 0 ∈ delays → d ∈ delays → 0 < d →
    delay_embedding zscore embedding delays false = Raise ValueError.
Proof.
  split.
  - unfold delay_embedding. cbn [mapM]. rewrite delay_block_zero. reflexivity.
  - intros delays d Hpos H0 Hd Hdpos. unfold delay_embedding.
    destruct (mapM _ _) as [blocks|e] eqn:Hblocks.
    + rewrite bind_Ok.
      assert (Hblock : ∀ d', d' ∈ delays → ∃ b, b ∈ blocks ∧ delay_block embedding d' = Ok b).
      { clear -Hblocks. revert blocks Hblocks.
        induction delays as [|d0 delays IH]; intros blocks Hblocks d' Hd';
          [by apply elem_of_nil in Hd'|].
        cbn in Hblocks. destruct (delay_block embedding d0) as [b0|e] eqn:Hb0; [|done].
        rewrite bind_Ok in Hblocks. fold (mapM (delay_block embedding) delays) in Hblocks.
        destruct (mapM _ delays) as [bs|e]; [|done]. rewrite bind_Ok in Hblocks.
        injection Hblocks as <-.
        apply elem_of_cons in Hd' as [->|Hd'].
        - exists b0. split; [left | done].
        - destruct (IH bs eq_refl d' Hd') as (b & Hb & Hrun).
          exists b. split; [by right | done]. }
      destruct (Hblock 0 H0) as (b0 & Hb0 & Hrun0).
      destruct (Hblock d Hd) as (b & Hb & Hrun).
      rewrite delay_block_zero in Hrun0. rewrite delay_block_rows in Hrun by done.
      injection Hrun0 as <-. injection Hrun as <-.
      rewrite (hstack_uneven blocks _ _ Hb0 Hb); [done|].
      unfold nrows. cbn [rows length]. rewrite length_app, length_replicate. lia.
    + exfalso.
      assert (Hok : ∀ d', d' ∈ delays → ∃ b, delay_block embedding d' = Ok b).
      { intros d' Hd'. rewrite Forall_forall in Hpos. specialize (Hpos d' Hd').
        destruct (Z.eq_dec d' 0) as [->|Hne].
        - eexists. apply delay_block_zero.
        - eexists. apply delay_block_rows. lia. }
      clear -Hblocks Hok. revert e Hblocks.
      induction delays as [|d0 delays IH]; intros e; [done|]. cbn.
      destruct (Hok d0 ltac:(left)) as [b0 ->]. rewrite bind_Ok.
      fold (mapM (delay_block embedding) delays).
      destruct (mapM _ delays) as [bs|e'] eqn:Hbs; [by rewrite bind_Ok|].
      intros _. apply (IH ltac:(intros d' Hd'; apply Hok; by right) e' eq_refl).
Qed.

(** X4. With the default delays 2, 3, 4 and 5, an embedding of shape
    [(T, F)] gives a model of shape [(T, 4 * F)] when [T >= 5], and
    [ValueError] when [T < 5]. *)
Theorem delay_embedding_default_needs_five_rows (zscore : ndarray → ndarray)
    (embedding : ndarray) :
  ((5 ≤ nrows embedding)%nat →
   ∃ model, delay_embedding zscore embedding default_delays false = Ok model ∧
            shape model = (nrows embedding, ncols embedding * 4)%nat) ∧
  ((nrows embedding < 5)%nat →
   delay_embedding zscore embedding default_delays false = Raise ValueError).
Proof.
  split; [|apply delay_embedding_default_short].
  intros Hrows. eexists. split.
  - apply (delay_embedding_rows zscore embedding default_delays (nrows embedding));
      [done|]. unfold default_delays. repeat constructor; lia.
  - unfold shape, nrows. cbn [rows ncols]. by rewrite length_map, length_seq.
Qed.

(** ** Trimming *)

(** X5. With offsets [start >= 0] and [end >= 0], the trim
    [a[start:(-end or None), :]] drops the first [start] and the last [end]
    rows, an [end] of 0 dropping none, and leaves no row when the two
    offsets cover the array. *)
Theorem trim_drops_both_ends (a : ndarray) (start stop : Z) :
  0 ≤ start → 0 ≤ stop →
  ncols (trim a (start, stop)) = ncols a ∧
  rows (trim a (start, stop))
    = take (nrows a - Z.to_nat stop - Z.to_nat start) (drop (Z.to_nat start) (rows a)).
Proof.
  intros Hs He. split; [done|].
  unfold trim, slice_rows, Py.slice, or_None, slice_index, from_option, nrows.
  cbn [rows fst snd].
  destruct (Z.ltb_spec start 0); [lia|].
  destruct (Z.eqb_spec (- stop) 0) as [H0|H0].
  - destruct (decide (Z.to_nat start ≤ length (rows a))%nat).
    + replace (Z.to_nat (start `min` Z.of_nat (length (rows a)))) with (Z.to_nat start) by lia.
      f_equal. lia.
    + rewrite !drop_ge by lia. by rewrite !take_nil.
  - destruct (Z.ltb_spec (- stop) 0); [|lia].
    destruct (decide (Z.to_nat start ≤ length (rows a))%nat).
    + replace (Z.to_nat (start `min` Z.of_nat (length (rows a)))) with (Z.to_nat start) by lia.
      f_equal. lia.
    + rewrite !drop_ge by lia. by rewrite !take_nil.
Qed.

Lemma trim_drops_both_ends_witness :
  0 ≤ 2 ∧ 0 ≤ 1 ∧
  ncols (trim (NdArray 1 [[0]; [1]; [2]; [3]; [4]; [5]]%float) (2, 1)) = 1%nat ∧
  rows (trim (NdArray 1 [[0]; [1]; [2]; [3]; [4]; [5]]%float) (2, 1))
    = take (6 - 1 - 2) (drop 2 [[0]; [1]; [2]; [3]; [4]; [5]]%float).
Proof.
  assert (Hs : 0 ≤ 2) by lia. assert (He : 0 ≤ 1) by lia.
  split; [exact Hs|]. split; [exact He|].
  exact (trim_drops_both_ends (NdArray 1 [[0]; [1]; [2]; [3]; [4]; [5]]%float) 2 1 Hs He).
Defined.

(** ** Loading the inputs: what a successful load has done *)

(** A loop that stores one value per string it goes through: afterwards
    each of these strings has a value that its step produced, and the other
    keys are as they were. *)
Lemma for_each_sets {V} (l : list string) (P : string → V → Prop)
    (body : dict V → string → result (dict V)) (d0 d : dict V) :
  (∀ d x d', x ∈ l → body d x = Ok d' → ∃ v, P x v ∧ d' = dict_set d x v) →
  for_each l d0 body = Ok d →
  (∀ x, x ∈ l → ∃ v, P x v ∧ dict_get d x = Ok v) ∧
  (∀ x, x ∉ l → dict_get d x = dict_get d0 x).
Proof.
  revert d0. induction l as [|x l IH]; intros d0 Hbody Hrun.
  - injection Hrun as <-. split; [|done]. intros x Hx. by apply elem_of_nil in Hx.
  - cbn [for_each] in Hrun. destruct (body d0 x) as [d1|e] eqn:Hx; [|done].
    rewrite bind_Ok in Hrun.
    destruct (Hbody d0 x d1 ltac:(left) Hx) as (v & Hv & ->).
    destruct (IH (dict_set d0 x v)) as [Hin Hout]; [|done|].
    { intros d' y d'' Hy. apply Hbody. by right. }
    split.
    + intros y Hy. destruct (decide (y ∈ l)) as [Hyl|Hyl]; [by apply Hin|].
      apply elem_of_cons in Hy as [->|Hy]; [|done].
      exists v. split; [done|]. rewrite Hout by done. apply dict_get_set_eq.
    + intros y [Hne Hy]%not_elem_of_cons. rewrite Hout by done.
      by apply dict_get_set_ne.
Qed.

Lemma nrows_select_columns (a masked : ndarray) (mask : list bool) :
  select_columns a mask = Ok masked → nrows masked = nrows a.
Proof.
  unfold select_columns. case_decide; [|done]. intros [= <-].
  unfold nrows. cbn [rows]. by rewrite length_map.
Qed.

Section LoadedInputs.

Variable zscore : ndarray → ndarray.
Variable np_load : string → result ndarray.
Variable read_gifti : string → result ndarray.

(** One step of the loop over the subjects, when it goes through. *)
Lemma load_subject_stores (meta : story_meta) (mask : option (list bool)) (model : ndarray)
    (data data' : dict ndarray) (subject : string) :
  load_subject read_gifti meta mask model data subject = Ok data' →
  ∃ data_fn surf_data masked,
    dict_get (meta_data meta) subject = Ok data_fn ∧
    read_gifti data_fn = Ok surf_data ∧
    nrows (trim surf_data (meta_data_trims meta)) = nrows model ∧
    match mask with
    | Some mask => select_columns (trim surf_data (meta_data_trims meta)) mask
    | None => Ok (trim surf_data (meta_data_trims meta))
    end = Ok masked ∧
    data' = dict_set data subject masked.
Proof.
  unfold load_subject.
  destruct (dict_get _ subject) as [data_fn|e] eqn:Hfn; [|done]. rewrite bind_Ok.
  destruct (read_gifti data_fn) as [surf_data|e] eqn:Hread; [|done]. rewrite bind_Ok.
  destruct (Nat.eqb_spec (nrows model) (nrows (trim surf_data (meta_data_trims meta))))
    as [Heq|Hne]; cbn [negb]; [|done].
  destruct (match mask with Some _ => _ | None => _ end) as [masked|e] eqn:Hmask; [|done].
  rewrite bind_Ok. intros [= <-]. by exists data_fn, surf_data, masked.
Qed.

(** One step of the loop over the stories, when it goes through. *)
Lemma load_story_stores (metadata : dict story_meta) (mask : option (list bool))
    (inputs inputs' : dict story_inputs) (story : string) :
  load_story zscore np_load read_gifti metadata mask inputs story = Ok inputs' →
  ∃ meta embedding model data,
    dict_get metadata story = Ok meta ∧
    np_load (meta_model meta) = Ok embedding ∧
    delay_embedding zscore (trim embedding (meta_model_trims meta)) default_delays false
      = Ok model ∧
    for_each (keys (meta_data meta)) [] (load_subject read_gifti meta mask model) = Ok data ∧
    inputs' = dict_set inputs story (StoryInputs model data).
Proof.
  unfold load_story.
  destruct (dict_get metadata story) as [meta|e] eqn:Hmeta; [|done]. rewrite bind_Ok.
  destruct (np_load _) as [embedding|e] eqn:Hload; [|done]. rewrite bind_Ok.
  destruct (delay_embedding _ _ _ _) as [model|e] eqn:Hmodel; [|done]. rewrite bind_Ok.
  destruct (for_each _ _ _) as [data|e] eqn:Hdata; [|done]. rewrite bind_Ok.
  intros [= <-]. by exists meta, embedding, model, data.
Qed.

(** X6. When [load_inputs] returns, it has stored for every requested story
    the delayed model of the trimmed embedding and, for every subject of the
    story, the trimmed surface data with the mask applied to its columns; the
    files were all read, and the trimmed data has as many rows as the model. *)
Theorem load_inputs_stored (metadata : dict story_meta) (stories : option (list string))
    (mask : option (list bool)) (inputs : dict story_inputs) :
  load_inputs zscore np_load read_gifti metadata stories mask = Ok inputs →
  ∀ story,
    story ∈ match stories with
            | None | Some [] => keys metadata
            | Some stories => stories
            end →
    ∃ meta embedding model data,
      dict_get metadata story = Ok meta ∧
      np_load (meta_model meta) = Ok embedding ∧
      delay_embedding zscore (trim embedding (meta_model_trims meta)) default_delays false
        = Ok model ∧
      dict_get inputs story = Ok (StoryInputs model data) ∧
      ∀ subject, subject ∈ keys (meta_data meta) →
        ∃ data_fn surf_data masked,
          dict_get (meta_data meta) subject = Ok data_fn ∧
          read_gifti data_fn = Ok surf_data ∧
          nrows (trim surf_data (meta_data_trims meta)) = nrows model ∧
          match mask with
          | Some mask => select_columns (trim surf_data (meta_data_trims meta)) mask
          | None => Ok (trim surf_data (meta_data_trims meta))
          end = Ok masked ∧
          dict_get data subject = Ok masked.
Proof.
  unfold load_inputs. intros Hrun story Hstory.
  apply (for_each_sets _ (λ story v,
          ∃ meta embedding,
            dict_get metadata story = Ok meta ∧
            np_load (meta_model meta) = Ok embedding ∧
            delay_embedding zscore (trim embedding (meta_model_trims meta))
              default_delays false = Ok (inputs_model v) ∧
            for_each (keys (meta_data meta)) []
              (load_subject read_gifti meta mask (inputs_model v)) = Ok (inputs_data v)))
    in Hrun.
  2:{ intros d x d' _ Hx. apply load_story_stores in Hx
        as (meta & embedding & model & data & ? & ? & ? & ? & ->).
      eexists. split; [|done]. by exists meta, embedding. }
  destruct Hrun as [Hin _]. destruct (Hin story Hstory) as ([model data] & Hv & Hget).
  destruct Hv as (meta & embedding & Hmeta & Hload & Hmodel & Hdata).
  cbn [inputs_model inputs_data] in *.
  exists meta, embedding, model, data. repeat (split; [done|]).
  apply (for_each_sets _ (λ subject masked,
          ∃ data_fn surf_data,
            dict_get (meta_data meta) subject = Ok data_fn ∧
            read_gifti data_fn = Ok surf_data ∧
            nrows (trim surf_data (meta_data_trims meta)) = nrows model ∧
            match mask with
            | Some mask => select_columns (trim surf_data (meta_data_trims meta)) mask
            | None => Ok (trim surf_data (meta_data_trims meta))
            end = Ok masked)) in Hdata.
  2:{ intros d x d' _ Hx. apply load_subject_stores in Hx
        as (data_fn & surf_data & masked & ? & ? & ? & ? & ->).
      exists masked. split; [|done]. by exists data_fn, surf_data. }
  destruct Hdata as [Hsub _]. intros subject Hsubject.
  destruct (Hsub subject Hsubject)
    as (masked & (data_fn & surf_data & Hfn & Hread & Hrows & Hmask) & Hget').
  by exists data_fn, surf_data, masked.
Qed.

(** The invariant of a loaded story: the data of every subject has as many
    rows as the model. *)
Lemma load_inputs_rows_agree (metadata : dict story_meta) (stories : option (list string))
    (mask : option (list bool)) (inputs : dict story_inputs) :
  load_inputs zscore np_load read_gifti metadata stories mask = Ok inputs →
  ∀ story story_in subject data,
    dict_get inputs story = Ok story_in →
    dict_get (inputs_data story_in) subject = Ok data →
    nrows data = nrows (inputs_model story_in).
Proof.
  unfold load_inputs. intros Hrun.
  apply (for_each_sets _ (λ (story : string) v,
          ∀ subject data, dict_get (inputs_data v) subject = Ok data →
                          nrows data = nrows (inputs_model v))) in Hrun.
  - destruct Hrun as [Hin Hout]. intros story story_in subject data Hstory Hdata.
    destruct (decide (story ∈ match stories with
                              | None | Some [] => keys metadata
                              | Some stories => stories
                              end)) as [Hreq|Hreq].
    + destruct (Hin story Hreq) as (v & Hv & Hget).
      rewrite Hstory in Hget. injection Hget as <-. by eapply Hv.
    + rewrite (Hout story Hreq) in Hstory. done.
  - clear. intros d story d' _ Hstory.
    apply load_story_stores in Hstory
      as (meta & embedding & model & data & _ & _ & _ & Hdata & ->).
    eexists. split; [|done]. cbn [inputs_model inputs_data].
    apply (for_each_sets _ (λ (subject : string) masked, nrows masked = nrows model))
      in Hdata.
    + destruct Hdata as [Hin Hout]. intros subject masked Hget.
      destruct (decide (subject ∈ keys (meta_data meta))) as [Hs|Hs].
      * destruct (Hin subject Hs) as (v & Hv & Hget'). congruence.
      * rewrite (Hout subject Hs) in Hget. done.
    + clear. intros d subject d' _ Hsubject.
      apply load_subject_stores in Hsubject
        as (data_fn & surf_data & masked & _ & _ & Hrows & Hmask & ->).
      exists masked. split; [|done]. rewrite <- Hrows.
      destruct mask as [m|]; [by apply nrows_select_columns in Hmask|].
      by injection Hmask as <-.
Qed.

(** X7. A requested story that the metadata does not have, or whose
    embedding file cannot be read, makes [load_inputs] raise; when it is the
    first story requested, the exception is the [KeyError] of the story or
    the exception of the read. *)
Theorem load_inputs_missing_story (metadata : dict story_meta) (stories : list string)
    (mask : option (list bool)) (story : string) (e : exn) :
  story ∈ stories →
  (dict_get metadata story = Raise e ∨
   ∃ meta, dict_get metadata story = Ok meta ∧ np_load (meta_model meta) = Raise e) →
  raises (load_inputs zscore np_load read_gifti metadata (Some stories) mask) ∧
  (head stories = Some story →
   load_inputs zscore np_load read_gifti metadata (Some stories) mask = Raise e).
Proof.
  intros Hin Hmissing.
  assert (Hstep : ∀ inputs,
            load_story zscore np_load read_gifti metadata mask inputs story = Raise e).
  { intros inputs. unfold load_story.
    destruct Hmissing as [->|(meta & -> & Hload)]; [done|].
    by rewrite bind_Ok, Hload. }
  assert (Hlist : (match stories with [] => keys metadata | _ => stories end) = stories).
  { destruct stories; [by apply elem_of_nil in Hin | done]. }
  unfold load_inputs. split.
  - rewrite Hlist. apply (for_each_raises_at _ _ _ story); [done|].
    intros inputs. by rewrite Hstep.
  - destruct stories as [|story' rest]; [done|]. intros [= ->].
    cbn [for_each]. by rewrite Hstep.
Qed.

End LoadedInputs.

(** Witnesses for X6 and X7: the story "black" with one subject, an
    embedding of eight rows trimmed to five and data of six rows trimmed to
    five; and a request for a story that the metadata does not have. *)
Lemma load_inputs_stored_witness :
  let embedding := NdArray 1 (map (λ i, [float_of_Z (Z.of_nat i)]) (seq 0 8)) in
  let surf_data := NdArray 2 (map (λ i, [float_of_Z (Z.of_nat i); 0%float]) (seq 0 6)) in
  let metadata :=
    [("black"%string,
      StoryMeta "black.npy" (2, 1) [("sub-02"%string, "sub-02_black.gii"%string)] (1, 0))] in
  ∃ inputs,
    load_inputs (λ a, a) (λ _, Ok embedding) (λ _, Ok surf_data) metadata None
      (Some [false; true]) = Ok inputs ∧
    ∃ meta embedding' model data,
      dict_get metadata "black" = Ok meta ∧
      Ok embedding = Ok embedding' ∧
      delay_embedding (λ a, a) (trim embedding' (meta_model_trims meta)) default_delays false
        = Ok model ∧
      dict_get inputs "black" = Ok (StoryInputs model data) ∧
      ∀ subject, subject ∈ keys (meta_data meta) →
        ∃ data_fn surf_data' masked,
          dict_get (meta_data meta) subject = Ok data_fn ∧
          Ok surf_data = Ok surf_data' ∧
          nrows (trim surf_data' (meta_data_trims meta)) = nrows model ∧
          select_columns (trim surf_data' (meta_data_trims meta)) [false; true] = Ok masked ∧
          dict_get data subject = Ok masked.
Proof.
  intros embedding surf_data metadata.
  destruct (load_inputs (λ a, a) (λ _, Ok embedding) (λ _, Ok surf_data) metadata None
              (Some [false; true])) as [inputs|e] eqn:Hrun; [|by vm_compute in Hrun].
  exists inputs. split; [reflexivity|].
  exact (load_inputs_stored (λ a, a) (λ _, Ok embedding) (λ _, Ok surf_data) metadata None
           (Some [false; true]) inputs Hrun "black"%string ltac:(left)).
Defined.

Lemma load_inputs_missing_story_witness :
  let metadata :=
    [("black"%string,
      StoryMeta "black.npy" (0, 0) [("sub-02"%string, "sub-02_black.gii"%string)] (0, 0))] in
  "forgot"%string ∈ ["forgot"%string; "black"%string] ∧
  (dict_get metadata "forgot" = Raise (KeyError "forgot") ∨
   ∃ meta, dict_get metadata "forgot" = Ok meta ∧
           (Raise (OSError (meta_model meta)) : result ndarray)
           = Raise (KeyError "forgot")) ∧
  raises (load_inputs (λ a, a) (λ fn, Raise (OSError fn)) (λ fn, Raise (OSError fn))
            metadata (Some ["forgot"%string; "black"%string]) None) ∧
  (head ["forgot"%string; "black"%string] = Some "forgot"%string →
   load_inputs (λ a, a) (λ fn, Raise (OSError fn)) (λ fn, Raise (OSError fn))
     metadata (Some ["forgot"%string; "black"%string]) None = Raise (KeyError "forgot")).
Proof.
  intros metadata.
  assert (Hin : "forgot"%string ∈ ["forgot"%string; "black"%string]) by left.
  assert (Hmissing : dict_get metadata "forgot" = Raise (KeyError "forgot") ∨
            ∃ meta, dict_get metadata "forgot" = Ok meta ∧
                    (Raise (OSError (meta_model meta)) : result ndarray)
                    = Raise (KeyError "forgot"))
    by (left; reflexivity).
  split; [exact Hin|]. split; [exact Hmissing|].
  exact (load_inputs_missing_story (λ a, a) (λ fn, Raise (OSError fn))
           (λ fn, Raise (OSError fn)) metadata _ None _ _ Hin Hmissing).
Defined.

(** ** Split halves: when the assertion fails *)

Section SplitHalfOutcome.

Variable zscore : ndarray → ndarray.

(** [split_half] either fails its assertion, on a subject whose data and
    model differ in their number of rows, or it returns, and there is no
    such subject. *)
Lemma split_half_outcome (inputs : dict story_inputs) (zscore_data zscore_model : bool) :
  (split_half zscore inputs zscore_data zscore_model = Raise AssertionError ∧
   ∃ story story_in subject data,
     dict_get inputs story = Ok story_in ∧
     dict_get (inputs_data story_in) subject = Ok data ∧
     nrows data ≠ nrows (inputs_model story_in)) ∨
  ((∃ splits, split_half zscore inputs zscore_data zscore_model = Ok splits) ∧
   ∀ story story_in subject data,
     dict_get inputs story = Ok story_in →
     dict_get (inputs_data story_in) subject = Ok data →
     nrows data = nrows (inputs_model story_in)).
Proof.
  set (bad_subject := λ (story_in : story_inputs) (subject : string),
         ∃ data, dict_get (inputs_data story_in) subject = Ok data ∧
                 nrows data ≠ nrows (inputs_model story_in)).
  set (bad_story := λ story : string,
         ∃ story_in subject, dict_get inputs story = Ok story_in ∧
                             bad_subject story_in subject).
  assert (Hsubject : ∀ story_in midpoint acc subject,
            subject ∈ keys (inputs_data story_in) →
            (bad_subject story_in subject ∧
             split_subject zscore story_in midpoint zscore_data acc subject
               = Raise AssertionError) ∨
            (¬ bad_subject story_in subject ∧
             ∃ acc', split_subject zscore story_in midpoint zscore_data acc subject
                     = Ok acc')).
  { intros story_in midpoint acc subject [data Hdata]%dict_get_keys.
    unfold split_subject. rewrite Hdata, bind_Ok.
    destruct (Nat.eqb_spec (nrows data) (nrows (inputs_model story_in))) as [Heq|Hne];
      cbn [assert].
    - right. split.
      + intros (data' & Hdata' & Hne). rewrite Hdata in Hdata'. by injection Hdata' as <-.
      + rewrite bind_Ok. destruct (halves _ _ _ _). by eexists.
    - left. split; [by exists data | done]. }
  assert (Hstory : ∀ acc story, story ∈ keys inputs →
            (bad_story story ∧
             split_story zscore inputs zscore_data zscore_model acc story
               = Raise AssertionError) ∨
            (¬ bad_story story ∧
             ∃ acc', split_story zscore inputs zscore_data zscore_model acc story
                     = Ok acc')).
  { intros [model_splits data_splits] story [story_in Hin]%dict_get_keys.
    unfold split_story. rewrite Hin, bind_Ok.
    destruct (halves _ _ _ _) as [first second].
    destruct (for_each_raises (keys (inputs_data story_in)) []
                (split_subject zscore story_in (nrows (inputs_model story_in) / 2)%nat
                   zscore_data)
                (bad_subject story_in) AssertionError)
      as [[-> (subject & _ & Hbad)]|[[acc' ->] Hnone]].
    - intros acc subject. apply Hsubject.
    - left. split; [by exists story_in, subject | done].
    - right. split; [|by eexists].
      intros (story_in' & subject & Hin' & Hbad).
      rewrite Hin in Hin'. injection Hin' as <-.
      apply (Hnone subject); [|done].
      destruct Hbad as (data & Hdata & _). by eapply dict_get_Ok_keys. }
  unfold split_half.
  destruct (for_each_raises (keys inputs) ([], [])
              (split_story zscore inputs zscore_data zscore_model) bad_story AssertionError)
    as [[-> (story & _ & story_in & subject & Hin & data & Hdata & Hne)]|[[acc ->] Hnone]].
  - intros acc story. apply Hstory.
  - left. split; [done|]. by exists story, story_in, subject, data.
  - right. split; [by eexists|].
    intros story story_in subject data Hin Hdata.
    destruct (decide (nrows data = nrows (inputs_model story_in))) as [|Hne]; [done|].
    exfalso. apply (Hnone story); [by eapply dict_get_Ok_keys|].
    exists story_in, subject. split; [done|]. by exists data.
Qed.

(** X8. [split_half] raises exactly when the data of some subject of some
    story has another number of rows than the story's model, and what it
    raises is the [AssertionError] of line 123. *)
Theorem split_half_raises_iff_rows_differ (inputs : dict story_inputs)
    (zscore_data zscore_model : bool) :
  (raises (split_half zscore inputs zscore_data zscore_model) ↔
   ∃ story story_in subject data,
     dict_get inputs story = Ok story_in ∧
     dict_get (inputs_data story_in) subject = Ok data ∧
     nrows data ≠ nrows (inputs_model story_in)) ∧
  (raises (split_half zscore inputs zscore_data zscore_model) →
   split_half zscore inputs zscore_data zscore_model = Raise AssertionError).
Proof.
  destruct (split_half_outcome inputs zscore_data zscore_model)
    as [[Hrun Hbad]|[[splits Hrun] Hgood]]; rewrite Hrun.
  - split; [|done]. split; [done|]. by intros _.
  - split; [|done]. split; [done|].
    intros (story & story_in & subject & data & Hin & Hdata & Hne).
    by specialize (Hgood _ _ _ _ Hin Hdata).
Qed.

(** X9. What [load_inputs] returns, [split_half] accepts: the row counts
    that [load_inputs] has checked are those that [split_half] asserts, so
    the assertion cannot fail on loaded inputs. *)
Theorem split_half_of_loaded_inputs (np_load read_gifti : string → result ndarray)
    (metadata : dict story_meta) (stories : option (list string))
    (mask : option (list bool)) (inputs : dict story_inputs)
    (zscore_data zscore_model : bool) :
  load_inputs zscore np_load read_gifti metadata stories mask = Ok inputs →
  ∃ model_splits data_splits,
    split_half zscore inputs zscore_data zscore_model = Ok (model_splits, data_splits).
Proof.
  intros Hload.
  destruct (split_half_outcome inputs zscore_data zscore_model)
    as [[_ Hbad]|[[[model_splits data_splits] Hrun] _]]; [|by eauto].
  destruct Hbad as (story & story_in & subject & data & Hin & Hdata & Hne).
  by pose proof (load_inputs_rows_agree _ _ _ _ _ _ _ Hload _ _ _ _ Hin Hdata).
Qed.

End SplitHalfOutcome.

Lemma split_half_of_loaded_inputs_witness :
  let embedding := NdArray 1 (map (λ i, [float_of_Z (Z.of_nat i)]) (seq 0 8)) in
  let surf_data := NdArray 2 (map (λ i, [float_of_Z (Z.of_nat i); 0%float]) (seq 0 6)) in
  let metadata :=
    [("black"%string,
      StoryMeta "black.npy" (2, 1) [("sub-02"%string, "sub-02_black.gii"%string)] (1, 0))] in
  ∃ inputs,
    load_inputs (λ a, a) (λ _, Ok embedding) (λ _, Ok surf_data) metadata None None
      = Ok inputs ∧
    ∃ model_splits data_splits,
      split_half (λ a, a) inputs true false = Ok (model_splits, data_splits).
Proof.
  intros embedding surf_data metadata.
  destruct (load_inputs (λ a, a) (λ _, Ok embedding) (λ _, Ok surf_data) metadata None None)
    as [inputs|e] eqn:Hrun; [|by vm_compute in Hrun].
  exists inputs. split; [reflexivity|].
  exact (split_half_of_loaded_inputs (λ a, a) _ _ _ _ _ inputs true false Hrun).
Defined.

(** ** Grid search: what the loop collects *)

Lemma for_each_raise_from {S A} (l : list A) (s : S) (body : S → A → result S) (e : exn) :
  for_each l s body = Raise e → ∃ s' x, x ∈ l ∧ body s' x = Raise e.
Proof.
  revert s. induction l as [|x l IH]; intros s Hrun; [done|].
  cbn [for_each] in Hrun. destruct (body s x) as [s'|e'] eqn:Hx.
  - rewrite bind_Ok in Hrun. destruct (IH _ Hrun) as (s'' & y & Hy & Hbody).
    exists s'', y. split; [by right | done].
  - injection Hrun as ->. exists s, x. split; [left | done].
Qed.

Lemma mapM_raise_from {A B} (f : A → result B) (l : list A) (e : exn) :
  mapM f l = Raise e → ∃ x, x ∈ l ∧ f x = Raise e.
Proof.
  induction l as [|x l IH]; intros Hrun; [done|].
  cbn in Hrun. destruct (f x) as [b|e'] eqn:Hx.
  - rewrite bind_Ok in Hrun. fold (mapM f l) in Hrun.
    destruct (mapM f l) as [bs|e'] eqn:Hl; [done|].
    injection Hrun as ->. destruct (IH eq_refl) as (y & Hy & Hfy).
    exists y. split; [by right | done].
  - injection Hrun as ->. exists x. split; [left | done].
Qed.

Lemma mapM_Ok_inv {A B} (f : A → result B) (l : list A) (bs : list B) :
  mapM f l = Ok bs → Forall2 (λ x b, f x = Ok b) l bs.
Proof.
  revert bs. induction l as [|x l IH]; intros bs Hrun.
  - injection Hrun as <-. constructor.
  - cbn in Hrun. destruct (f x) as [b|e] eqn:Hx; [|done]. rewrite bind_Ok in Hrun.
    fold (mapM f l) in Hrun. destruct (mapM f l) as [bs'|e]; [|done].
    injection Hrun as <-. constructor; [done | by apply IH].
Qed.

Lemma dict_get_raises {V} (d : dict V) (k : string) (e : exn) :
  dict_get d k = Raise e → e = KeyError k.
Proof.
  induction d as [|[k' v] d IH]; cbn; [congruence|].
  destruct (String.eqb k' k); [done | exact IH].
Qed.

Lemma vstack_rows_outcome (l : list (list float)) :
  vstack_rows l = Raise ValueError ∨
  ∃ r, head l = Some r ∧ Forall (λ r', length r' = length r) l ∧
       vstack_rows l = Ok (NdArray (length r) l).
Proof.
  destruct l as [|r l]; [by left|]. unfold vstack_rows.
  destruct (forallb _ l) eqn:Hall; [|by left].
  right. exists r. split; [done|]. split; [|done].
  apply Forall_cons. split; [done|]. apply Forall_forall. intros r' Hr'.
  rewrite forallb_forall in Hall. apply Nat.eqb_eq, Hall. by apply list_elem_of_In.
Qed.

Section GridSearchResults.

Variable scorer_t : Type.
Variable grid_fit : scorer_t → list float → Z → ndarray → list float → result cv_fit.
Variables (train_model train_data : ndarray) (alphas : list float).
Variables (scorer : scorer_t) (n_splits : Z).

(** What one pass of the loop appends for a voxel: the best alpha and score
    of the fit on the voxel's column, and the mean over the folds of the
    fit's test scores. *)
Lemma search_voxel_appends acc voxel acc' :
  search_voxel scorer_t grid_fit train_model train_data alphas scorer n_splits acc voxel
    = Ok acc' →
  ∃ found : float * float * list float,
    (∃ y grid split_scores,
       column train_data voxel = Ok y ∧
       grid_fit scorer alphas n_splits train_model y = Ok grid ∧
       mapM (λ split, dict_get (split_test_score grid) (split_key split))
         (seq 0 (Z.to_nat n_splits)) = Ok split_scores ∧
       split_scores ≠ [] ∧
       Forall (λ scores, length scores = length found.2) split_scores ∧
       found = (best_alpha grid, best_score grid,
                mean_axis0 (length found.2) split_scores)) ∧
    acc' = (acc.1.1 ++ [found.1.1], acc.1.2 ++ [found.1.2], acc.2 ++ [found.2]).
Proof.
  destruct acc as [[best_alphas best_scores] all_scores]. unfold search_voxel.
  destruct (column train_data voxel) as [y|e] eqn:Hy; [|done]. rewrite bind_Ok.
  destruct (grid_fit scorer alphas n_splits train_model y) as [grid|e] eqn:Hgrid; [|done].
  rewrite bind_Ok.
  destruct (mapM _ _) as [split_scores|e] eqn:Hsplits; [|done]. rewrite bind_Ok.
  destruct (vstack_rows_outcome split_scores) as [->|(r & Hhead & Hlen & ->)]; [done|].
  rewrite bind_Ok. cbn [ncols rows]. intros [= <-].
  exists (best_alpha grid, best_score grid, mean_axis0 (length r) split_scores).
  split; [|done]. exists y, grid, split_scores.
  assert (Hwidth : length (mean_axis0 (length r) split_scores) = length r).
  { unfold mean_axis0. by rewrite length_map, length_sum_axis0. }
  split; [done|]. split; [done|]. split; [done|]. split; [by destruct split_scores|].
  cbn [snd]. rewrite Hwidth. by split.
Qed.

Lemma search_voxels_collect (voxels : list nat) acc acc' :
  for_each voxels acc
    (search_voxel scorer_t grid_fit train_model train_data alphas scorer n_splits)
    = Ok acc' →
  ∃ found : list (float * float * list float),
    Forall2 (λ voxel found,
       ∃ y grid split_scores,
         column train_data voxel = Ok y ∧
         grid_fit scorer alphas n_splits train_model y = Ok grid ∧
         mapM (λ split, dict_get (split_test_score grid) (split_key split))
           (seq 0 (Z.to_nat n_splits)) = Ok split_scores ∧
         split_scores ≠ [] ∧
         Forall (λ scores, length scores = length found.2) split_scores ∧
         found = (best_alpha grid, best_score grid,
                  mean_axis0 (length found.2) split_scores)) voxels found ∧
    acc' = (acc.1.1 ++ found.*1.*1, acc.1.2 ++ found.*1.*2, acc.2 ++ found.*2).
Proof.
  revert acc. induction voxels as [|voxel voxels IH]; intros acc Hrun.
  - injection Hrun as <-. exists []. split; [constructor|].
    cbn. rewrite !app_nil_r. by destruct acc as [[??]?].
  - cbn [for_each] in Hrun.
    destruct (search_voxel _ _ _ _ _ _ _ acc voxel) as [acc1|e] eqn:Hvoxel; [|done].
    rewrite bind_Ok in Hrun.
    destruct (search_voxel_appends _ _ _ Hvoxel) as (first & Hfirst & ->).
    destruct (IH _ Hrun) as (found & Hfound & ->).
    exists (first :: found). split; [by constructor|].
    cbn. by rewrite <- !app_assoc.
Qed.

(** The exceptions of one pass: the [IndexError] of the column, what the fit
    raises, the [KeyError] of a fold's scores, or the [ValueError] of
    [np.mean] over rows of different lengths. *)
Lemma search_voxel_exceptions acc voxel e :
  search_voxel scorer_t grid_fit train_model train_data alphas scorer n_splits acc voxel
    = Raise e →
  e = IndexError ∨ e = ValueError ∨ (∃ key, e = KeyError key) ∨
  ∃ y, grid_fit scorer alphas n_splits train_model y = Raise e.
Proof.
  destruct acc as [[best_alphas best_scores] all_scores]. unfold search_voxel, column.
  destruct (decide _); [|intros [= <-]; by left]. rewrite bind_Ok.
  destruct (grid_fit _ _ _ _ _) as [grid|e'] eqn:Hgrid.
  2:{ intros [= <-]. right. right. right. by eexists. }
  rewrite bind_Ok.
  destruct (mapM _ _) as [split_scores|e'] eqn:Hsplits.
  2:{ intros [= <-]. apply mapM_raise_from in Hsplits as (split & _ & Hkey).
      apply dict_get_raises in Hkey. right. right. left. by eexists. }
  rewrite bind_Ok.
  destruct (vstack_rows_outcome split_scores) as [->|(r & _ & _ & ->)]; [|done].
  intros [= <-]. right. by left.
Qed.

(** X10. The assertion that closes [grid_search] cannot fail: each pass of
    the loop appends one entry to each of the three lists, so their lengths
    and the number of columns of the stacked scores are the number of
    voxels. Unless the fit itself raises it, [grid_search] never raises
    [AssertionError]. *)
Theorem grid_search_assertion_holds :
  (∀ y, grid_fit scorer alphas n_splits train_model y ≠ Raise AssertionError) →
  grid_search scorer_t grid_fit train_model train_data alphas scorer n_splits
    ≠ Raise AssertionError.
Proof.
  intros Hfit. unfold grid_search.
  destruct (for_each _ _ _) as [[[best_alphas best_scores] all_scores]|e] eqn:Hloop.
  - rewrite bind_Ok.
    destruct (search_voxels_collect _ _ _ Hloop) as (found & Hfound & [= -> -> ->]).
    apply Forall2_length in Hfound. rewrite length_seq in Hfound.
    unfold column_stack.
    destruct (vstack_rows_outcome found.*2) as [->|(r & _ & _ & ->)]; [done|].
    rewrite !bind_Ok. cbn [ncols rows nrows]. unfold assert.
    rewrite bool_decide_eq_true_2; [done|].
    unfold nrows. cbn [rows]. rewrite !length_fmap. lia.
  - intros [= ->].
    apply for_each_raise_from in Hloop as (acc & voxel & _ & Hvoxel).
    apply search_voxel_exceptions in Hvoxel as [?|[?|[[key ?]|[y Hy]]]]; [done..|].
    by apply (Hfit y).
Qed.

(** X11. The results of [grid_search] voxel by voxel: entry [voxel] of the
    best alphas and of the best scores is that of the fit of [train_model]
    on column [voxel] of [train_data], and column [voxel] of the stacked
    scores is the mean over the folds of that fit's test scores. Entry [a]
    of the column is the sum of the [n_splits] folds' scores for the
    [a]-th alpha, divided by [n_splits]; the scores are added up in fold
    order, or pairwise, as [np.mean] does, when there is a single alpha and
    8 folds or more. *)
Theorem grid_search_per_voxel (best_alphas best_scores : list float) (all_scores : ndarray)
    (voxel : nat) :
  grid_search scorer_t grid_fit train_model train_data alphas scorer n_splits
    = Ok (best_alphas, best_scores, all_scores) →
  (voxel < ncols train_model)%nat →
  ∃ y grid split_scores means,
    column train_data voxel = Ok y ∧
    grid_fit scorer alphas n_splits train_model y = Ok grid ∧
    mapM (λ split, dict_get (split_test_score grid) (split_key split))
      (seq 0 (Z.to_nat n_splits)) = Ok split_scores ∧
    best_alphas !! voxel = Some (best_alpha grid) ∧
    best_scores !! voxel = Some (best_score grid) ∧
    column all_scores voxel = Ok means ∧
    length split_scores = Z.to_nat n_splits ∧
    Forall (λ scores, length scores = nrows all_scores) split_scores ∧
    length means = nrows all_scores ∧
    ∀ (a : nat) (x : float), means !! a = Some x →
      let scores := map (λ fold, nth a fold 0%float) split_scores in
      x = ((if (nrows all_scores =? 1)%nat && (8 <=? length split_scores)%nat
            then pairwise_sum scores
            else foldl PrimFloat.add (hd 0 scores) (tail scores))
           / float_of_Z (Z.of_nat (length split_scores)))%float.
Proof.
  intros Hrun Hvoxel. unfold grid_search in Hrun.
  destruct (for_each _ _ _) as [[[ba bs] scores]|e] eqn:Hloop; [|done].
  rewrite bind_Ok in Hrun.
  destruct (search_voxels_collect _ _ _ Hloop) as (found & Hfound & [= -> -> ->]).
  unfold column_stack in Hrun.
  destruct (vstack_rows_outcome found.*2) as [Hstack|(r & _ & Hlen & Hstack)];
    rewrite Hstack in Hrun; [done|].
  rewrite !bind_Ok in Hrun. cbn [ncols rows nrows] in Hrun.
  destruct (assert _) as [[]|e]; [|done]. rewrite bind_Ok in Hrun.
  match type of Hrun with Ok (_, _, ?a) = _ => set (stacked := a) in Hrun end.
  injection Hrun as <- <- <-.
  destruct (Forall2_lookup_l _ _ _ voxel voxel Hfound) as (v & Hv & Hfit).
  { apply lookup_seq. lia. }
  destruct Hfit as (y & grid & split_scores & Hy & Hgrid & Hsplits & Hne & Hwidth & Hv_eq).
  assert (Hmean : found.*2 !! voxel = Some v.2) by (by rewrite list_lookup_fmap, Hv).
  assert (Hlen_v : length v.2 = length r).
  { rewrite Forall_forall in Hlen. apply Hlen. by eapply list_elem_of_lookup_2. }
  assert (Hrows : nrows stacked = length r).
  { unfold stacked, nrows. cbn [rows]. by rewrite length_map, length_seq. }
  assert (Hcolumn : column stacked voxel = Ok v.2).
  { unfold stacked, column, nrows. cbn [ncols rows].
    apply Forall2_length in Hfound. rewrite length_seq in Hfound.
    rewrite decide_True by (rewrite length_fmap; lia). f_equal.
    rewrite map_map.
    transitivity (map (λ j, nth j v.2 0%float) (seq 0 (length v.2))).
    - rewrite Hlen_v. apply map_ext. intros j. apply nth_lookup_Some.
      change (map ?f ?l) with (f <$> l). by rewrite list_lookup_fmap, Hmean.
    - apply map_nth_seq. }
  exists y, grid, split_scores, v.2.
  split; [done|]. split; [done|]. split; [done|].
  split; [rewrite !list_lookup_fmap, Hv; cbn; by rewrite Hv_eq|].
  split; [rewrite !list_lookup_fmap, Hv; cbn; by rewrite Hv_eq|].
  split; [done|]. rewrite Hrows, <- Hlen_v.
  split.
  { apply mapM_Ok_inv, Forall2_length in Hsplits. by rewrite length_seq in Hsplits. }
  split; [done|]. split; [done|].
  intros a x Hx. cbv zeta.
  assert (Ha : (a < length v.2)%nat) by (by apply lookup_lt_Some in Hx).
  apply (nth_lookup_Some _ _ PrimFloat.nan) in Hx. rewrite <- Hx.
  rewrite Hv_eq at 1. cbn [snd].
  by apply (nth_mean_axis0 (length v.2) a split_scores).
Qed.

(** X12. Without a voxel there is nothing to stack: on a [train_model] of
    no columns the loop does not run and [np.column_stack([])] raises
    [ValueError]. *)
Theorem grid_search_without_voxels :
  ncols train_model = 0%nat →
  grid_search scorer_t grid_fit train_model train_data alphas scorer n_splits
    = Raise ValueError.
Proof. intros Hcols. unfold grid_search. by rewrite Hcols. Qed.

End GridSearchResults.

Lemma grid_search_assertion_holds_witness :
  let grid_fit := λ (_ : unit) (_ : list float) (_ : Z) (_ : ndarray) (_ : list float),
    Ok (CvFit 1 0.5 [("split0_test_score"%string, [0.5; 0.25]%float);
                     ("split1_test_score"%string, [0.5; 0.75]%float)]) in
  let train_model := NdArray 1 [[1]; [2]]%float in
  let train_data := NdArray 2 [[1; 2]; [3; 4]]%float in
  (∀ y, grid_fit tt [1; 10]%float 2 train_model y ≠ Raise AssertionError) ∧
  grid_search unit grid_fit train_model train_data [1; 10]%float tt 2
    ≠ Raise AssertionError.
Proof.
  intros grid_fit train_model train_data.
  assert (Hfit : ∀ y, grid_fit tt [1; 10]%float 2 train_model y ≠ Raise AssertionError)
    by (intros y; discriminate).
  split; [exact Hfit|].
  exact (grid_search_assertion_holds unit grid_fit train_model train_data _ tt 2 Hfit).
Defined.

Lemma grid_search_per_voxel_witness :
  let grid_fit := λ (_ : unit) (_ : list float) (_ : Z) (_ : ndarray) (y : list float),
    Ok (CvFit 1 (hd 0 y) [("split0_test_score"%string, [0.5; 0.25]%float);
                          ("split1_test_score"%string, [0.5; 0.75]%float)])%float in
  let train_model := NdArray 2 [[1; 2]; [3; 4]]%float in
  let train_data := NdArray 3 [[1; 2; 3]; [4; 5; 6]]%float in
  let all_scores := NdArray 2 [[0.5; 0.5]; [0.5; 0.5]]%float in
  grid_search unit grid_fit train_model train_data [1; 10]%float tt 2
    = Ok ([1; 1]%float, [1; 2]%float, all_scores) ∧
  (1 < ncols train_model)%nat ∧
  ∃ y grid split_scores means,
    column train_data 1 = Ok y ∧
    grid_fit tt [1; 10]%float 2 train_model y = Ok grid ∧
    mapM (λ split, dict_get (split_test_score grid) (split_key split))
      (seq 0 (Z.to_nat 2)) = Ok split_scores ∧
    [1; 1]%float !! 1%nat = Some (best_alpha grid) ∧
    [1; 2]%float !! 1%nat = Some (best_score grid) ∧
    column all_scores 1 = Ok means ∧
    length split_scores = Z.to_nat 2 ∧
    Forall (λ scores, length scores = nrows all_scores) split_scores ∧
    length means = nrows all_scores ∧
    ∀ (a : nat) (x : float), means !! a = Some x →
      let scores := map (λ fold, nth a fold 0%float) split_scores in
      x = ((if (nrows all_scores =? 1)%nat && (8 <=? length split_scores)%nat
            then pairwise_sum scores
            else foldl PrimFloat.add (hd 0 scores) (tail scores))
           / float_of_Z (Z.of_nat (length split_scores)))%float.
Proof.
  intros grid_fit train_model train_data all_scores.
  assert (Hrun : grid_search unit grid_fit train_model train_data [1; 10]%float tt 2
            = Ok ([1; 1]%float, [1; 2]%float, all_scores))
    by reflexivity.
  assert (Hvoxel : (1 < ncols train_model)%nat) by (cbn; lia).
  split; [exact Hrun|]. split; [exact Hvoxel|].
  exact (grid_search_per_voxel unit grid_fit train_model train_data _ tt 2 _ _ _ 1%nat
           Hrun Hvoxel).
Defined.

(** With a single alpha and ten folds, as the default [n_splits] has them,
    the ten scores of a voxel are added up pairwise: ten scores of 0.1 have
    the mean 0.1, where adding them in order would give
    0.09999999999999999. *)
Example grid_search_ten_folds_one_alpha :
  let grid_fit := λ (_ : unit) (_ : list float) (_ : Z) (_ : ndarray) (_ : list float),
    Ok (CvFit 1 0.1 (map (λ k, (split_key k, [0.1%float])) (seq 0 10))) in
  grid_search unit grid_fit (NdArray 1 [[1]; [2]]%float) (NdArray 1 [[1]; [2]]%float)
    [1%float] tt 10
  = Ok ([1%float], [0.1%float], NdArray 1 [[0.1%float]]).
Proof. vm_compute. reflexivity. Qed.

Lemma grid_search_without_voxels_witness :
  let grid_fit := λ (_ : unit) (_ : list float) (_ : Z) (_ : ndarray) (_ : list float),
    Ok (CvFit 1 0.5 [("split0_test_score"%string, [0.5; 0.25]%float);
                     ("split1_test_score"%string, [0.5; 0.75]%float)]) in
  let train_model := NdArray 0 [[]; []] in
  ncols train_model = 0%nat ∧
  grid_search unit grid_fit train_model (NdArray 1 [[1]; [2]]%float) [1; 10]%float tt 2
    = Raise ValueError.
Proof.
  intros grid_fit train_model.
  assert (Hcols : ncols train_model = 0%nat) by reflexivity.
  split; [exact Hcols|].
  exact (grid_search_without_voxels unit grid_fit train_model _ _ tt 2 Hcols).
Defined.

(** ** Rank accuracy with its two names bound *)

Lemma mapM_Forall2 {A B} (f : A → result B) (R : A → B → Prop) (l : list A) :
  (∀ x, x ∈ l → ∃ b, f x = Ok b ∧ R x b) → ∃ bs, mapM f l = Ok bs ∧ Forall2 R l bs.
Proof.
  induction l as [|x l IH]; intros Hf; [exists []; by split|].
  destruct (Hf x ltac:(left)) as (b & Hb & HR).
  destruct IH as (bs & Hbs & Hall); [intros y Hy; apply Hf; by right|].
  exists (b :: bs). cbn. rewrite Hb, bind_Ok. fold (mapM f l). rewrite Hbs.
  split; [done | by constructor].
Qed.

Section RankAccuracyBound.

Variable np_mean : list float → float.
Variables (globals builtins : namespace).
Variables (cdist rankdata : list value → result value).
Variables (predicted_model test_model distances : ndarray).

Hypothesis cdist_bound : load_global globals builtins "cdist" = Ok (PyCallable cdist).
Hypothesis rankdata_bound :
  load_global globals builtins "rankdata" = Ok (PyCallable rankdata).
(** [cdist] returns one row per prediction, with one distance per test row. *)
Hypothesis cdist_shape :
  cdist [VMatrix predicted_model; VMatrix test_model; VStr "correlation"]
    = Ok (VMatrix distances) ∧
  nrows distances = nrows predicted_model ∧
  Forall (λ row, length row = nrows test_model) (rows distances).
(** [rankdata] returns one rank per entry. *)
Hypothesis rankdata_shape :
  ∀ row, ∃ ranked, rankdata [VVector row] = Ok (VVector ranked) ∧
                   length ranked = length row.

Lemma rank_of_index (index : nat) :
  (index < nrows predicted_model)%nat →
  ∃ row ranked,
    rows distances !! index = Some row ∧
    rankdata [VVector (map (λ d, 1 - d)%float row)] = Ok (VVector ranked) ∧
    length ranked = nrows test_model ∧
    (rankdata ← load_global globals builtins "rankdata";
     row ← item (map (map (λ d, 1 - d)%float) (rows distances)) index;
     ranked ← call rankdata [VVector row];
     ranked ← as_vector ranked;
     item ranked index) = item ranked index.
Proof.
  intros Hindex. destruct cdist_shape as (_ & Hrows & Hcols).
  rewrite rankdata_bound, bind_Ok.
  destruct (lookup_lt_is_Some_2 (rows distances) index) as [row Hrow];
    [unfold nrows in *; lia|].
  assert (Hitem : item (map (map (λ d, 1 - d)%float) (rows distances)) index
            = Ok (map (λ d, 1 - d)%float row)).
  { unfold item. change (map ?f (rows distances)) with (f <$> rows distances).
    by rewrite list_lookup_fmap, Hrow. }
  rewrite Hitem, bind_Ok.
  destruct (rankdata_shape (map (λ d, 1 - d)%float row)) as (ranked & Hranked & Hlen).
  exists row, ranked. split; [done|]. split; [done|]. split.
  - rewrite Hlen, length_map. rewrite Forall_forall in Hcols. apply Hcols.
    by eapply list_elem_of_lookup_2.
  - cbn [call]. rewrite Hranked, bind_Ok. cbn [as_vector]. by rewrite bind_Ok.
Qed.

(** X13. With [cdist] and [rankdata] bound to functions of the shapes of
    SciPy's, [rank_accuracy] needs as many test rows as predictions. With
    no more predictions than test rows it returns one value for each
    prediction: for prediction [index], entry [index] of what [rankdata]
    returns for the correlations [1 - d] of row [index] of the distances,
    divided by the number of predictions; with [mean] set it returns the
    mean of these values. With more predictions than test rows it raises
    [IndexError]. *)
Theorem rank_accuracy_needs_test_rows (mean : bool) :
  ((nrows predicted_model ≤ nrows test_model)%nat →
   ∃ ranks,
     rank_accuracy np_mean globals builtins predicted_model test_model false
       = Ok (VVector ranks) ∧
     rank_accuracy np_mean globals builtins predicted_model test_model true
       = Ok (VFloat (np_mean ranks)) ∧
     length ranks = nrows predicted_model ∧
     ∀ (index : nat) (row : list float), rows distances !! index = Some row →
       ∃ ranked rank,
         rankdata [VVector (map (λ d, 1 - d)%float row)] = Ok (VVector ranked) ∧
         ranked !! index = Some rank ∧
         ranks !! index
         = Some (rank / float_of_Z (Z.of_nat (nrows predicted_model)))%float) ∧
  ((nrows test_model < nrows predicted_model)%nat →
   rank_accuracy np_mean globals builtins predicted_model test_model mean
     = Raise IndexError).
Proof.
  pose proof cdist_shape as (Hcdist & Hshape & _).
  split; intros Hrows; unfold rank_accuracy;
    rewrite cdist_bound, !bind_Ok; cbn [call]; rewrite Hcdist, !bind_Ok;
    cbn [as_matrix]; rewrite !bind_Ok.
  - destruct (mapM_Forall2
                (λ index,
                   rankdata ← load_global globals builtins "rankdata";
                   row ← item (map (map (λ d, 1 - d)%float) (rows distances)) index;
                   ranked ← call rankdata [VVector row];
                   ranked ← as_vector ranked;
                   item ranked index)
                (λ index rank,
                   ∃ row ranked,
                     rows distances !! index = Some row ∧
                     rankdata [VVector (map (λ d, 1 - d)%float row)] = Ok (VVector ranked) ∧
                     ranked !! index = Some rank)
                (seq 0 (nrows predicted_model))) as (raw & -> & Hraw).
    { intros index [_ Hindex]%elem_of_seq.
      destruct (rank_of_index index ltac:(lia)) as (row & ranked & Hrow & Hranked & Hlen & ->).
      unfold item.
      destruct (lookup_lt_is_Some_2 ranked index) as [rank Hrank]; [lia|].
      rewrite Hrank. exists rank. split; [done|]. by exists row, ranked. }
    rewrite !bind_Ok. eexists. split; [done|]. split; [done|].
    pose proof (Forall2_length _ _ _ Hraw) as Hlen. rewrite length_seq in Hlen.
    split; [by rewrite length_map|].
    intros index row Hrow.
    assert (Hindex : (index < nrows predicted_model)%nat).
    { apply lookup_lt_Some in Hrow. unfold nrows in *. lia. }
    destruct (Forall2_lookup_l _ _ _ index index Hraw) as (rank & Hrank & Hranked).
    { apply lookup_seq. lia. }
    destruct Hranked as (row' & ranked & Hrow' & Hranked & Hentry).
    assert (row' = row) as -> by congruence.
    exists ranked, rank. split; [done|]. split; [done|].
    change (map ?f raw) with (f <$> raw). by rewrite list_lookup_fmap, Hrank.
  - rewrite (mapM_raises _ _ IndexError (nrows test_model)); [by destruct mean| | |].
    + apply elem_of_seq. lia.
    + destruct (rank_of_index (nrows test_model) Hrows)
        as (row & ranked & _ & _ & Hlen & ->).
      unfold item. by rewrite (lookup_ge_None_2 ranked) by lia.
    + intros index [_ Hindex]%elem_of_seq.
      destruct (rank_of_index index ltac:(lia)) as (row & ranked & _ & _ & Hlen & ->).
      unfold item. destruct (ranked !! index); [right; by eexists | by left].
Qed.

End RankAccuracyBound.

Lemma rank_accuracy_needs_test_rows_witness :
  let np_mean := (λ l, foldl PrimFloat.add 0 l / float_of_Z (Z.of_nat (length l)))%float in
  let distances := NdArray 2 [[0; 1]; [1; 0]]%float in
  let cdist := λ _ : list value, Ok (VMatrix distances) in
  let rankdata := λ args,
    match args with
    | [VVector v] =>
        Ok (VVector (map (λ x, float_of_Z (Z.of_nat
              (length (filter (λ y, (y <=? x)%float = true) v)))) v))
    | _ => Raise TypeError
    end in
  let globals :=
    ("cdist"%string, PyCallable cdist) :: ("rankdata"%string, PyCallable rankdata)
      :: module_globals in
  let predicted_model := NdArray 2 [[1; 2]; [2; 1]]%float in
  let test_model := NdArray 2 [[1; 2]; [2; 1]]%float in
  load_global globals python_builtins "cdist" = Ok (PyCallable cdist) ∧
  load_global globals python_builtins "rankdata" = Ok (PyCallable rankdata) ∧
  (cdist [VMatrix predicted_model; VMatrix test_model; VStr "correlation"]
     = Ok (VMatrix distances) ∧
   nrows distances = nrows predicted_model ∧
   Forall (λ row, length row = nrows test_model) (rows distances)) ∧
  (∀ row, ∃ ranked, rankdata [VVector row] = Ok (VVector ranked) ∧
                    length ranked = length row) ∧
  ((nrows predicted_model ≤ nrows test_model)%nat →
   ∃ ranks,
     rank_accuracy np_mean globals python_builtins predicted_model test_model false
       = Ok (VVector ranks) ∧
     rank_accuracy np_mean globals python_builtins predicted_model test_model true
       = Ok (VFloat (np_mean ranks)) ∧
     length ranks = nrows predicted_model ∧
     ∀ (index : nat) (row : list float), rows distances !! index = Some row →
       ∃ ranked rank,
         rankdata [VVector (map (λ d, 1 - d)%float row)] = Ok (VVector ranked) ∧
         ranked !! index = Some rank ∧
         ranks !! index
         = Some (rank / float_of_Z (Z.of_nat (nrows predicted_model)))%float) ∧
  ((nrows test_model < nrows predicted_model)%nat →
   rank_accuracy np_mean globals python_builtins predicted_model test_model true
     = Raise IndexError).
Proof.
  intros np_mean distances cdist rankdata globals predicted_model test_model.
  assert (Hcdist : load_global globals python_builtins "cdist" = Ok (PyCallable cdist))
    by reflexivity.
  assert (Hrankdata :
            load_global globals python_builtins "rankdata" = Ok (PyCallable rankdata))
    by reflexivity.
  assert (Hshape :
            cdist [VMatrix predicted_model; VMatrix test_model; VStr "correlation"]
              = Ok (VMatrix distances) ∧
            nrows distances = nrows predicted_model ∧
            Forall (λ row, length row = nrows test_model) (rows distances))
    by (split; [reflexivity|]; split; [reflexivity|]; repeat constructor).
  assert (Hranks : ∀ row, ∃ ranked, rankdata [VVector row] = Ok (VVector ranked) ∧
                                    length ranked = length row)
    by (intros row; eexists; split; [reflexivity | apply length_map]).
  split; [exact Hcdist|]. split; [exact Hrankdata|]. split; [exact Hshape|].
  split; [exact Hranks|].
  exact (rank_accuracy_needs_test_rows np_mean globals python_builtins cdist rankdata
           predicted_model test_model distances Hcdist Hrankdata Hshape Hranks true).
Defined.

(** ** Time segmentation: too few rows, and how long a segment is *)

(** X14. [time_segmentation] raises when no segment fits: a segment length
    of zero, or one above the number of rows (no rows at all included),
    makes the number of segments zero and ends in [ZeroDivisionError]; a
    negative segment length on data with rows makes it negative, which
    [np.array_split] refuses with [ValueError]. *)
Theorem time_segmentation_without_segment (data : ndarray) (L : Z) (average : bool) :
  (L = 0 ∨ Z.of_nat (nrows data) < L ∨ nrows data = 0%nat →
   time_segmentation data L average = Raise ZeroDivisionError) ∧
  (L < 0 ∧ (0 < nrows data)%nat →
   time_segmentation data L average = Raise ValueError).
Proof.
  unfold time_segmentation, floordiv, Py.modulo.
  set (T := Z.of_nat (nrows data)). split.
  - intros Hshort. destruct (Z.eqb_spec L 0) as [|HL]; [done|]. rewrite bind_Ok.
    assert (Hn : T `div` L = 0).
    { destruct Hshort as [?|[Hlt|Hnil]]; [done| |].
      - apply Z.div_small. lia.
      - replace T with 0 by lia. apply Z.div_0_l. lia. }
    by rewrite Hn.
  - intros [HL HT]. destruct (Z.eqb_spec L 0) as [|_]; [lia|]. rewrite bind_Ok.
    assert (Hn : T `div` L < 0).
    { pose proof (Z.mod_neg_bound T L HL). pose proof (Z.div_mod T L ltac:(lia)). nia. }
    rewrite (proj2 (Z.eqb_neq _ 0)) by lia. rewrite bind_Ok.
    unfold array_split. rewrite (proj2 (Z.leb_le _ 0)) by lia.
    by destruct (_ =? 0), average.
Qed.

(** The outcome of [time_segmentation] on well-formed data when at least
    one segment fits: the chunks that [np.array_split] cuts are of
    [T // n] rows each, and each is collapsed into one row. *)
Lemma time_segmentation_chunks (data : ndarray) (L : Z) (average : bool) :
  wf data → 1 ≤ Z.of_nat (nrows data) `div` L →
  ∃ chunks : list (list (list float)),
    Z.of_nat (length chunks) = Z.of_nat (nrows data) `div` L ∧
    Forall (λ chunk, Z.of_nat (length chunk)
                     = Z.of_nat (nrows data) `div` (Z.of_nat (nrows data) `div` L)) chunks ∧
    time_segmentation data L average
      = Ok (NdArray
              (if average then ncols data
               else (Z.to_nat (Z.of_nat (nrows data) `div` (Z.of_nat (nrows data) `div` L))
                     * ncols data)%nat)
              (map (if average then mean_axis0 (ncols data) else ravel) chunks)).
Proof.
  intros Hwf Hn.
  set (T := Z.of_nat (nrows data)) in *. set (n := T `div` L) in *.
  assert (HL : L ≠ 0).
  { intros ->. subst n. rewrite Z.div_0_r in Hn. lia. }
  pose proof (Z.mod_pos_bound T n ltac:(lia)) as Hm.
  pose proof (Z.div_mod T n ltac:(lia)) as Hdm.
  set (m := T `mod` n) in *. set (c := T `div` n) in *.
  assert (Hc : 0 ≤ c) by (apply Z.div_pos; lia).
  set (kept := take (nrows data - Z.to_nat m) (rows data)).
  assert (Hkept : length kept = (Z.to_nat n * Z.to_nat c)%nat).
  { unfold kept. rewrite length_take. unfold nrows in *. nia. }
  destruct (array_split_equal kept n (Z.to_nat c) ltac:(lia) Hkept)
    as (chunks & Hsplit & Hlen & Hall & Hcat).
  assert (Hrows : Forall (Forall (λ r, length r = ncols data)) chunks).
  { apply Forall_forall. intros chunk Hin. apply Forall_forall. intros r Hr.
    assert (Hrk : r ∈ kept).
    { rewrite <- Hcat. apply list_elem_of_In, in_concat.
      exists chunk. by rewrite <- !list_elem_of_In. }
    apply (Forall_forall (λ r, length r = ncols data) (rows data)); [done|].
    unfold kept in Hrk. apply elem_of_take in Hrk as (i & Hi & _).
    by eapply list_elem_of_lookup_2. }
  assert (Hstack : ∀ collapse f,
            (∀ chunk, chunk ∈ chunks → length (collapse chunk) = f) →
            vstack_rows (map collapse chunks) = Ok (NdArray f (map collapse chunks))).
  { intros collapse f Hf. apply vstack_rows_Ok.
    - destruct chunks; [cbn in Hlen; lia | done].
    - rewrite Forall_fmap. apply Forall_forall. intros chunk Hin. by apply Hf. }
  exists chunks. split; [lia|]. split.
  { eapply Forall_impl; [exact Hall|]. intros chunk ->. lia. }
  assert (Hkept_run :
            (segments ← array_split kept n;
             vstack_rows (map (if average then mean_axis0 (ncols data) else ravel) segments))
            = Ok (NdArray (if average then ncols data else (Z.to_nat c * ncols data)%nat)
                    (map (if average then mean_axis0 (ncols data) else ravel) chunks))).
  { rewrite Hsplit, bind_Ok. apply Hstack. intros chunk Hin.
    rewrite Forall_forall in Hrows, Hall. destruct average.
    - unfold mean_axis0. rewrite length_map. apply length_sum_axis0. by apply Hrows.
    - rewrite (length_ravel (ncols data)) by (by apply Hrows). by rewrite (Hall chunk Hin). }
  unfold time_segmentation, floordiv, Py.modulo. fold T.
  rewrite (proj2 (Z.eqb_neq L 0) HL), bind_Ok. fold n.
  rewrite (proj2 (Z.eqb_neq n 0)) by lia. rewrite bind_Ok. fold m.
  destruct (Z.eqb_spec m 0) as [Hm0|Hm0].
  - assert (Hk : kept = rows data).
    { unfold kept. rewrite Hm0. apply take_ge. unfold nrows. lia. }
    rewrite <- Hk. by destruct average.
  - rewrite slice_to_neg by lia. fold (nrows data). fold kept. by destruct average.
Qed.

(** X15. How many rows a segment holds. With [T] rows and [n = T // L >= 1]
    segments, each segment is [T // n] rows of the data, which is the
    segment length [L] or more, and less than twice [L]; it is [L] exactly
    when the remainder [T % L] is below [n]. Flattened, a segment is a row of
    [(T // n) * F] numbers, and averaged one of [F]. *)
Theorem time_segmentation_segment_rows (data : ndarray) (L : Z) (average : bool) :
  wf data → 1 ≤ Z.of_nat (nrows data) `div` L →
  let T := Z.of_nat (nrows data) in
  ∃ segments,
    time_segmentation data L average = Ok segments ∧
    Z.of_nat (nrows segments) = T `div` L ∧
    Z.of_nat (ncols segments)
      = (if average then 1 else T `div` (T `div` L)) * Z.of_nat (ncols data) ∧
    L ≤ T `div` (T `div` L) < 2 * L ∧
    (T `div` (T `div` L) = L ↔ T `mod` L < T `div` L).
Proof.
  intros Hwf Hn T.
  destruct (time_segmentation_chunks data L average Hwf Hn) as (chunks & Hlen & _ & ->).
  fold T in Hn, Hlen |- *.
  assert (HL : 0 < L).
  { destruct (Z.lt_trichotomy L 0) as [Hneg|[HL|Hpos]]; [| |done].
    - pose proof (Z.div_mod T L ltac:(lia)). pose proof (Z.mod_neg_bound T L Hneg). nia.
    - rewrite HL, Z.div_0_r in Hn. lia. }
  set (n := T `div` L) in *.
  pose proof (Z.div_mod T L ltac:(lia)) as Hdm. fold n in Hdm.
  pose proof (Z.mod_pos_bound T L HL) as Hr.
  pose proof (Z.div_mod T n ltac:(lia)) as Hdm'.
  pose proof (Z.mod_pos_bound T n ltac:(lia)) as Hr'.
  eexists. split; [done|]. unfold nrows at 1. cbn [rows ncols]. rewrite length_map.
  split; [done|]. split; [|split].
  - destruct average; [lia|]. rewrite Nat2Z.inj_mul, Z2Nat.id; [done|].
    apply Z.div_pos; lia.
  - split.
    + apply Z.div_le_lower_bound; lia.
    + apply Z.div_lt_upper_bound; nia.
  - split; intros Hc.
    + rewrite Hc in Hdm'. nia.
    + apply Z.le_antisymm.
      * apply Z.lt_succ_r, Z.div_lt_upper_bound; nia.
      * apply Z.div_le_lower_bound; lia.
Qed.

Lemma time_segmentation_segment_rows_witness :
  let data := NdArray 2 (map (λ i, [float_of_Z (Z.of_nat i); 0%float]) (seq 0 29)) in
  let T := Z.of_nat (nrows data) in
  wf data ∧ 1 ≤ T `div` 10 ∧
  ∃ segments,
    time_segmentation data 10 false = Ok segments ∧
    Z.of_nat (nrows segments) = T `div` 10 ∧
    Z.of_nat (ncols segments) = T `div` (T `div` 10) * Z.of_nat (ncols data) ∧
    10 ≤ T `div` (T `div` 10) < 2 * 10 ∧
    (T `div` (T `div` 10) = 10 ↔ T `mod` 10 < T `div` 10).
Proof.
  intros data T.
  assert (Hwf : wf data) by (unfold wf; cbn; repeat constructor).
  assert (Hn : 1 ≤ Z.of_nat (nrows data) `div` 10) by (vm_compute; discriminate).
  split; [exact Hwf|]. split; [exact Hn|].
  exact (time_segmentation_segment_rows data 10 false Hwf Hn).
Defined.

(** ** Classification needs two segments *)

Lemma mapM_raises_all {A B} (f : A → result B) (l : list A) (e : exn) :
  l ≠ [] → (∀ x, x ∈ l → f x = Raise e) → mapM f l = Raise e.
Proof.
  intros Hne Hf. destruct l as [|x l]; [done|]. cbn. by rewrite (Hf x) by left.
Qed.

(** X16. [correlation_classification] cannot rank fewer than two segments.
    Without a segment the accuracy [n_hits / n_segments] is a division by
    zero. With a single segment there is no off-diagonal entry, and
    [np.amax] of the empty list raises [ValueError] for the first subject. *)
Theorem correlation_classification_needs_two_segments (correlations : ndarray3) :
  (dim0 correlations = 0%nat →
   correlation_classification correlations = Raise ZeroDivisionError) ∧
  (wf3 correlations ∧ dim0 correlations = 1%nat ∧ dim1 correlations = 1%nat ∧
   (1 ≤ dim2 correlations)%nat →
   correlation_classification correlations = Raise ValueError).
Proof.
  unfold correlation_classification, moveaxis_2_0, last_axis. cbn [rows]. split.
  - unfold dim0. intros Hnil%nil_length_inv. rewrite Hnil. cbn [map length].
    by destruct (seq 0 (dim2 correlations)) as [|k ks]; cbn.
  - intros (Hwf & Hrows & Hcols & Hsubjects). unfold dim0 in Hrows.
    destruct (cells correlations) as [|plane [|??]] eqn:Hcells; [done| |done].
    unfold wf3 in Hwf. rewrite Hcells, Forall_singleton, Hcols in Hwf.
    destruct Hwf as [Hplane _].
    destruct plane as [|line [|??]]; [done| |done].
    rewrite mapM_raises_all with (e := ValueError); [done| |].
    + destruct (dim2 correlations); [lia | done].
    + intros correlation (k & -> & _)%list_elem_of_fmap. by cbn.
Qed.

(** ** Time-segment correlation: subjects and assertions *)

Lemma dstack_outcome (l : list ndarray) :
  dstack l = Raise ValueError ∨
  ∃ a stack, head l = Some a ∧ dstack l = Ok stack ∧
             dim0 stack = nrows a ∧ dim1 stack = ncols a ∧ dim2 stack = length l.
Proof.
  destruct l as [|a l]; [by left|]. unfold dstack.
  destruct (forallb _ l); [|by left]. right. eexists a, _.
  split; [done|]. split; [done|]. unfold dim0. cbn [cells dim1 dim2].
  by rewrite length_map, length_seq.
Qed.

Lemma length_split_at_sizes {A} (sizes : list nat) (l : list A) :
  length (split_at_sizes sizes l) = length sizes.
Proof.
  revert l. induction sizes as [|s sizes IH]; intros l; [done|]. cbn. by rewrite IH.
Qed.

Lemma array_split_outcome {A} (l : list A) (n : Z) :
  (n ≤ 0 ∧ array_split l n = Raise ValueError) ∨
  (0 < n ∧ ∃ chunks, array_split l n = Ok chunks ∧ length chunks = Z.to_nat n).
Proof.
  unfold array_split. destruct (Z.leb_spec n 0) as [|Hn]; [by left|].
  right. split; [done|]. eexists. split; [done|].
  rewrite length_split_at_sizes, length_app, !length_replicate.
  pose proof (Nat.mod_upper_bound (length l) (Z.to_nat n) ltac:(lia)). lia.
Qed.

(** What [time_segmentation] raises, and how many rows it returns. *)
Lemma time_segmentation_outcome (data : ndarray) (L : Z) (average : bool) :
  time_segmentation data L average = Raise ZeroDivisionError ∨
  time_segmentation data L average = Raise ValueError ∨
  ∃ segments, time_segmentation data L average = Ok segments ∧
              Z.of_nat (nrows segments) = Z.of_nat (nrows data) `div` L.
Proof.
  unfold time_segmentation, floordiv, Py.modulo.
  destruct (L =? 0); [by left|]. rewrite bind_Ok.
  set (n := Z.of_nat (nrows data) `div` L).
  destruct (n =? 0); [by left|]. rewrite bind_Ok.
  assert (Hsplit : ∀ (kept : list (list float)) (collapse : list (list float) → list float),
            (segments ← array_split kept n; vstack_rows (map collapse segments))
              = Raise ValueError ∨
            ∃ segments, (segments ← array_split kept n; vstack_rows (map collapse segments))
                          = Ok segments ∧ Z.of_nat (nrows segments) = n).
  { intros kept collapse.
    destruct (array_split_outcome kept n) as [[_ ->]|[Hn (chunks & -> & Hlen)]];
      [by left|].
    rewrite bind_Ok.
    destruct (vstack_rows_outcome (map collapse chunks)) as [->|(r & _ & _ & ->)];
      [by left|].
    right. eexists. split; [done|]. unfold nrows. cbn [rows]. rewrite length_map. lia. }
  right. destruct (_ =? 0), average; apply Hsplit.
Qed.

Lemma length_others (n i : nat) :
  length (filter (λ j, j ≠ i) (seq 0 n)) = if decide (i < n)%nat then (n - 1)%nat else n.
Proof.
  induction n as [|n IH]; [done|].
  rewrite seq_S, filter_app, length_app, IH. cbn [Nat.add filter list_filter].
  repeat case_decide; cbn [length]; lia.
Qed.

Section SegmentCorrelation.

Variable nanmean : list float → float.
Variable corrcoef : ndarray → ndarray → ndarray.

(** X17. [time_segment_correlation] needs two subjects: with one, the others
    to average are none and [np.dstack] of the empty list raises
    [ValueError]; with none, so does the final [np.dstack]. *)
Theorem time_segment_correlation_needs_two_subjects (data : ndarray3) (L : Z)
    (average : bool) :
  L ≠ 0 → (dim2 data < 2)%nat →
  time_segment_correlation nanmean corrcoef data L average = Raise ValueError.
Proof.
  intros HL Hsubjects. unfold time_segment_correlation, floordiv.
  rewrite (proj2 (Z.eqb_neq L 0) HL), bind_Ok.
  destruct (dim2 data) as [|[|n_subjects]]; [done..|lia].
Qed.

(** One pass of the loop over the subjects raises no [AssertionError]. *)
Lemma subject_correlation_exceptions (data : ndarray3) (L n_segments : Z) (average : bool)
    (i_subject : nat) :
  n_segments = Z.of_nat (dim0 data) `div` L → (i_subject < dim2 data)%nat →
  (others ← dstack (map (last_axis data)
                      (filter (λ i_other, i_other ≠ i_subject) (seq 0 (dim2 data))));
   _ ← assert (dim2 others =? dim2 data - 1)%nat;
   let others := NdArray (dim1 others) (map (map nanmean) (cells others)) in
   subject_segments ← time_segmentation (last_axis data i_subject) L average;
   others_segments ← time_segmentation others L average;
   _ ← assert (bool_decide (n_segments = Z.of_nat (nrows subject_segments)
                            ∧ nrows subject_segments = nrows others_segments));
   Ok (upper_right (corrcoef subject_segments others_segments) n_segments n_segments))
  ≠ Raise AssertionError.
Proof.
  intros Hn Hi.
  destruct (dstack_outcome (map (last_axis data)
              (filter (λ i_other, i_other ≠ i_subject) (seq 0 (dim2 data)))))
    as [->|(a & others & Hhead & -> & Hrows & _ & Hdepth)]; [done|].
  rewrite bind_Ok.
  rewrite length_map, length_others, decide_True in Hdepth by done.
  rewrite Hdepth, Nat.eqb_refl. cbn [assert]. rewrite bind_Ok. cbv zeta.
  assert (Ha : nrows a = dim0 data).
  { apply head_Some_elem_of, list_elem_of_fmap in Hhead as (j & -> & _).
    unfold nrows, last_axis, dim0. cbn [rows]. apply length_map. }
  destruct (time_segmentation_outcome (last_axis data i_subject) L average)
    as [->|[->|(subject_segments & -> & Hsubject)]]; [done..|].
  rewrite bind_Ok.
  destruct (time_segmentation_outcome
              (NdArray (dim1 others) (map (map nanmean) (cells others))) L average)
    as [->|[->|(others_segments & -> & Hothers)]]; [done..|].
  rewrite bind_Ok.
  unfold nrows at 2 in Hsubject. unfold nrows at 2 in Hothers.
  cbn [rows last_axis] in Hsubject, Hothers. rewrite length_map in Hsubject, Hothers.
  fold (dim0 data) in Hsubject. fold (dim0 others) in Hothers.
  rewrite Hrows, Ha in Hothers.
  rewrite bool_decide_eq_true_2 by (split; lia). done.
Qed.

(** X18. The assertions of [time_segment_correlation] cannot fail: leaving
    one subject out of [n_subjects] leaves [n_subjects - 1], and
    [time_segmentation] returns [n_TRs // segment_length] segments for the
    subject and for the average of the others alike. Whatever the data, the
    function never raises [AssertionError]. *)
Theorem time_segment_correlation_assertions_hold (data : ndarray3) (L : Z)
    (average : bool) :
  time_segment_correlation nanmean corrcoef data L average ≠ Raise AssertionError.
Proof.
  unfold time_segment_correlation, floordiv.
  destruct (L =? 0); [done|]. rewrite bind_Ok.
  destruct (mapM _ (seq 0 (dim2 data))) as [correlations|e] eqn:Hloop.
  - rewrite bind_Ok.
    by destruct (dstack_outcome correlations) as [->|(_ & stack & _ & -> & _)].
  - intros [= ->].
    apply mapM_raise_from in Hloop as (i_subject & [_ Hi]%elem_of_seq & Hbody).
    by eapply subject_correlation_exceptions in Hbody.
Qed.

End SegmentCorrelation.

Lemma time_segment_correlation_needs_two_subjects_witness :
  let data := NdArray3 1 1 [[[1%float]]; [[2%float]]; [[3%float]]; [[4%float]]] in
  2 ≠ 0 ∧ (dim2 data < 2)%nat ∧
  time_segment_correlation (λ l, hd PrimFloat.nan l) (λ x _, x) data 2 false
    = Raise ValueError.
Proof.
  intros data.
  assert (HL : 2 ≠ 0) by lia.
  assert (Hsubjects : (dim2 data < 2)%nat) by (cbn; lia).
  split; [exact HL|]. split; [exact Hsubjects|].
  exact (time_segment_correlation_needs_two_subjects (λ l, hd PrimFloat.nan l) (λ x _, x)
           data 2 false HL Hsubjects).
Defined.

(** ** Stacking subjects *)

(** Slice [k] of [np.dstack(l)] is the [k]-th array of [l]. *)
Lemma dstack_last_axis (l : list ndarray) (stack : ndarray3) (k : nat) (a : ndarray) :
  dstack l = Ok stack → l !! k = Some a →
  shape a = (dim0 stack, dim1 stack) ∧ (wf a → last_axis stack k = a).
Proof.
  intros Hstack Hk. unfold dstack in Hstack.
  destruct l as [|a0 l0] eqn:Hl; [done|]. rewrite <- Hl in *.
  destruct (forallb _ l0) eqn:Hshapes; [|done]. injection Hstack as <-.
  assert (Hshape : shape a = shape a0).
  { rewrite Hl in Hk. destruct k as [|k]; [by injection Hk as ->|].
    rewrite forallb_forall in Hshapes. cbn in Hk.
    apply list_elem_of_lookup_2, list_elem_of_In, Hshapes in Hk.
    by apply bool_decide_eq_true in Hk. }
  injection Hshape as Hnrows Hncols.
  unfold dim0, last_axis. cbn [cells dim1]. rewrite length_map, length_seq.
  split; [unfold shape; congruence|]. intros Hwf.
  destruct a as [f rs]. unfold nrows at 1 in Hnrows. cbn [rows ncols] in *.
  rewrite <- Hncols, <- Hnrows. f_equal.
  rewrite map_map. rewrite <- (map_nth_seq rs []) at 2.
  apply map_ext_in. intros i Hi%in_seq. rewrite map_map.
  assert (Hrow : length (nth i rs []) = f).
  { unfold wf in Hwf. cbn [rows ncols] in Hwf. rewrite Forall_forall in Hwf.
    apply Hwf. rewrite nth_lookup.
    destruct (lookup_lt_is_Some_2 rs i) as [r Hr]; [lia|].
    rewrite Hr. by eapply list_elem_of_lookup_2. }
  rewrite <- (map_nth_seq (nth i rs []) PrimFloat.nan) at 1. rewrite Hrow.
  apply map_ext. intros j.
  change (map ?g l) with (g <$> l). erewrite nth_lookup_Some; [done|].
  by rewrite list_lookup_fmap, Hk.
Qed.

Section StackSubjects.

Variable check_keys : dict (dict ndarray) → option (list string) → result (list string).

(** X19. What [stack_subjects] returns: the stack has one slice along its
    last axis for each subject that [check_keys] lists, in that order; slice
    [k] is the array stored for the [k]-th subject under the hemisphere,
    and all of these arrays have the shape of the stack's first two axes. *)
Theorem stack_subjects_slices (data : dict (dict ndarray)) (subjects : option (list string))
    (hemisphere : string) (subject_stack : ndarray3) :
  stack_subjects check_keys data subjects hemisphere = Ok subject_stack →
  ∃ subject_list,
    check_keys data subjects = Ok subject_list ∧
    subject_list ≠ [] ∧
    dim2 subject_stack = length subject_list ∧
    ∀ k subject, subject_list !! k = Some subject →
      ∃ by_hemisphere a,
        dict_get data subject = Ok by_hemisphere ∧
        dict_get by_hemisphere hemisphere = Ok a ∧
        shape a = (dim0 subject_stack, dim1 subject_stack) ∧
        (wf a → last_axis subject_stack k = a).
Proof.
  unfold stack_subjects. intros Hrun.
  destruct (check_keys data subjects) as [subject_list|e]; [|done].
  rewrite bind_Ok in Hrun.
  destruct (mapM _ subject_list) as [arrays|e] eqn:Harrays; [|done].
  rewrite bind_Ok in Hrun. apply mapM_Ok_inv in Harrays.
  destruct (dstack arrays) as [stack|e] eqn:Hstack; [|done]. rewrite bind_Ok in Hrun.
  destruct (dim2 stack =? length subject_list)%nat eqn:Hdepth; [|done].
  cbn [assert] in Hrun. rewrite bind_Ok in Hrun. injection Hrun as <-.
  exists subject_list. split; [done|]. split; [|split].
  - intros ->. apply Forall2_nil_inv_l in Harrays as ->. done.
  - by apply Nat.eqb_eq.
  - intros k subject Hk.
    destruct (Forall2_lookup_l _ _ _ k subject Harrays Hk) as (a & Ha & Hget).
    destruct (dict_get data subject) as [by_hemisphere|e]; [|done].
    rewrite bind_Ok in Hget. exists by_hemisphere, a.
    split; [done|]. split; [done|]. by eapply dstack_last_axis.
Qed.

(** X20. What [stack_subjects] raises: the [KeyError] of a subject that
    [check_keys] lists but the data lacks, or of the hemisphere that a
    listed subject lacks, when it is the first such lookup to fail. *)
Theorem stack_subjects_missing_key (data : dict (dict ndarray))
    (subjects : option (list string)) (hemisphere : string)
    (subject_list : list string) (subject : string) (missing : string) :
  check_keys data subjects = Ok subject_list →
  subject ∈ subject_list →
  (dict_get data subject = Raise (KeyError missing) ∨
   ∃ by_hemisphere, dict_get data subject = Ok by_hemisphere ∧
                    dict_get by_hemisphere hemisphere = Raise (KeyError missing)) →
  ∃ key, stack_subjects check_keys data subjects hemisphere = Raise (KeyError key).
Proof.
  intros Hkeys Hin Hmissing. unfold stack_subjects. rewrite Hkeys, bind_Ok.
  destruct (mapM _ subject_list) as [arrays|e] eqn:Harrays.
  - apply mapM_Ok_inv in Harrays.
    apply list_elem_of_lookup in Hin as [k Hk].
    destruct (Forall2_lookup_l _ _ _ k subject Harrays Hk) as (a & _ & Hget).
    destruct Hmissing as [Hget'|(by_hemisphere & Hget' & Hhemi)];
      rewrite Hget' in Hget; [done|].
    rewrite bind_Ok in Hget. congruence.
  - apply mapM_raise_from in Harrays as (subject' & _ & Hget).
    destruct (dict_get data subject') as [by_hemisphere|e'] eqn:Hsubject.
    + rewrite bind_Ok in Hget. apply dict_get_raises in Hget as ->. by eexists.
    + injection Hget as <-. apply dict_get_raises in Hsubject as ->. by eexists.
Qed.

End StackSubjects.

Lemma stack_subjects_slices_witness :
  let check_keys := λ (data : dict (dict ndarray)) (_ : option (list string)),
    Ok (keys data) in
  let data :=
    [("sub-01"%string, [("lh"%string, NdArray 2 [[1; 2]; [3; 4]; [5; 6]]%float)]);
     ("sub-02"%string, [("lh"%string, NdArray 2 [[7; 8]; [9; 10]; [11; 12]]%float)])] in
  let subject_stack :=
    NdArray3 2 2 [[[1; 7]; [2; 8]]; [[3; 9]; [4; 10]]; [[5; 11]; [6; 12]]]%float in
  stack_subjects check_keys data None "lh" = Ok subject_stack ∧
  ∃ subject_list,
    check_keys data None = Ok subject_list ∧
    subject_list ≠ [] ∧
    dim2 subject_stack = length subject_list ∧
    ∀ k subject, subject_list !! k = Some subject →
      ∃ by_hemisphere a,
        dict_get data subject = Ok by_hemisphere ∧
        dict_get by_hemisphere "lh" = Ok a ∧
        shape a = (dim0 subject_stack, dim1 subject_stack) ∧
        (wf a → last_axis subject_stack k = a).
Proof.
  intros check_keys data subject_stack.
  assert (Hrun : stack_subjects check_keys data None "lh" = Ok subject_stack)
    by reflexivity.
  split; [exact Hrun|].
  exact (stack_subjects_slices check_keys data None "lh" subject_stack Hrun).
Defined.

Lemma stack_subjects_missing_key_witness :
  let check_keys := λ (data : dict (dict ndarray)) (_ : option (list string)),
    Ok (keys data) in
  let data :=
    [("sub-01"%string, [("lh"%string, NdArray 1 [[1]; [2]]%float)]);
     ("sub-02"%string, [("rh"%string, NdArray 1 [[3]; [4]]%float)])] in
  check_keys data None = Ok ["sub-01"%string; "sub-02"%string] ∧
  "sub-02"%string ∈ ["sub-01"%string; "sub-02"%string] ∧
  (dict_get data "sub-02" = Raise (KeyError "lh") ∨
   ∃ by_hemisphere, dict_get data "sub-02" = Ok by_hemisphere ∧
                    dict_get by_hemisphere "lh" = Raise (KeyError "lh")) ∧
  ∃ key, stack_subjects check_keys data None "lh" = Raise (KeyError key).
Proof.
  intros check_keys data.
  assert (Hkeys : check_keys data None = Ok ["sub-01"%string; "sub-02"%string])
    by reflexivity.
  assert (Hin : "sub-02"%string ∈ ["sub-01"%string; "sub-02"%string])
    by (right; left).
  assert (Hmissing :
            dict_get data "sub-02" = Raise (KeyError "lh") ∨
            ∃ by_hemisphere, dict_get data "sub-02" = Ok by_hemisphere ∧
                             dict_get by_hemisphere "lh" = Raise (KeyError "lh"))
    by (right; eexists; split; reflexivity).
  split; [exact Hkeys|]. split; [exact Hin|]. split; [exact Hmissing|].
  exact (stack_subjects_missing_key check_keys data None "lh" _ _ _ Hkeys Hin Hmissing).
Defined.

(** ** The time-segment loop on its own output *)

(** A loop each of whose steps keeps what is filled and fills what it
    covers leaves everything filled that its steps cover. *)
Lemma for_each_fills {X A K} (filled : X → K → Prop) (covers : A → K → Prop)
    (l : list A) (body : X * list key → A → result (X * list key)) (s s' : X * list key) :
  (∀ s x s', x ∈ l → body s x = Ok s' →
     (∀ k, filled s.1 k → filled s'.1 k) ∧ (∀ k, covers x k → filled s'.1 k)) →
  for_each l s body = Ok s' →
  (∀ k, filled s.1 k → filled s'.1 k) ∧
  (∀ x k, x ∈ l → covers x k → filled s'.1 k).
Proof.
  revert s. induction l as [|x l IH]; intros s Hbody Hrun.
  - injection Hrun as <-. split; [done|]. intros x k Hx. by apply elem_of_nil in Hx.
  - cbn [for_each] in Hrun. destruct (body s x) as [s1|e] eqn:Hx; [|done].
    rewrite bind_Ok in Hrun.
    destruct (Hbody s x s1 ltac:(left) Hx) as [Hkeep1 Hfill1].
    destruct (IH s1) as [Hkeep Hfill]; [|done|].
    { intros s2 y s3 Hy. apply Hbody. by right. }
    split; [by auto|].
    intros y k [->|Hy]%elem_of_cons Hk; [by auto | by eauto].
Qed.

(** One level of the nested loops, for what is filled below a key. *)
Lemma level_fills {X K} `{Empty X} (filled : X → K → Prop) (covered : K → Prop)
    (k : string) (results : gmap string X) (inner' : X) :
  (∀ key, filled (default ∅ (setdefault_empty results k !! k)) key → filled inner' key) →
  (∀ key, covered key → filled inner' key) →
  (∀ k' key, (∃ x, results !! k' = Some x ∧ filled x key) →
     ∃ x, <[k := inner']> (setdefault_empty results k) !! k' = Some x ∧ filled x key) ∧
  (∀ key, covered key →
     ∃ x, <[k := inner']> (setdefault_empty results k) !! k = Some x ∧ filled x key).
Proof.
  intros Hkeep Hfill. split.
  - intros k' key (x & Hx & Hkey). destruct (decide (k' = k)) as [->|Hne].
    + exists inner'. rewrite lookup_insert_eq. split; [done|]. apply Hkeep.
      unfold setdefault_empty. rewrite decide_False by congruence. by rewrite Hx.
    + exists x. rewrite lookup_insert_ne by done. split; [|done].
      unfold setdefault_empty. case_decide; [|done]. by rewrite lookup_insert_ne.
  - intros key Hkey. exists inner'. rewrite lookup_insert_eq. auto.
Qed.

(** A loop none of whose steps changes the state it starts from. *)
Lemma for_each_skips {S A} (l : list A) (s : S) (body : S → A → result S) :
  (∀ x, x ∈ l → body s x = Ok s) → for_each l s body = Ok s.
Proof.
  induction l as [|x l IH]; intros Hbody; [done|].
  cbn [for_each]. rewrite Hbody by left. rewrite bind_Ok. apply IH.
  intros y Hy. apply Hbody. by right.
Qed.

(** One level of the nested loops when the key is there and the inner loop
    changes nothing below it. *)
Lemma level_skips {X} `{Empty X} (k : string) (results : gmap string X) (x : X) :
  results !! k = Some x →
  setdefault_empty results k = results ∧
  default ∅ (setdefault_empty results k !! k) = x ∧
  <[k := x]> (setdefault_empty results k) = results.
Proof.
  intros Hx. unfold setdefault_empty. rewrite decide_False by congruence.
  rewrite Hx. split; [done|]. split; [done|]. by apply insert_id.
Qed.

Section TimeSegmentRerun.

Variable nanmean : list float → float.
Variable corrcoef : ndarray → ndarray → ndarray.
Variable check_keys : dict (dict ndarray) → option (list string) → result (list string).
Variable load_split_data :
  string → string → Z → string → result (dict (dict (dict ndarray))).

Lemma ts_hemi_fills (story roi : string) (prefix : string * string)
    (st st' : gmap string (leaf (list float)) * list key) (hemi : string) :
  ts_hemi nanmean corrcoef check_keys load_split_data story roi prefix st hemi = Ok st' →
  (∀ h, is_Some (st.1 !! h) → is_Some (st'.1 !! h)) ∧
  (∀ h, h = hemi → is_Some (st'.1 !! h)).
Proof.
  destruct st as [results out]. unfold ts_hemi. cbn [fst].
  case_decide as Hmissing.
  - destruct (load_stack _ _ _ _ _ _) as [subject_stack|e]; [|done]. rewrite bind_Ok.
    destruct (time_segment_correlation _ _ _ _ _) as [correlations|e]; [|done].
    rewrite bind_Ok.
    destruct (correlation_classification _) as [[accuracies chance]|e]; [|done].
    rewrite bind_Ok. intros [= <-]. cbn [fst]. split.
    + intros h Hh. destruct (decide (h = hemi)) as [->|Hne].
      * by rewrite lookup_insert_eq.
      * by rewrite !lookup_insert_ne.
    + intros h ->. by rewrite lookup_insert_eq.
  - intros [= <-]. cbn [fst]. split; [done|]. intros h ->.
    by apply not_eq_None_Some.
Qed.

Lemma ts_prefix_fills (story roi : string) (prefix : string * string)
    (st st' : gmap string (gmap string (leaf (list float))) * list key) :
  ts_prefix nanmean corrcoef check_keys load_split_data story roi st prefix = Ok st' →
  (∀ label h, (∃ x, st.1 !! label = Some x ∧ is_Some (x !! h)) →
     ∃ x, st'.1 !! label = Some x ∧ is_Some (x !! h)) ∧
  (∀ h, h ∈ hemis → ∃ x, st'.1 !! prefix.1 = Some x ∧ is_Some (x !! h)).
Proof.
  destruct st as [results out]. unfold ts_prefix. cbn [fst].
  set (prefix' := if String.eqb _ _ then _ else prefix).
  assert (Hlabel : prefix'.1 = prefix.1) by (unfold prefix'; by destruct (String.eqb _ _)).
  rewrite Hlabel.
  destruct (for_each _ _ _) as [[inner out']|e] eqn:Hloop; [|done].
  rewrite bind_Ok. intros [= <-]. cbn [fst].
  apply (for_each_fills (λ m h, is_Some (m !! h)) (λ hemi h, h = hemi)) in Hloop.
  2:{ intros s hemi s' _ Hbody. by apply ts_hemi_fills in Hbody. }
  destruct Hloop as [Hkeep Hfill]. cbn [fst] in Hkeep, Hfill.
  apply (level_fills (λ m h, is_Some (m !! h)) (λ h, h ∈ hemis)); [done|].
  intros h Hh. by apply (Hfill h).
Qed.

Lemma ts_roi_fills (story roi : string)
    (st st' : gmap string (gmap string (gmap string (leaf (list float)))) * list key) :
  ts_roi nanmean corrcoef check_keys load_split_data story st roi = Ok st' →
  (∀ r (k : string * string),
     (∃ y, st.1 !! r = Some y ∧ ∃ x, y !! k.1 = Some x ∧ is_Some (x !! k.2)) →
     ∃ y, st'.1 !! r = Some y ∧ ∃ x, y !! k.1 = Some x ∧ is_Some (x !! k.2)) ∧
  (∀ k : string * string, (∃ prefix, prefix ∈ ts_prefixes ∧ k.1 = prefix.1) ∧ k.2 ∈ hemis →
     ∃ y, st'.1 !! roi = Some y ∧ ∃ x, y !! k.1 = Some x ∧ is_Some (x !! k.2)).
Proof.
  destruct st as [results out]. unfold ts_roi. cbn [fst].
  destruct (for_each _ _ _) as [[inner out']|e] eqn:Hloop; [|done].
  rewrite bind_Ok. intros [= <-]. cbn [fst].
  apply (for_each_fills
           (λ m (k : string * string), ∃ x, m !! k.1 = Some x ∧ is_Some (x !! k.2))
           (λ (prefix : string * string) k, k.1 = prefix.1 ∧ k.2 ∈ hemis)) in Hloop.
  2:{ intros s prefix s' _ Hbody. apply ts_prefix_fills in Hbody as [Hkeep Hfill].
      split.
      - intros [label h]. apply Hkeep.
      - intros [label h] [Hl Hh]. cbn [fst snd] in *. subst label. by apply Hfill. }
  destruct Hloop as [Hkeep Hfill]. cbn [fst] in Hkeep, Hfill.
  apply (level_fills
           (λ m (k : string * string), ∃ x, m !! k.1 = Some x ∧ is_Some (x !! k.2))
           (λ k, (∃ prefix, prefix ∈ ts_prefixes ∧ k.1 = prefix.1) ∧ k.2 ∈ hemis));
    [done|].
  intros k [(prefix & Hprefix & Hl) Hh]. by apply (Hfill prefix).
Qed.

Lemma ts_story_fills (story : string)
    (st st' : gmap string (gmap string (gmap string (gmap string (leaf (list float)))))
              * list key) :
  ts_story nanmean corrcoef check_keys load_split_data st story = Ok st' →
  (∀ s (k : string * (string * string)),
     (∃ z, st.1 !! s = Some z ∧
        ∃ y, z !! k.1 = Some y ∧ ∃ x, y !! k.2.1 = Some x ∧ is_Some (x !! k.2.2)) →
     ∃ z, st'.1 !! s = Some z ∧
        ∃ y, z !! k.1 = Some y ∧ ∃ x, y !! k.2.1 = Some x ∧ is_Some (x !! k.2.2)) ∧
  (∀ k : string * (string * string),
     k.1 ∈ rois ∧ (∃ prefix, prefix ∈ ts_prefixes ∧ k.2.1 = prefix.1) ∧ k.2.2 ∈ hemis →
     ∃ z, st'.1 !! story = Some z ∧
        ∃ y, z !! k.1 = Some y ∧ ∃ x, y !! k.2.1 = Some x ∧ is_Some (x !! k.2.2)).
Proof.
  destruct st as [results out]. unfold ts_story. cbn [fst].
  destruct (for_each _ _ _) as [[inner out']|e] eqn:Hloop; [|done].
  rewrite bind_Ok. intros [= <-]. cbn [fst].
  apply (for_each_fills
           (λ m (k : string * (string * string)),
              ∃ y, m !! k.1 = Some y ∧ ∃ x, y !! k.2.1 = Some x ∧ is_Some (x !! k.2.2))
           (λ (roi : string) k,
              k.1 = roi ∧ (∃ prefix, prefix ∈ ts_prefixes ∧ k.2.1 = prefix.1) ∧
              k.2.2 ∈ hemis)) in Hloop.
  2:{ intros s roi s' _ Hbody. apply ts_roi_fills in Hbody as [Hkeep Hfill].
      split.
      - intros [r k]. apply Hkeep.
      - intros [r k] [Hr Hk]. cbn [fst snd] in *. subst r. by apply Hfill. }
  destruct Hloop as [Hkeep Hfill]. cbn [fst] in Hkeep, Hfill.
  apply (level_fills
           (λ m (k : string * (string * string)),
              ∃ y, m !! k.1 = Some y ∧ ∃ x, y !! k.2.1 = Some x ∧ is_Some (x !! k.2.2))
           (λ k, k.1 ∈ rois ∧ (∃ prefix, prefix ∈ ts_prefixes ∧ k.2.1 = prefix.1) ∧
                 k.2.2 ∈ hemis));
    [done|].
  intros k (Hr & Hl & Hh). by apply (Hfill k.1).
Qed.

(** After a run of the loop every key of its scope has a leaf. *)
Lemma ts_classification_main_fills
    (results results' : gmap string (gmap string (gmap string (gmap string (leaf (list float))))))
    (out : list key) (story roi : string) (prefix : string * string) (hemi : string) :
  ts_classification_main nanmean corrcoef check_keys load_split_data results
    = Ok (results', out) →
  story ∈ stories → roi ∈ rois → prefix ∈ ts_prefixes → hemi ∈ hemis →
  ∃ z, results' !! story = Some z ∧
    ∃ y, z !! roi = Some y ∧ ∃ x, y !! prefix.1 = Some x ∧ is_Some (x !! hemi).
Proof.
  intros Hrun Hstory Hroi Hprefix Hhemi. unfold ts_classification_main in Hrun.
  apply (for_each_fills
           (λ m (k : string * (string * (string * string))),
              ∃ z, m !! k.1 = Some z ∧
                ∃ y, z !! k.2.1 = Some y ∧
                  ∃ x, y !! k.2.2.1 = Some x ∧ is_Some (x !! k.2.2.2))
           (λ (story : string) k,
              k.1 = story ∧ k.2.1 ∈ rois ∧
              (∃ prefix, prefix ∈ ts_prefixes ∧ k.2.2.1 = prefix.1) ∧
              k.2.2.2 ∈ hemis)) in Hrun.
  2:{ intros s story' s' _ Hbody. apply ts_story_fills in Hbody as [Hkeep Hfill].
      split.
      - intros [s0 k]. apply Hkeep.
      - intros [s0 k] [Hs Hk]. cbn [fst snd] in *. subst s0. by apply Hfill. }
  destruct Hrun as [_ Hfill].
  apply (Hfill story (story, (roi, (prefix.1, hemi)))); [done|].
  cbn [fst snd]. split; [done|]. split; [done|]. split; [by exists prefix | done].
Qed.

(** On a cache that has a leaf for every key of the scope, the loop
    computes nothing and hands the cache back. *)
Lemma ts_classification_main_skips_filled
    (results : gmap string (gmap string (gmap string (gmap string (leaf (list float)))))) :
  (∀ story roi prefix hemi,
     story ∈ stories → roi ∈ rois → prefix ∈ ts_prefixes → hemi ∈ hemis →
     ∃ z, results !! story = Some z ∧
       ∃ y, z !! roi = Some y ∧ ∃ x, y !! prefix.1 = Some x ∧ is_Some (x !! hemi)) →
  ts_classification_main nanmean corrcoef check_keys load_split_data results
    = Ok (results, []).
Proof.
  intros Hfilled. unfold ts_classification_main.
  generalize (@nil key). intros out.
  apply for_each_skips. intros story Hstory.
  destruct (Hfilled story "EAC"%string ("no SRM", "noSRM")%string "lh"%string Hstory)
    as (z & Hz & _); [by left..|].
  unfold ts_story.
  destruct (level_skips story results z Hz) as (_ & Hdefault_z & Hinsert_z).
  rewrite Hdefault_z.
  rewrite (for_each_skips rois (z, out)); [by rewrite bind_Ok, Hinsert_z|].
  intros roi Hroi.
  destruct (Hfilled story roi ("no SRM", "noSRM")%string "lh"%string Hstory Hroi)
    as (z' & Hz' & y & Hy & _); [by left..|].
  assert (z' = z) as -> by congruence. clear Hz'.
  unfold ts_roi.
  destruct (level_skips roi z y Hy) as (_ & Hdefault_y & Hinsert_y).
  rewrite Hdefault_y.
  rewrite (for_each_skips ts_prefixes (y, out)); [by rewrite bind_Ok, Hinsert_y|].
  intros prefix Hprefix.
  destruct (Hfilled story roi prefix "lh"%string Hstory Hroi Hprefix)
    as (z' & Hz' & y' & Hy' & x & Hx & _); [by left|].
  assert (z' = z) as -> by congruence. assert (y' = y) as -> by congruence.
  clear Hz' Hy'.
  unfold ts_prefix.
  set (prefix' := if String.eqb _ _ then _ else prefix).
  assert (Hlabel : prefix'.1 = prefix.1) by (unfold prefix'; by destruct (String.eqb _ _)).
  rewrite Hlabel.
  destruct (level_skips prefix.1 y x Hx) as (_ & Hdefault_x & Hinsert_x).
  rewrite Hdefault_x.
  rewrite (for_each_skips hemis (x, out)); [by rewrite bind_Ok, Hinsert_x|].
  intros hemi Hhemi.
  destruct (Hfilled story roi prefix hemi Hstory Hroi Hprefix Hhemi)
    as (z' & Hz' & y' & Hy' & x' & Hx' & Hleaf).
  assert (z' = z) as -> by congruence. assert (y' = y) as -> by congruence.
  assert (x' = x) as -> by congruence.
  unfold ts_hemi. rewrite decide_False; [done|].
  intros Hnone. rewrite Hnone in Hleaf. by destruct Hleaf.
Qed.

End TimeSegmentRerun.

(** X21. A completed run of the time-segment classification loop is not
    repeated: run again on the cache it has returned, with whatever data
    behind it, the loop loads and computes nothing, prints nothing, and
    hands the same cache back. *)
Theorem ts_classification_main_rerun
    (nanmean nanmean' : list float → float) (corrcoef corrcoef' : ndarray → ndarray → ndarray)
    (check_keys check_keys' : dict (dict ndarray) → option (list string) → result (list string))
    (load_split_data load_split_data' :
       string → string → Z → string → result (dict (dict (dict ndarray))))
    (results results' : gmap string (gmap string (gmap string (gmap string (leaf (list float))))))
    (out : list key) :
  ts_classification_main nanmean corrcoef check_keys load_split_data results
    = Ok (results', out) →
  ts_classification_main nanmean' corrcoef' check_keys' load_split_data' results'
    = Ok (results', []).
Proof.
  intros Hrun. apply ts_classification_main_skips_filled.
  intros story roi prefix hemi Hstory Hroi Hprefix Hhemi.
  by eapply ts_classification_main_fills.
Qed.

Lemma ts_classification_main_rerun_witness :
  let nanmean := λ l : list float, hd PrimFloat.nan l in
  let corrcoef := λ x y : ndarray,
    NdArray (nrows x + nrows y)
      (map (λ i, map (λ j, if decide (j = i + nrows x)%nat then 1%float else 0%float)
                     (seq 0 (nrows x + nrows y)))
           (seq 0 (nrows x + nrows y))) in
  let check_keys := λ (data : dict (dict ndarray)) (_ : option (list string)),
    Ok (keys data) in
  let load_split_data := λ (story hemi : string) (_ : Z) (_ : string),
    Ok [(story,
         [("sub-01"%string,
           [(hemi, NdArray 1 (map (λ i, [float_of_Z (Z.of_nat i)]) (seq 0 20)))]);
          ("sub-02"%string,
           [(hemi, NdArray 1 (map (λ i, [float_of_Z (Z.of_nat (2 * i))]) (seq 0 20)))])])] in
  let unreadable := λ (_ hemi : string) (_ : Z) (prefix : string),
    Raise (OSError prefix) in
  ∃ results out,
    ts_classification_main nanmean corrcoef check_keys load_split_data ∅
      = Ok (results, out) ∧
    ts_classification_main nanmean corrcoef check_keys unreadable results
      = Ok (results, []).
Proof.
  intros nanmean corrcoef check_keys load_split_data unreadable.
  assert (Hcheck : (r ← ts_classification_main nanmean corrcoef check_keys
                          load_split_data ∅;
                    Ok (length r.2))
                   = Ok 640%nat)
    by (vm_compute; reflexivity).
  destruct (ts_classification_main nanmean corrcoef check_keys load_split_data ∅)
    as [[results out]|e] eqn:Hrun; [|discriminate Hcheck].
  exists results, out. split; [reflexivity|].
  exact (ts_classification_main_rerun nanmean nanmean corrcoef corrcoef
           check_keys check_keys load_split_data unreadable ∅ results out Hrun).
Defined.

(** ** The ISC loop: what the cache holds afterwards *)

Lemma level_lookup {X} `{Empty X} (k k' : string) (results : gmap string X) (inner' : X) :
  <[k := inner']> (setdefault_empty results k) !! k'
  = if decide (k' = k) then Some inner' else results !! k'.
Proof.
  case_decide as Hk; [subst; apply lookup_insert_eq|].
  rewrite lookup_insert_ne by done. unfold setdefault_empty.
  case_decide; [by rewrite lookup_insert_ne | done].
Qed.

(** The labels of the ISC loop's prefixes are all different. *)
Lemma isc_prefix_of_label (prefix prefix' : string * string) :
  prefix ∈ isc_prefixes → prefix' ∈ isc_prefixes → prefix.1 = prefix'.1 → prefix = prefix'.
Proof.
  intros Hp Hp' Hlabel.
  assert (Hnodup : NoDup isc_prefixes.*1)
    by (apply (bool_decide_unpack _); vm_compute; exact I).
  apply list_elem_of_lookup in Hp as [i Hi]. apply list_elem_of_lookup in Hp' as [j Hj].
  assert (i = j) as ->; [|congruence].
  apply (NoDup_lookup _ i j prefix.1 Hnodup); rewrite list_lookup_fmap.
  - by rewrite Hi.
  - by rewrite Hj, Hlabel.
Qed.

Section IscResults.

Variable check_keys : dict (dict ndarray) → option (list string) → result (list string).
Variable load_split_data :
  string → string → Z → string → result (dict (dict (dict ndarray))).
Variable isc : ndarray3 → result ndarray.

Lemma isc_hemi_stores (story roi : string) (prefix : string * string)
    (st st' : gmap string (leaf ndarray) * list key) (hemi : string) :
  isc_hemi check_keys load_split_data isc story roi prefix st hemi = Ok st' →
  (∀ h, h ≠ hemi → st'.1 !! h = st.1 !! h) ∧
  ∃ subject_stack iscs,
    load_stack check_keys load_split_data story roi prefix hemi = Ok subject_stack ∧
    isc subject_stack = Ok iscs ∧
    st'.1 !! hemi = Some (Value iscs).
Proof.
  destruct st as [results out]. unfold isc_hemi.
  destruct (load_stack _ _ _ _ _ _) as [subject_stack|e] eqn:Hstack; [|done].
  rewrite bind_Ok.
  change (String.eqb isc_type "temporal") with true. cbv iota.
  destruct (isc subject_stack) as [iscs|e] eqn:Hisc; [|done]. rewrite bind_Ok.
  intros [= <-]. cbn [fst]. split.
  - intros h Hne. rewrite lookup_insert_ne by done.
    case_decide; [by rewrite lookup_insert_ne | done].
  - exists subject_stack, iscs. by rewrite lookup_insert_eq.
Qed.

Lemma isc_prefix_stores (story roi : string) (prefix : string * string)
    (st st' : gmap string (gmap string (leaf ndarray)) * list key) :
  isc_prefix check_keys load_split_data isc story roi st prefix = Ok st' →
  (∀ label, label ≠ prefix.1 → st'.1 !! label = st.1 !! label) ∧
  ∀ hemi, hemi ∈ hemis →
    ∃ x subject_stack iscs,
      st'.1 !! prefix.1 = Some x ∧
      load_stack check_keys load_split_data story roi prefix hemi = Ok subject_stack ∧
      isc subject_stack = Ok iscs ∧
      x !! hemi = Some (Value iscs).
Proof.
  destruct st as [results out]. unfold isc_prefix.
  destruct (for_each _ _ _) as [[inner out']|e] eqn:Hloop; [|done].
  rewrite bind_Ok. intros [= <-]. cbn [fst].
  apply (for_each_fills
           (λ x h, ∃ subject_stack iscs,
              load_stack check_keys load_split_data story roi prefix h = Ok subject_stack ∧
              isc subject_stack = Ok iscs ∧ x !! h = Some (Value iscs))
           (λ hemi h, h = hemi)) in Hloop.
  2:{ intros s hemi s' _ Hbody. apply isc_hemi_stores in Hbody as [Hother Hstored].
      split; [|by intros h ->].
      intros h (subject_stack & iscs & Hstack & Hisc & Hh).
      destruct (decide (h = hemi)) as [->|Hne]; [done|].
      exists subject_stack, iscs. by rewrite Hother. }
  destruct Hloop as [_ Hfill]. cbn [fst] in Hfill. split.
  - intros label Hne. by rewrite level_lookup, decide_False.
  - intros hemi Hhemi.
    destruct (Hfill hemi hemi Hhemi eq_refl) as (subject_stack & iscs & ? & ? & ?).
    exists inner, subject_stack, iscs. by rewrite level_lookup, decide_True.
Qed.

Lemma isc_roi_stores (story roi : string)
    (st st' : gmap string (gmap string (gmap string (leaf ndarray))) * list key) :
  isc_roi check_keys load_split_data isc story st roi = Ok st' →
  (∀ r, r ≠ roi → st'.1 !! r = st.1 !! r) ∧
  ∀ prefix hemi, prefix ∈ isc_prefixes → hemi ∈ hemis →
    ∃ y x subject_stack iscs,
      st'.1 !! roi = Some y ∧ y !! prefix.1 = Some x ∧
      load_stack check_keys load_split_data story roi prefix hemi = Ok subject_stack ∧
      isc subject_stack = Ok iscs ∧
      x !! hemi = Some (Value iscs).
Proof.
  destruct st as [results out]. unfold isc_roi.
  destruct (for_each _ _ _) as [[inner out']|e] eqn:Hloop; [|done].
  rewrite bind_Ok. intros [= <-]. cbn [fst].
  apply (for_each_fills
           (λ y (k : (string * string) * string),
              k.1 ∈ isc_prefixes → k.2 ∈ hemis →
              ∃ x subject_stack iscs,
                y !! k.1.1 = Some x ∧
                load_stack check_keys load_split_data story roi k.1 k.2 = Ok subject_stack ∧
                isc subject_stack = Ok iscs ∧ x !! k.2 = Some (Value iscs))
           (λ (prefix : string * string) k, k.1 = prefix)) in Hloop.
  2:{ intros s prefix s' Hprefix Hbody.
      apply isc_prefix_stores in Hbody as [Hother Hstored].
      split; [|intros [p h] ? _ ?; cbn [fst snd] in *; subst p; by apply Hstored].
      intros [p h] Hkept Hp Hh. cbn [fst snd] in *.
      destruct (decide (p.1 = prefix.1)) as [Hlabel|Hlabel].
      - apply isc_prefix_of_label in Hlabel as ->; [|done..]. by apply Hstored.
      - rewrite Hother by done. by apply Hkept. }
  destruct Hloop as [_ Hfill]. cbn [fst] in Hfill. split.
  - intros r Hne. by rewrite level_lookup, decide_False.
  - intros prefix hemi Hprefix Hhemi.
    destruct (Hfill prefix (prefix, hemi) Hprefix eq_refl Hprefix Hhemi)
      as (x & subject_stack & iscs & ? & ? & ? & ?).
    exists inner, x, subject_stack, iscs. by rewrite level_lookup, decide_True.
Qed.

Lemma isc_story_stores (story : string)
    (st st' : gmap string (gmap string (gmap string (gmap string (leaf ndarray)))) * list key) :
  isc_story check_keys load_split_data isc st story = Ok st' →
  (∀ s, s ≠ story → st'.1 !! s = st.1 !! s) ∧
  ∀ roi prefix hemi, roi ∈ rois → prefix ∈ isc_prefixes → hemi ∈ hemis →
    ∃ subject_stack iscs,
      load_stack check_keys load_split_data story roi prefix hemi = Ok subject_stack ∧
      isc subject_stack = Ok iscs ∧
      leaf_at st'.1 (story, roi, prefix.1, hemi) = Some (Value iscs).
Proof.
  destruct st as [results out]. unfold isc_story.
  destruct (for_each _ _ _) as [[inner out']|e] eqn:Hloop; [|done].
  rewrite bind_Ok. intros [= <-]. cbn [fst].
  apply (for_each_fills
           (λ z (k : string * (string * string) * string),
              k.1.2 ∈ isc_prefixes → k.2 ∈ hemis →
              ∃ y x subject_stack iscs,
                z !! k.1.1 = Some y ∧ y !! k.1.2.1 = Some x ∧
                load_stack check_keys load_split_data story k.1.1 k.1.2 k.2
                  = Ok subject_stack ∧
                isc subject_stack = Ok iscs ∧ x !! k.2 = Some (Value iscs))
           (λ (roi : string) k, k.1.1 = roi)) in Hloop.
  2:{ intros s roi s' Hroi Hbody.
      apply isc_roi_stores in Hbody as [Hother Hstored].
      split; [|intros [[r p] h] ? ? ?; cbn [fst snd] in *; subst r; by apply Hstored].
      intros [[r p] h] Hkept Hp Hh. cbn [fst snd] in *.
      destruct (decide (r = roi)) as [->|Hne]; [by apply Hstored|].
      rewrite Hother by done. by apply Hkept. }
  destruct Hloop as [_ Hfill]. cbn [fst] in Hfill. split.
  - intros s Hne. by rewrite level_lookup, decide_False.
  - intros roi prefix hemi Hroi Hprefix Hhemi.
    destruct (Hfill roi (roi, prefix, hemi) Hroi eq_refl Hprefix Hhemi)
      as (y & x & subject_stack & iscs & Hy & Hx & ? & ? & Hleaf).
    exists subject_stack, iscs. split; [done|]. split; [done|].
    unfold leaf_at. rewrite level_lookup, decide_True by done. cbn in *.
    rewrite Hy. cbn. by rewrite Hx.
Qed.

(** X22. What the cache holds after the ISC loop: under every key of the
    loop's scope is the ISC of the data loaded for that key, computed in
    this run, whatever leaf the cache held there before. *)
Theorem isc_main_stores_computed
    (results results' : gmap string (gmap string (gmap string (gmap string (leaf ndarray)))))
    (out : list key) (story roi : string) (prefix : string * string) (hemi : string) :
  isc_main check_keys load_split_data isc results = Ok (results', out) →
  story ∈ isc_stories → roi ∈ rois → prefix ∈ isc_prefixes → hemi ∈ hemis →
  ∃ subject_stack iscs,
    load_stack check_keys load_split_data story roi prefix hemi = Ok subject_stack ∧
    isc subject_stack = Ok iscs ∧
    leaf_at results' (story, roi, prefix.1, hemi) = Some (Value iscs).
Proof.
  intros Hrun Hstory Hroi Hprefix Hhemi. unfold isc_main in Hrun.
  apply (for_each_fills
           (λ m (k : string * string * (string * string) * string),
              k.1.1.2 ∈ rois → k.1.2 ∈ isc_prefixes → k.2 ∈ hemis →
              ∃ subject_stack iscs,
                load_stack check_keys load_split_data k.1.1.1 k.1.1.2 k.1.2 k.2
                  = Ok subject_stack ∧
                isc subject_stack = Ok iscs ∧
                leaf_at m (k.1.1.1, k.1.1.2, k.1.2.1, k.2) = Some (Value iscs))
           (λ (story : string) k, k.1.1.1 = story)) in Hrun.
  2:{ intros s story' s' _ Hbody.
      apply isc_story_stores in Hbody as [Hother Hstored].
      split; [|intros [[[s0 r] p] h] ? ? ? ?; cbn [fst snd] in *; subst s0; by apply Hstored].
      intros [[[s0 r] p] h] Hkept Hr Hp Hh. cbn [fst snd] in *.
      destruct (decide (s0 = story')) as [->|Hne]; [by apply Hstored|].
      destruct (Hkept Hr Hp Hh) as (subject_stack & iscs & ? & ? & Hleaf).
      exists subject_stack, iscs. split; [done|]. split; [done|].
      unfold leaf_at in *. by rewrite Hother. }
  destruct Hrun as [_ Hfill].
  exact (Hfill story (story, roi, prefix, hemi) Hstory eq_refl Hroi Hprefix Hhemi).
Qed.

End IscResults.

Lemma isc_main_stores_computed_witness :
  let check_keys := λ (data : dict (dict ndarray)) (_ : option (list string)),
    Ok (keys data) in
  let load_split_data := λ (story hemi : string) (_ : Z) (_ : string),
    Ok [(story, [("sub-01"%string, [(hemi, NdArray 1 [[1]; [2]]%float)]);
                 ("sub-02"%string, [(hemi, NdArray 1 [[1]; [3]]%float)])])] in
  let isc := λ _ : ndarray3, Ok (NdArray 1 [[1%float]]) in
  let cached : gmap string (gmap string (gmap string (gmap string (leaf ndarray)))) :=
    {[ "black"%string :=
         {[ "EAC"%string :=
              {[ "no SRM"%string :=
                   {[ "lh"%string := Value (NdArray 1 [[0.5%float]]) ]} ]} ]} ]} in
  ∃ results out,
    isc_main check_keys load_split_data isc cached = Ok (results, out) ∧
    "black"%string ∈ isc_stories ∧ "EAC"%string ∈ rois ∧
    ("no SRM", "noSRM")%string ∈ isc_prefixes ∧ "lh"%string ∈ hemis ∧
    ∃ subject_stack iscs,
      load_stack check_keys load_split_data "black" "EAC" ("no SRM", "noSRM")%string "lh"
        = Ok subject_stack ∧
      isc subject_stack = Ok iscs ∧
      leaf_at results ("black", "EAC", "no SRM", "lh")%string = Some (Value iscs).
Proof.
  intros check_keys load_split_data isc cached.
  assert (Hcheck : (r ← isc_main check_keys load_split_data isc cached;
                    Ok (length r.2)) = Ok 128%nat)
    by (vm_compute; reflexivity).
  destruct (isc_main check_keys load_split_data isc cached)
    as [[results out]|e] eqn:Hrun; [|discriminate Hcheck].
  assert (Hstory : "black"%string ∈ isc_stories) by left.
  assert (Hroi : "EAC"%string ∈ rois) by left.
  assert (Hprefix : ("no SRM", "noSRM")%string ∈ isc_prefixes) by left.
  assert (Hhemi : "lh"%string ∈ hemis) by left.
  exists results, out. split; [reflexivity|].
  split; [exact Hstory|]. split; [exact Hroi|]. split; [exact Hprefix|].
  split; [exact Hhemi|].
  exact (isc_main_stores_computed check_keys load_split_data isc cached results out
           "black" "EAC" ("no SRM", "noSRM")%string "lh" Hrun Hstory Hroi Hprefix Hhemi).
Defined.

(** ** Time-segment correlation: the entries of the result *)

(** [np.dstack] of arrays of one shape. *)
Lemma dstack_Ok (l : list ndarray) (r c : nat) :
  l ≠ [] → (∀ b, b ∈ l → shape b = (r, c)) →
  dstack l = Ok (NdArray3 c (length l)
                   (map (λ i, map (λ j, map (λ b, nth j (nth i (rows b) []) PrimFloat.nan) l)
                                  (seq 0 c))
                        (seq 0 r))).
Proof.
  intros Hne Hshape. destruct l as [|a l]; [done|]. unfold dstack.
  pose proof (Hshape a ltac:(left)) as [= Hr Hc].
  rewrite (proj2 (forallb_forall _ _)).
  - by rewrite Hr, Hc.
  - intros b Hb%list_elem_of_In. apply bool_decide_eq_true.
    rewrite (Hshape b) by (by right). unfold shape. by rewrite Hr, Hc.
Qed.

Lemma wf_last_axis (a : ndarray3) (k : nat) :
  wf3 a → wf (last_axis a k) ∧ shape (last_axis a k) = (dim0 a, dim1 a).
Proof.
  intros Hwf. unfold wf, shape, nrows, last_axis, dim0. cbn [rows ncols].
  rewrite length_map. split; [|done].
  rewrite Forall_fmap. eapply Forall_impl; [exact Hwf|].
  intros plane [Hlen _]. cbn. by rewrite length_map.
Qed.

(** Entry [[i][j]] of the slice [a[..., k]]. *)
Lemma last_axis_entry (a : ndarray3) (i j k : nat) :
  nth j (nth i (rows (last_axis a k)) []) PrimFloat.nan = entry a i j k.
Proof.
  unfold last_axis, entry. cbn [rows].
  change (@nil float) with (map (λ line : list float, nth k line PrimFloat.nan) []) at 1.
  rewrite map_nth.
  replace PrimFloat.nan with (nth k (@nil float) PrimFloat.nan) at 1 by (by destruct k).
  by rewrite (map_nth (λ line : list float, nth k line PrimFloat.nan)).
Qed.

Lemma nth_upper_right (c : ndarray) (n i j : nat) :
  (i < n)%nat → (n ≤ nrows c)%nat →
  nth j (nth i (rows (upper_right c (Z.of_nat n) (Z.of_nat n))) []) PrimFloat.nan
  = nth (n + j) (nth i (rows c) []) PrimFloat.nan.
Proof.
  intros Hi Hn. unfold upper_right, nrows in *. cbn [rows].
  rewrite slice_to_nat.
  destruct (lookup_lt_is_Some_2 (rows c) i) as [r Hr]; [lia|].
  rewrite (nth_lookup_Some _ _ _ (Py.slice r (Some (Z.of_nat n)) None)).
  2:{ change (map ?f ?l) with (f <$> l). by rewrite list_lookup_fmap, lookup_take_lt, Hr. }
  rewrite (nth_lookup_Some (rows c) i [] r Hr), slice_from_nat.
  rewrite !nth_lookup. by rewrite lookup_drop.
Qed.

Lemma shape_upper_right (c : ndarray) (n : nat) :
  wf c → shape c = ((n + n)%nat, (n + n)%nat) →
  wf (upper_right c (Z.of_nat n) (Z.of_nat n)) ∧
  shape (upper_right c (Z.of_nat n) (Z.of_nat n)) = (n, n).
Proof.
  intros Hwf [= Hrows Hcols]. unfold wf, shape, nrows, upper_right in *. cbn [rows ncols].
  rewrite !slice_to_nat, !slice_from_nat, length_map, length_take, length_drop, length_seq.
  split; [|f_equal; lia].
  rewrite Forall_fmap. apply Forall_take. eapply Forall_impl; [exact Hwf|].
  intros r Hr. unfold compose. cbn beta in Hr.
  rewrite slice_from_nat, length_drop. lia.
Qed.

Section SegmentCorrelationEntries.

Variable nanmean : list float → float.
Variable corrcoef : ndarray → ndarray → ndarray.

(** X23. The entries of [time_segment_correlation]. For well-formed data of
    [S >= 2] subjects that holds [n >= 1] segments, and a [corrcoef] that
    returns the square matrix over the rows of both its arguments, the
    result has shape [(n, n, S)], and its entry [[i, j, s]] is the
    correlation of segment [i] of subject [s] with segment [j] of the
    average of the other subjects: entry [[i, n + j]] of the correlation
    matrix of the two segmentations. *)
Theorem time_segment_correlation_entries (data : ndarray3) (L : Z) (average : bool)
    (n : nat) :
  wf3 data → (2 ≤ dim2 data)%nat → (1 ≤ n)%nat →
  Z.of_nat (dim0 data) `div` L = Z.of_nat n →
  (∀ x y, nrows x = n → nrows y = n →
     wf (corrcoef x y) ∧ shape (corrcoef x y) = ((n + n)%nat, (n + n)%nat)) →
  ∃ correlations,
    time_segment_correlation nanmean corrcoef data L average = Ok correlations ∧
    wf3 correlations ∧
    (dim0 correlations, dim1 correlations, dim2 correlations) = (n, n, dim2 data) ∧
    ∀ s, (s < dim2 data)%nat →
      let others :=
        NdArray (dim1 data)
          (map (λ t, map (λ v, nanmean (map (λ o, entry data t v o)
                                          (filter (λ o, o ≠ s) (seq 0 (dim2 data)))))
                         (seq 0 (dim1 data)))
               (seq 0 (dim0 data))) in
      ∃ subject_segments others_segments,
        time_segmentation (last_axis data s) L average = Ok subject_segments ∧
        time_segmentation others L average = Ok others_segments ∧
        ∀ i j, (i < n)%nat → (j < n)%nat →
          entry correlations i j s
          = nth (n + j) (nth i (rows (corrcoef subject_segments others_segments)) [])
              PrimFloat.nan.
Proof.
  intros Hwf Hsubjects Hn Hdiv Hcorrcoef.
  assert (HL : L ≠ 0) by (intros ->; rewrite Z.div_0_r in Hdiv; lia).
  set (others := λ s,
         NdArray (dim1 data)
           (map (λ t, map (λ v, nanmean (map (λ o, entry data t v o)
                                           (filter (λ o, o ≠ s) (seq 0 (dim2 data)))))
                          (seq 0 (dim1 data)))
                (seq 0 (dim0 data)))).
  (* the two segmentations of a subject *)
  assert (Hsegments : ∀ s, ∃ subject_segments others_segments,
            time_segmentation (last_axis data s) L average = Ok subject_segments ∧
            time_segmentation (others s) L average = Ok others_segments ∧
            nrows subject_segments = n ∧ nrows others_segments = n).
  { intros s.
    destruct (wf_last_axis data s Hwf) as [Hwf_s [= Hrows_s]].
    destruct (time_segmentation_chunks (last_axis data s) L average Hwf_s)
      as (chunks & Hlen & _ & Hrun); [rewrite Hrows_s; lia|].
    assert (Hwf_o : wf (others s)).
    { unfold wf, others. cbn [rows ncols]. rewrite Forall_fmap. apply Forall_forall.
      intros t _. cbn. by rewrite length_map, length_seq. }
    assert (Hrows_o : nrows (others s) = dim0 data).
    { unfold nrows, others. cbn [rows]. by rewrite length_map, length_seq. }
    destruct (time_segmentation_chunks (others s) L average Hwf_o)
      as (chunks' & Hlen' & _ & Hrun'); [rewrite Hrows_o; lia|].
    eexists _, _. split; [exact Hrun|]. split; [exact Hrun'|].
    rewrite Hrows_s in Hlen. rewrite Hrows_o in Hlen'.
    unfold nrows. cbn [rows]. rewrite !length_map. lia. }
  (* the loop over the subjects *)
  assert (Hloop : ∃ correlations,
            Forall2 (λ s correlation,
               ∃ subject_segments others_segments,
                 time_segmentation (last_axis data s) L average = Ok subject_segments ∧
                 time_segmentation (others s) L average = Ok others_segments ∧
                 nrows subject_segments = n ∧ nrows others_segments = n ∧
                 correlation = upper_right (corrcoef subject_segments others_segments)
                                 (Z.of_nat n) (Z.of_nat n))
              (seq 0 (dim2 data)) correlations ∧
            time_segment_correlation nanmean corrcoef data L average = dstack correlations).
  { unfold time_segment_correlation, floordiv.
    rewrite (proj2 (Z.eqb_neq L 0) HL), bind_Ok, Hdiv. cbv zeta.
    match goal with
    | |- context [mapM ?f (seq 0 (dim2 data))] =>
        destruct (mapM_Forall2 f
                    (λ s correlation,
                       ∃ subject_segments others_segments,
                         time_segmentation (last_axis data s) L average
                           = Ok subject_segments ∧
                         time_segmentation (others s) L average = Ok others_segments ∧
                         nrows subject_segments = n ∧ nrows others_segments = n ∧
                         correlation
                         = upper_right (corrcoef subject_segments others_segments)
                             (Z.of_nat n) (Z.of_nat n))
                    (seq 0 (dim2 data))) as (correlations & Hrun & Hall)
    end.
    2:{ exists correlations. split; [done|]. by rewrite Hrun, bind_Ok. }
    intros s [_ Hs]%elem_of_seq. cbv beta.
    rewrite (dstack_Ok _ (dim0 data) (dim1 data)).
    2:{ intros Hnil%(f_equal length).
        rewrite length_map, length_others, decide_True in Hnil by lia. cbn in Hnil. lia. }
    2:{ intros b (o & -> & _)%list_elem_of_fmap. by apply wf_last_axis. }
    rewrite bind_Ok. cbn [dim2 dim1 cells].
    rewrite length_map, length_others, decide_True by lia.
    rewrite Nat.eqb_refl. cbn [assert]. rewrite bind_Ok.
    assert (Hothers : NdArray (dim1 data)
              (map (map nanmean)
                 (map (λ i, map (λ j, map (λ b, nth j (nth i (rows b) []) PrimFloat.nan)
                                        (map (last_axis data)
                                           (filter (λ i_other, i_other ≠ s)
                                              (seq 0 (dim2 data)))))
                                (seq 0 (dim1 data)))
                      (seq 0 (dim0 data))))
            = others s).
    { unfold others. f_equal. rewrite map_map. apply map_ext. intros t.
      rewrite map_map. apply map_ext. intros v. f_equal.
      rewrite map_map. apply map_ext. intros o. apply last_axis_entry. }
    rewrite Hothers.
    destruct (Hsegments s) as (subject_segments & others_segments & Hss & Hos & Hns & Hno).
    rewrite Hss, bind_Ok, Hos, bind_Ok.
    rewrite bool_decide_eq_true_2 by (split; lia). cbn [assert]. rewrite bind_Ok.
    eexists. split; [done|]. by exists subject_segments, others_segments. }
  destruct Hloop as (correlations & Hall & ->).
  (* the final stack *)
  assert (Hshapes : ∀ b, b ∈ correlations → shape b = (n, n)).
  { intros b Hb. apply list_elem_of_lookup in Hb as [s Hb].
    destruct (Forall2_lookup_r _ _ _ _ _ Hall Hb) as (s' & _ & ss & os & _ & _ & ? & ? & ->).
    by apply shape_upper_right; apply Hcorrcoef. }
  pose proof (Forall2_length _ _ _ Hall) as Hlen. rewrite length_seq in Hlen.
  rewrite (dstack_Ok correlations n n); [|intros ->; cbn in Hlen; lia|done].
  eexists. split; [done|]. split; [|split].
  - unfold wf3. cbn [cells dim1 dim2]. rewrite Forall_fmap. apply Forall_forall.
    intros i _. cbn. rewrite length_map, length_seq. split; [done|].
    rewrite Forall_fmap. apply Forall_forall. intros j _. cbn. by rewrite length_map.
  - unfold dim0. cbn [cells dim1 dim2]. by rewrite length_map, length_seq, <- Hlen.
  - intros s Hs.
    destruct (Forall2_lookup_l _ _ _ s s Hall) as (b & Hb & ss & os & Hss & Hos & Hns & Hno & ->).
    { apply lookup_seq. lia. }
    exists ss, os. split; [done|]. split; [done|]. intros i j Hi Hj.
    unfold entry. cbn [cells].
    rewrite (nth_lookup_Some _ i []
               (map (λ j, map (λ b, nth j (nth i (rows b) []) PrimFloat.nan) correlations)
                    (seq 0 n))).
    2:{ change (map ?f ?l) with (f <$> l). rewrite list_lookup_fmap, lookup_seq_lt by done.
        done. }
    rewrite (nth_lookup_Some _ j []
               (map (λ b, nth j (nth i (rows b) []) PrimFloat.nan) correlations)).
    2:{ change (map ?f (seq 0 n)) with (f <$> seq 0 n).
        rewrite list_lookup_fmap, lookup_seq_lt by done. done. }
    erewrite (nth_lookup_Some _ s).
    2:{ change (map ?f correlations) with (f <$> correlations).
        by rewrite list_lookup_fmap, Hb. }
    apply nth_upper_right; [done|].
    destruct (Hcorrcoef ss os) as [_ [= Hrows _]]; [done..|]. lia.
Qed.

End SegmentCorrelationEntries.

Lemma time_segment_correlation_entries_witness :
  let nanmean := λ l : list float, hd PrimFloat.nan l in
  let corrcoef := λ x y : ndarray,
    NdArray (nrows x + nrows y)
      (map (λ i, map (λ j, if decide (j = i + nrows x)%nat then 1%float else 0%float)
                     (seq 0 (nrows x + nrows y)))
           (seq 0 (nrows x + nrows y))) in
  let data := NdArray3 1 2 [[[1; 2]]; [[2; 4]]; [[3; 6]]; [[4; 8]]; [[5; 10]]]%float in
  wf3 data ∧ (2 ≤ dim2 data)%nat ∧ (1 ≤ 2)%nat ∧
  Z.of_nat (dim0 data) `div` 2 = Z.of_nat 2 ∧
  (∀ x y, nrows x = 2%nat → nrows y = 2%nat →
     wf (corrcoef x y) ∧ shape (corrcoef x y) = ((2 + 2)%nat, (2 + 2)%nat)) ∧
  ∃ correlations,
    time_segment_correlation nanmean corrcoef data 2 false = Ok correlations ∧
    wf3 correlations ∧
    (dim0 correlations, dim1 correlations, dim2 correlations) = (2%nat, 2%nat, dim2 data) ∧
    ∀ s, (s < dim2 data)%nat →
      let others :=
        NdArray (dim1 data)
          (map (λ t, map (λ v, nanmean (map (λ o, entry data t v o)
                                          (filter (λ o, o ≠ s) (seq 0 (dim2 data)))))
                         (seq 0 (dim1 data)))
               (seq 0 (dim0 data))) in
      ∃ subject_segments others_segments,
        time_segmentation (last_axis data s) 2 false = Ok subject_segments ∧
        time_segmentation others 2 false = Ok others_segments ∧
        ∀ i j, (i < 2)%nat → (j < 2)%nat →
          entry correlations i j s
          = nth (2 + j) (nth i (rows (corrcoef subject_segments others_segments)) [])
              PrimFloat.nan.
Proof.
  intros nanmean corrcoef data.
  assert (Hwf : wf3 data) by (unfold wf3; cbn; repeat constructor).
  assert (Hsubjects : (2 ≤ dim2 data)%nat) by (cbn; lia).
  assert (Hn : (1 ≤ 2)%nat) by lia.
  assert (Hdiv : Z.of_nat (dim0 data) `div` 2 = Z.of_nat 2) by reflexivity.
  assert (Hcorrcoef : ∀ x y, nrows x = 2%nat → nrows y = 2%nat →
            wf (corrcoef x y) ∧ shape (corrcoef x y) = ((2 + 2)%nat, (2 + 2)%nat)).
  { intros x y Hx Hy. unfold corrcoef, wf, shape, nrows in *. cbn [rows ncols].
    rewrite Hx, Hy. split; [|reflexivity]. cbn. repeat constructor. }
  split; [exact Hwf|]. split; [exact Hsubjects|]. split; [exact Hn|].
  split; [exact Hdiv|]. split; [exact Hcorrcoef|].
  exact (time_segment_correlation_entries nanmean corrcoef data 2 false 2
           Hwf Hsubjects Hn Hdiv Hcorrcoef).
Defined.

(** ** The time-segment loop: what the cache holds afterwards *)

(** A loop each of whose steps leaves a leaf as it is, or computes the leaf
    of a key that had none, does so as a whole. *)
Lemma for_each_computes {X A L} (at_key : X → key → option L) (scope : key → Prop)
    (C : key → L → Prop) (l : list A) (body : X * list key → A → result (X * list key))
    (s s' : X * list key) :
  (∀ s x s', x ∈ l → body s x = Ok s' →
     ∀ k, scope k →
       at_key s'.1 k = at_key s.1 k ∨
       (at_key s.1 k = None ∧ ∃ v, C k v ∧ at_key s'.1 k = Some v)) →
  for_each l s body = Ok s' →
  ∀ k, scope k →
    at_key s'.1 k = at_key s.1 k ∨
    (at_key s.1 k = None ∧ ∃ v, C k v ∧ at_key s'.1 k = Some v).
Proof.
  revert s. induction l as [|x l IH]; intros s Hbody Hrun k Hk.
  - injection Hrun as <-. by left.
  - cbn [for_each] in Hrun. destruct (body s x) as [s1|e] eqn:Hx; [|done].
    rewrite bind_Ok in Hrun.
    destruct (IH s1 ltac:(intros s2 y s3 Hy; apply Hbody; by right) Hrun k Hk)
      as [Hsame|(Hnone & v & Hv & Hnew)];
      destruct (Hbody s x s1 ltac:(left) Hx k Hk) as [Hsame1|(Hnone1 & v1 & Hv1 & Hnew1)].
    + left. congruence.
    + right. split; [done|]. exists v1. split; [done | congruence].
    + right. split; [congruence|]. by exists v.
    + congruence.
Qed.

(** One level of the nested loops, for the leaves below a key. *)
Lemma level_computes {X L} `{Empty X} (at_inner : X → key → option L)
    (component : key → string) (scope : key → Prop) (C : key → L → Prop) (k : string)
    (results : gmap string X) (inner' : X) :
  (∀ key, at_inner ∅ key = None) →
  (∀ key, scope key → component key = k →
     at_inner inner' key = at_inner (default ∅ (setdefault_empty results k !! k)) key ∨
     (at_inner (default ∅ (setdefault_empty results k !! k)) key = None ∧
      ∃ v, C key v ∧ at_inner inner' key = Some v)) →
  ∀ key, scope key →
    (x ← <[k := inner']> (setdefault_empty results k) !! component key; at_inner x key)
    = (x ← results !! component key; at_inner x key) ∨
    ((x ← results !! component key; at_inner x key) = None ∧
     ∃ v, C key v ∧
       (x ← <[k := inner']> (setdefault_empty results k) !! component key; at_inner x key)
       = Some v).
Proof.
  intros Hempty Hinner key Hscope. rewrite level_lookup. case_decide as Hk; [|by left].
  assert (Hat : at_inner (default ∅ (setdefault_empty results k !! k)) key
                = (x ← results !! component key; at_inner x key)).
  { rewrite Hk. unfold setdefault_empty. case_decide as Hnone.
    - rewrite lookup_insert_eq, Hnone. cbn. apply Hempty.
    - destruct (results !! k); [done | congruence]. }
  rewrite <- Hat. cbn. exact (Hinner key Hscope Hk).
Qed.

(** No label of the loop's prefixes starts with [tSRM], and the labels are
    all different. *)
Lemma ts_prefix_unchanged (story : string) (prefix : string * string) :
  prefix ∈ ts_prefixes →
  (if String.eqb (String.substring 0 4 prefix.1) "tSRM"
   then (prefix.1,
         String.substring 0 (String.length prefix.2 - 4) prefix.2 +:+ story +:+ "-test")
   else prefix) = prefix.
Proof.
  intros Hprefix. unfold ts_prefixes in Hprefix.
  repeat (apply elem_of_cons in Hprefix as [->|Hprefix]; [reflexivity|]).
  by apply elem_of_nil in Hprefix.
Qed.

Lemma ts_prefix_of_label (prefix prefix' : string * string) :
  prefix ∈ ts_prefixes → prefix' ∈ ts_prefixes → prefix.1 = prefix'.1 → prefix = prefix'.
Proof.
  intros Hp Hp' Hlabel.
  assert (Hnodup : NoDup ts_prefixes.*1)
    by (apply (bool_decide_unpack _); vm_compute; exact I).
  apply list_elem_of_lookup in Hp as [i Hi]. apply list_elem_of_lookup in Hp' as [j Hj].
  assert (i = j) as ->; [|congruence].
  apply (NoDup_lookup _ i j prefix.1 Hnodup); rewrite list_lookup_fmap.
  - by rewrite Hi.
  - by rewrite Hj, Hlabel.
Qed.

Section TimeSegmentResults.

Variable nanmean : list float → float.
Variable corrcoef : ndarray → ndarray → ndarray.
Variable check_keys : dict (dict ndarray) → option (list string) → result (list string).
Variable load_split_data :
  string → string → Z → string → result (dict (dict (dict ndarray))).

Lemma ts_hemi_computes (story roi : string) (prefix : string * string)
    (st st' : gmap string (leaf (list float)) * list key) (hemi : string) :
  prefix ∈ ts_prefixes →
  ts_hemi nanmean corrcoef check_keys load_split_data story roi prefix st hemi = Ok st' →
  ∀ k : key, k.1 = (story, roi, prefix.1) →
    st'.1 !! k.2 = st.1 !! k.2 ∨
    (st.1 !! k.2 = None ∧
     ∃ v, (∃ prefix subject_stack correlations accuracies chance,
            prefix ∈ ts_prefixes ∧ prefix.1 = (k).1.2 ∧
            load_stack check_keys load_split_data (k).1.1.1 (k).1.1.2 prefix (k).2
              = Ok subject_stack ∧
            time_segment_correlation nanmean corrcoef subject_stack segment_length average
              = Ok correlations ∧
            correlation_classification correlations = Ok (accuracies, chance) ∧
            v = Value accuracies) ∧ st'.1 !! k.2 = Some v).
Proof.
  intros Hprefix. destruct st as [results out]. unfold ts_hemi. cbn [fst].
  case_decide as Hmissing; [|intros [= <-]; by left].
  destruct (load_stack _ _ _ _ _ _) as [subject_stack|e] eqn:Hstack; [|done].
  rewrite bind_Ok.
  destruct (time_segment_correlation _ _ _ _ _) as [correlations|e] eqn:Hcorr; [|done].
  rewrite bind_Ok.
  destruct (correlation_classification _) as [[accuracies chance]|e] eqn:Hclass; [|done].
  rewrite bind_Ok. intros [= <-] [[[s r] l] h] [= -> -> ->]. cbn [fst snd].
  destruct (decide (h = hemi)) as [->|Hne]; [|left; by rewrite !lookup_insert_ne].
  right. split; [done|]. exists (Value accuracies). rewrite lookup_insert_eq.
  split; [|done]. by exists prefix, subject_stack, correlations, accuracies, chance.
Qed.

Lemma ts_prefix_computes (story roi : string) (prefix : string * string)
    (st st' : gmap string (gmap string (leaf (list float))) * list key) :
  prefix ∈ ts_prefixes →
  ts_prefix nanmean corrcoef check_keys load_split_data story roi st prefix = Ok st' →
  ∀ k : key, k.1.1 = (story, roi) →
    (x ← st'.1 !! k.1.2; x !! k.2) = (x ← st.1 !! k.1.2; x !! k.2) ∨
    ((x ← st.1 !! k.1.2; x !! k.2) = None ∧
     ∃ v, (∃ prefix subject_stack correlations accuracies chance,
            prefix ∈ ts_prefixes ∧ prefix.1 = (k).1.2 ∧
            load_stack check_keys load_split_data (k).1.1.1 (k).1.1.2 prefix (k).2
              = Ok subject_stack ∧
            time_segment_correlation nanmean corrcoef subject_stack segment_length average
              = Ok correlations ∧
            correlation_classification correlations = Ok (accuracies, chance) ∧
            v = Value accuracies) ∧ (x ← st'.1 !! k.1.2; x !! k.2) = Some v).
Proof.
  intros Hprefix. destruct st as [results out]. unfold ts_prefix.
  rewrite (ts_prefix_unchanged story prefix Hprefix).
  destruct (for_each _ _ _) as [[inner out']|e] eqn:Hloop; [|done].
  rewrite bind_Ok. intros [= <-]. cbn [fst].
  apply (level_computes (λ m (key : key), m !! key.2) (λ key : key, key.1.2)
           (λ key : key, key.1.1 = (story, roi))
           (λ (k : key) (v : leaf (list float)),
            ∃ prefix subject_stack correlations accuracies chance,
            prefix ∈ ts_prefixes ∧ prefix.1 = (k).1.2 ∧
            load_stack check_keys load_split_data (k).1.1.1 (k).1.1.2 prefix (k).2
              = Ok subject_stack ∧
            time_segment_correlation nanmean corrcoef subject_stack segment_length average
              = Ok correlations ∧
            correlation_classification correlations = Ok (accuracies, chance) ∧
            v = Value accuracies)); [done|].
  intros k Hscope Hlabel.
  apply (for_each_computes (λ m (key : key), m !! key.2)
           (λ key : key, key.1 = (story, roi, prefix.1))
           (λ (k : key) (v : leaf (list float)),
            ∃ prefix subject_stack correlations accuracies chance,
            prefix ∈ ts_prefixes ∧ prefix.1 = (k).1.2 ∧
            load_stack check_keys load_split_data (k).1.1.1 (k).1.1.2 prefix (k).2
              = Ok subject_stack ∧
            time_segment_correlation nanmean corrcoef subject_stack segment_length average
              = Ok correlations ∧
            correlation_classification correlations = Ok (accuracies, chance) ∧
            v = Value accuracies)) with (k := k) in Hloop; [exact Hloop| |].
  - intros s hemi s' _ Hbody. by eapply ts_hemi_computes.
  - destruct k as [[[s r] l] h]. cbn [fst snd] in *. congruence.
Qed.

Lemma ts_roi_computes (story roi : string)
    (st st' : gmap string (gmap string (gmap string (leaf (list float)))) * list key) :
  ts_roi nanmean corrcoef check_keys load_split_data story st roi = Ok st' →
  ∀ k : key, k.1.1.1 = story →
    (y ← st'.1 !! k.1.1.2; x ← y !! k.1.2; x !! k.2)
    = (y ← st.1 !! k.1.1.2; x ← y !! k.1.2; x !! k.2) ∨
    ((y ← st.1 !! k.1.1.2; x ← y !! k.1.2; x !! k.2) = None ∧
     ∃ v, (∃ prefix subject_stack correlations accuracies chance,
            prefix ∈ ts_prefixes ∧ prefix.1 = (k).1.2 ∧
            load_stack check_keys load_split_data (k).1.1.1 (k).1.1.2 prefix (k).2
              = Ok subject_stack ∧
            time_segment_correlation nanmean corrcoef subject_stack segment_length average
              = Ok correlations ∧
            correlation_classification correlations = Ok (accuracies, chance) ∧
            v = Value accuracies) ∧ (y ← st'.1 !! k.1.1.2; x ← y !! k.1.2; x !! k.2) = Some v).
Proof.
  destruct st as [results out]. unfold ts_roi.
  destruct (for_each _ _ _) as [[inner out']|e] eqn:Hloop; [|done].
  rewrite bind_Ok. intros [= <-]. cbn [fst].
  apply (level_computes (λ m (key : key), x ← m !! key.1.2; x !! key.2)
           (λ key : key, key.1.1.2) (λ key : key, key.1.1.1 = story)
           (λ (k : key) (v : leaf (list float)),
            ∃ prefix subject_stack correlations accuracies chance,
            prefix ∈ ts_prefixes ∧ prefix.1 = (k).1.2 ∧
            load_stack check_keys load_split_data (k).1.1.1 (k).1.1.2 prefix (k).2
              = Ok subject_stack ∧
            time_segment_correlation nanmean corrcoef subject_stack segment_length average
              = Ok correlations ∧
            correlation_classification correlations = Ok (accuracies, chance) ∧
            v = Value accuracies)); [done|].
  intros k Hscope Hroi.
  apply (for_each_computes (λ m (key : key), x ← m !! key.1.2; x !! key.2)
           (λ key : key, key.1.1 = (story, roi))
           (λ (k : key) (v : leaf (list float)),
            ∃ prefix subject_stack correlations accuracies chance,
            prefix ∈ ts_prefixes ∧ prefix.1 = (k).1.2 ∧
            load_stack check_keys load_split_data (k).1.1.1 (k).1.1.2 prefix (k).2
              = Ok subject_stack ∧
            time_segment_correlation nanmean corrcoef subject_stack segment_length average
              = Ok correlations ∧
            correlation_classification correlations = Ok (accuracies, chance) ∧
            v = Value accuracies)) with (k := k) in Hloop; [exact Hloop| |].
  - intros s prefix s' Hprefix Hbody. by eapply ts_prefix_computes.
  - destruct k as [[[s r] l] h]. cbn [fst snd] in *. congruence.
Qed.

Lemma ts_story_computes (story : string)
    (st st' : gmap string (gmap string (gmap string (gmap string (leaf (list float)))))
              * list key) :
  ts_story nanmean corrcoef check_keys load_split_data st story = Ok st' →
  ∀ k : key,
    leaf_at st'.1 k = leaf_at st.1 k ∨
    (leaf_at st.1 k = None ∧ ∃ v, (∃ prefix subject_stack correlations accuracies chance,
            prefix ∈ ts_prefixes ∧ prefix.1 = (k).1.2 ∧
            load_stack check_keys load_split_data (k).1.1.1 (k).1.1.2 prefix (k).2
              = Ok subject_stack ∧
            time_segment_correlation nanmean corrcoef subject_stack segment_length average
              = Ok correlations ∧
            correlation_classification correlations = Ok (accuracies, chance) ∧
            v = Value accuracies) ∧ leaf_at st'.1 k = Some v).
Proof.
  destruct st as [results out]. unfold ts_story.
  destruct (for_each _ _ _) as [[inner out']|e] eqn:Hloop; [|done].
  rewrite bind_Ok. intros [= <-] k. cbn [fst].
  pose proof (λ Hempty, level_computes
           (λ m (key : key), y ← m !! key.1.1.2; x ← y !! key.1.2; x !! key.2)
           (λ key : key, key.1.1.1) (λ _, True)
           (λ (k : key) (v : leaf (list float)),
            ∃ prefix subject_stack correlations accuracies chance,
            prefix ∈ ts_prefixes ∧ prefix.1 = (k).1.2 ∧
            load_stack check_keys load_split_data (k).1.1.1 (k).1.1.2 prefix (k).2
              = Ok subject_stack ∧
            time_segment_correlation nanmean corrcoef subject_stack segment_length average
              = Ok correlations ∧
            correlation_classification correlations = Ok (accuracies, chance) ∧
            v = Value accuracies) story results inner Hempty) as Hlevel.
  specialize (Hlevel ltac:(done)).
  destruct k as [[[s r] l] h]. unfold leaf_at.
  refine (Hlevel _ (s, r, l, h) I). clear s r l h Hlevel.
  intros k _ Hstory.
  apply (for_each_computes
           (λ m (key : key), y ← m !! key.1.1.2; x ← y !! key.1.2; x !! key.2)
           (λ key : key, key.1.1.1 = story)
           (λ (k : key) (v : leaf (list float)),
            ∃ prefix subject_stack correlations accuracies chance,
            prefix ∈ ts_prefixes ∧ prefix.1 = (k).1.2 ∧
            load_stack check_keys load_split_data (k).1.1.1 (k).1.1.2 prefix (k).2
              = Ok subject_stack ∧
            time_segment_correlation nanmean corrcoef subject_stack segment_length average
              = Ok correlations ∧
            correlation_classification correlations = Ok (accuracies, chance) ∧
            v = Value accuracies)) with (k := k) in Hloop; [exact Hloop| |done].
  intros s' roi s'' _ Hbody. by eapply ts_roi_computes.
Qed.

(** X24. What the cache holds after the time-segment classification loop.
    A key of the loop's scope that had a leaf has it unchanged; a key that
    had none holds the accuracies that [correlation_classification] finds
    in the time-segment correlations of the subjects stacked for it. *)
Theorem ts_classification_main_leaves
    (results results' : gmap string (gmap string (gmap string (gmap string (leaf (list float))))))
    (out : list key) (story roi : string) (prefix : string * string) (hemi : string) :
  ts_classification_main nanmean corrcoef check_keys load_split_data results
    = Ok (results', out) →
  story ∈ stories → roi ∈ rois → prefix ∈ ts_prefixes → hemi ∈ hemis →
  match leaf_at results (story, roi, prefix.1, hemi) with
  | Some v => leaf_at results' (story, roi, prefix.1, hemi) = Some v
  | None =>
      ∃ subject_stack correlations accuracies chance,
        load_stack check_keys load_split_data story roi prefix hemi = Ok subject_stack ∧
        time_segment_correlation nanmean corrcoef subject_stack segment_length average
          = Ok correlations ∧
        correlation_classification correlations = Ok (accuracies, chance) ∧
        leaf_at results' (story, roi, prefix.1, hemi) = Some (Value accuracies)
  end.
Proof.
  intros Hrun Hstory Hroi Hprefix Hhemi.
  destruct (ts_classification_main_fills _ _ _ _ _ _ _ story roi prefix hemi Hrun
              Hstory Hroi Hprefix Hhemi) as (z & Hz & y & Hy & x & Hx & [v' Hfilled]).
  assert (Hleaf' : leaf_at results' (story, roi, prefix.1, hemi) = Some v').
  { unfold leaf_at. rewrite Hz. cbn. rewrite Hy. cbn. by rewrite Hx. }
  unfold ts_classification_main in Hrun.
  apply (for_each_computes leaf_at (λ _, True)
           (λ (k : key) (v : leaf (list float)),
            ∃ prefix subject_stack correlations accuracies chance,
            prefix ∈ ts_prefixes ∧ prefix.1 = (k).1.2 ∧
            load_stack check_keys load_split_data (k).1.1.1 (k).1.1.2 prefix (k).2
              = Ok subject_stack ∧
            time_segment_correlation nanmean corrcoef subject_stack segment_length average
              = Ok correlations ∧
            correlation_classification correlations = Ok (accuracies, chance) ∧
            v = Value accuracies)) with (k := (story, roi, prefix.1, hemi)) in Hrun; [| |done].
  2:{ intros s story' s' _ Hbody k _. by eapply ts_story_computes. }
  cbn [fst snd] in Hrun.
  destruct Hrun as [Hsame|(Hnone & v & Hv & Hnew)].
  - rewrite <- Hsame, Hleaf'. done.
  - rewrite Hnone.
    destruct Hv as (prefix0 & subject_stack & correlations & accuracies & chance
                    & Hprefix0 & Hlabel & Hstack & Hcorr & Hclass & ->).
    apply ts_prefix_of_label in Hlabel as ->; [|done..].
    by exists subject_stack, correlations, accuracies, chance.
Qed.

End TimeSegmentResults.

Lemma ts_classification_main_leaves_witness :
  let nanmean := λ l : list float, hd PrimFloat.nan l in
  let corrcoef := λ x y : ndarray,
    NdArray (nrows x + nrows y)
      (map (λ i, map (λ j, if decide (j = i + nrows x)%nat then 1%float else 0%float)
                     (seq 0 (nrows x + nrows y)))
           (seq 0 (nrows x + nrows y))) in
  let check_keys := λ (data : dict (dict ndarray)) (_ : option (list string)),
    Ok (keys data) in
  let load_split_data := λ (story hemi : string) (_ : Z) (_ : string),
    Ok [(story,
         [("sub-01"%string,
           [(hemi, NdArray 1 (map (λ i, [float_of_Z (Z.of_nat i)]) (seq 0 20)))]);
          ("sub-02"%string,
           [(hemi, NdArray 1 (map (λ i, [float_of_Z (Z.of_nat (2 * i))]) (seq 0 20)))])])] in
  let cached : gmap string (gmap string (gmap string (gmap string (leaf (list float))))) :=
    {[ "black"%string :=
         {[ "EAC"%string :=
              {[ "no SRM"%string := {[ "lh"%string := Value [0.25%float] ]} ]} ]} ]} in
  ∃ results out,
    ts_classification_main nanmean corrcoef check_keys load_split_data cached
      = Ok (results, out) ∧
    "black"%string ∈ stories ∧ "EAC"%string ∈ rois ∧
    ("no SRM", "noSRM")%string ∈ ts_prefixes ∧ "rh"%string ∈ hemis ∧
    match leaf_at cached ("black", "EAC", "no SRM", "rh")%string with
    | Some v => leaf_at results ("black", "EAC", "no SRM", "rh")%string = Some v
    | None =>
        ∃ subject_stack correlations accuracies chance,
          load_stack check_keys load_split_data "black" "EAC" ("no SRM", "noSRM")%string "rh"
            = Ok subject_stack ∧
          time_segment_correlation nanmean corrcoef subject_stack segment_length average
            = Ok correlations ∧
          correlation_classification correlations = Ok (accuracies, chance) ∧
          leaf_at results ("black", "EAC", "no SRM", "rh")%string = Some (Value accuracies)
    end.
Proof.
  intros nanmean corrcoef check_keys load_split_data cached.
  assert (Hcheck : (r ← ts_classification_main nanmean corrcoef check_keys
                          load_split_data cached;
                    Ok (length r.2)) = Ok 639%nat)
    by (vm_compute; reflexivity).
  destruct (ts_classification_main nanmean corrcoef check_keys load_split_data cached)
    as [[results out]|e] eqn:Hrun; [|discriminate Hcheck].
  assert (Hstory : "black"%string ∈ stories) by (do 8 right; left).
  assert (Hroi : "EAC"%string ∈ rois) by left.
  assert (Hprefix : ("no SRM", "noSRM")%string ∈ ts_prefixes) by left.
  assert (Hhemi : "rh"%string ∈ hemis) by (right; left).
  exists results, out. split; [reflexivity|].
  split; [exact Hstory|]. split; [exact Hroi|]. split; [exact Hprefix|].
  split; [exact Hhemi|].
  exact (ts_classification_main_leaves nanmean corrcoef check_keys load_split_data
           cached results out "black" "EAC" ("no SRM", "noSRM")%string "rh"
           Hrun Hstory Hroi Hprefix Hhemi).
Defined.

(** ** NaN correlations *)

(** No comparison with a NaN holds. *)
Lemma ltb_nan (x y : float) :
  PrimFloat.is_nan x = true → (x <? y)%float = false ∧ (y <? x)%float = false.
Proof.
  unfold PrimFloat.is_nan.
  rewrite !FloatAxioms.ltb_spec, FloatAxioms.eqb_spec.
  unfold SFltb, SFeqb.
  destruct (Prim2SF x) as [[]|[]| |[] mx ex], (Prim2SF y) as [[]|[]| |[] my ey];
    cbn; try done; rewrite ?Z.compare_refl, ?Pos.compare_cont_refl; try done.
Qed.

(** X25. A NaN among the correlations is a miss and no error. For a
    correlation tensor of shape [(n, n, S)] with [n >= 2], a subject all of
    whose rows hold a NaN gets the accuracy [0 / n]: [np.amax] hands the NaN
    on, and no comparison with a NaN holds. *)
Theorem correlation_classification_nan_rows (correlations : ndarray3) (s : nat) :
  wf3 correlations → dim1 correlations = dim0 correlations →
  (2 ≤ dim0 correlations)%nat → (s < dim2 correlations)%nat →
  (∀ i, (i < dim0 correlations)%nat →
     ∃ j, (j < dim0 correlations)%nat ∧
          PrimFloat.is_nan (entry correlations i j s) = true) →
  ∃ accuracies chance,
    correlation_classification correlations = Ok (accuracies, chance) ∧
    accuracies !! s = Some (float_of_Z 0 / float_of_Z (Z.of_nat (dim0 correlations)))%float.
Proof.
  intros Hwf Hsq Hn Hs Hnan.
  set (n := dim0 correlations) in *.
  set (hit_of := λ (slice : list (list float)) (i : nat),
         match amax (off_diagonal (nth i slice []) i) with
         | Ok best_other => (best_other <? nth i (nth i slice []) PrimFloat.nan)%float
         | Raise _ => false
         end).
  set (slices := moveaxis_2_0 correlations).
  assert (Hslice : ∀ s slice i row, slices !! s = Some slice → slice !! i = Some row →
            ∃ diagonal best_other,
              row !! i = Some diagonal ∧
              amax (off_diagonal row i) = Ok best_other ∧
              hit_of slice i = (best_other <? diagonal)%float ∧
              ((best_other <? diagonal)%float = true →
               ∀ j, (j < n)%nat → j ≠ i →
                 (entry correlations i j s <? entry correlations i i s)%float = true)).
  { intros s' slice i row Hs' Hi.
    destruct (moveaxis_2_0_row _ _ _ _ _ Hwf Hs' Hi) as (Hlen & Hrow & Hentries).
    rewrite Hsq in Hrow, Hentries.
    assert (Hin : (i < n)%nat) by (apply lookup_lt_Some in Hi; lia).
    destruct (hit_row row i (entry correlations i i s')) as (m & Hm & Hiff);
      [lia | by apply Hentries |].
    exists (entry correlations i i s'), m.
    split; [by apply Hentries|]. split; [done|]. split.
    - unfold hit_of. rewrite (nth_lookup slice), Hi. cbn [default from_option id].
      by rewrite Hm, nth_lookup, Hentries.
    - intros Hlt j Hj Hne. apply (proj1 Hiff Hlt j); [done | by apply Hentries]. }
  assert (Hlen : ∀ s slice, slices !! s = Some slice → length slice = n).
  { intros s' slice Hs'. unfold slices, moveaxis_2_0, last_axis in Hs'. cbn [rows] in Hs'.
    apply list_lookup_fmap_Some in Hs' as (s'' & -> & _). by rewrite length_map. }
  exists (map (λ slice,
            (float_of_Z (Z.of_nat (length (filter (λ b : bool, b = true)
                                             (map (hit_of slice) (seq 0 n)))))
             / float_of_Z (Z.of_nat n))%float) slices),
         (1 / float_of_Z (Z.of_nat n))%float.
  split.
  - unfold correlation_classification. fold n. fold slices.
    rewrite (mapM_Ok _ (λ slice,
            (float_of_Z (Z.of_nat (length (filter (λ b : bool, b = true)
                                             (map (hit_of slice) (seq 0 n)))))
             / float_of_Z (Z.of_nat n))%float)).
    + rewrite bind_Ok. unfold truediv.
      rewrite (proj2 (Z.eqb_neq (Z.of_nat n) 0)) by lia. by rewrite bind_Ok.
    + intros slice (s' & Hs')%list_elem_of_lookup_1.
      rewrite (count_hits_spec slice (hit_of slice)).
      * rewrite bind_Ok, (Hlen s' slice Hs'). unfold truediv.
        by rewrite (proj2 (Z.eqb_neq (Z.of_nat n) 0)) by lia.
      * intros i row Hi.
        destruct (Hslice s' slice i row Hs' Hi) as (d & m & Hd & Hm & Hhit & _).
        eauto.
  - destruct (lookup_lt_is_Some_2 slices s) as [slice Hslice_s].
    { unfold slices, moveaxis_2_0. by rewrite length_map, length_seq. }
    rewrite list_lookup_fmap, Hslice_s. cbn. do 3 f_equal.
    assert (Hmiss : ∀ i, (i < n)%nat → hit_of slice i = false).
    { intros i Hi.
      destruct (lookup_lt_is_Some_2 slice i) as [row Hrow]; [by rewrite (Hlen s slice)|].
      destruct (Hslice s slice i row Hslice_s Hrow) as (d & m & _ & _ & -> & Hhit).
      destruct (m <? d)%float eqn:Hlt; [|done]. exfalso.
      destruct (Hnan i Hi) as (j & Hj & Hisnan).
      destruct (decide (j = i)) as [->|Hne].
      - specialize (Hhit eq_refl (if decide (i = 0)%nat then 1 else 0)%nat
                      ltac:(case_decide; lia) ltac:(case_decide; lia)).
        by rewrite (proj2 (ltb_nan _ _ Hisnan)) in Hhit.
      - specialize (Hhit eq_refl j Hj Hne).
        by rewrite (proj1 (ltb_nan _ _ Hisnan)) in Hhit. }
    assert (Hnone : ∀ k m, (k + m ≤ n)%nat →
              filter (λ b : bool, b = true) (map (hit_of slice) (seq k m)) = []).
    { intros k m. revert k. induction m as [|m IH]; intros k Hk; [done|].
      cbn [seq map]. rewrite filter_cons, Hmiss by lia.
      rewrite decide_False by done. apply IH. lia. }
    by rewrite Hnone.
Qed.

Lemma correlation_classification_nan_rows_witness :
  let correlations :=
    NdArray3 2 2 [[[0.9; PrimFloat.nan]; [0.1; 0.2]];
                  [[0.3; 0.2]; [0.8; PrimFloat.nan]]]%float in
  wf3 correlations ∧ dim1 correlations = dim0 correlations ∧
  (2 ≤ dim0 correlations)%nat ∧ (1 < dim2 correlations)%nat ∧
  (∀ i, (i < dim0 correlations)%nat →
     ∃ j, (j < dim0 correlations)%nat ∧
          PrimFloat.is_nan (entry correlations i j 1) = true) ∧
  ∃ accuracies chance,
    correlation_classification correlations = Ok (accuracies, chance) ∧
    accuracies !! 1%nat
    = Some (float_of_Z 0 / float_of_Z (Z.of_nat (dim0 correlations)))%float.
Proof.
  intros correlations.
  assert (Hwf : wf3 correlations) by (unfold wf3; cbn; repeat constructor).
  assert (Hsq : dim1 correlations = dim0 correlations) by reflexivity.
  assert (Hn : (2 ≤ dim0 correlations)%nat) by (cbn; lia).
  assert (Hs : (1 < dim2 correlations)%nat) by (cbn; lia).
  assert (Hnan : ∀ i, (i < dim0 correlations)%nat →
            ∃ j, (j < dim0 correlations)%nat ∧
                 PrimFloat.is_nan (entry correlations i j 1) = true).
  { intros i Hi. exists i. split; [done|].
    destruct i as [|[|i]]; [reflexivity | reflexivity | cbn in Hi; lia]. }
  split; [exact Hwf|]. split; [exact Hsq|]. split; [exact Hn|]. split; [exact Hs|].
  split; [exact Hnan|].
  exact (correlation_classification_nan_rows correlations 1 Hwf Hsq Hn Hs Hnan).
Defined.
